(** * energy-allocator: a shallow embedding of the allocation pipeline

    The development follows the three modules of the repository:
    [auxiliary_module.py] (date-format detection and series alignment),
    [spot_module.py] (price cache and hourly median) and
    [energy_allocator.py] (the allocation waterfall and its summaries).

    Numeric cells of a pandas frame are float64 values.  They are modelled as
    exact rationals, with [None] standing for the missing value NaN, so every
    statement below is about the arithmetic the code asks for, not about
    binary rounding.  [DataFrame.round] is an explicit step of the code and is
    modelled as such. *)

From Stdlib Require Import String Ascii.
From Stdlib Require Import ZArith QArith Qround Qabs Lia Lqa List Bool Arith.
From Stdlib Require Import DecimalString Sorted.
Import ListNotations.

Local Open Scope Q_scope.

(** ** Cells and NaN-aware arithmetic *)

Definition cell := option Q.
Definition NaN : cell := None.

(** Equality of cells: NaN only matches NaN, numbers are compared as rationals. *)
Definition cell_eq (a b : cell) : Prop :=
  match a, b with
  | Some x, Some y => x == y
  | None, None => True
  | _, _ => False
  end.

Infix "=c=" := cell_eq (at level 70, no associativity).

Definition cell_lift2 (f : Q -> Q -> Q) (a b : cell) : cell :=
  match a, b with
  | Some x, Some y => Some (f x y)
  | _, _ => None
  end.

Definition cell_add := cell_lift2 Qplus.
Definition cell_sub := cell_lift2 Qminus.
Definition cell_mul := cell_lift2 Qmult.

Definition cell_map (f : Q -> Q) (a : cell) : cell :=
  match a with Some x => Some (f x) | None => None end.

(** [clip(lower=lo)]: values below [lo] become [lo], NaN stays NaN. *)
Definition clip_lowerQ (lo x : Q) : Q := if Qle_bool lo x then x else lo.
Definition cell_clip_lower (lo : Q) : cell -> cell := cell_map (clip_lowerQ lo).

(** The mathematical maximum and minimum the specification speaks of. *)
Definition maxQ (x y : Q) : Q := if Qle_bool x y then y else x.

(** Sums skip NaN (pandas' default [skipna=True]); an all-NaN sum is 0. *)
Definition cell_or0 (a : cell) : Q := match a with Some x => x | None => 0 end.
Definition nansum (l : list cell) : Q := fold_right (fun a acc => cell_or0 a + acc) 0 l.

(** The non-missing values of a row, in order. *)
Fixpoint present (l : list cell) : list Q :=
  match l with
  | [] => []
  | Some x :: l' => x :: present l'
  | None :: l' => present l'
  end.

(** Mean of the non-missing values; NaN when there is none. *)
Definition sumQ (l : list Q) : Q := fold_right Qplus 0 l.
Definition nanmean (l : list cell) : cell :=
  match present l with
  | [] => NaN
  | v => Some (sumQ v / inject_Z (Z.of_nat (List.length v)))
  end.

(** ** Rounding ([round(decimals)], ties to even) *)

(** Nearest integer, halves going to the even neighbour. *)
Definition rint (x : Q) : Z :=
  let f := Qfloor x in
  match Qcompare (x - inject_Z f) (1 # 2) with
  | Lt => f
  | Gt => (f + 1)%Z
  | Eq => if Z.even f then f else (f + 1)%Z
  end.

Definition pow10 (d : nat) : Q := inject_Z (10 ^ Z.of_nat d).

Definition round_dec (d : nat) (x : Q) : Q :=
  inject_Z (rint (x * pow10 d)) / pow10 d.

Definition cell_round (d : nat) : cell -> cell := cell_map (round_dec d).

(** ** Strings: the helpers the column-name handling relies on *)

Module Str.

Definition lower_ascii (c : ascii) : ascii :=
  let n := nat_of_ascii c in
  if (65 <=? n)%nat && (n <=? 90)%nat then ascii_of_nat (n + 32) else c.

(** [str.lower()] on ASCII text. *)
Fixpoint lower (s : string) : string :=
  match s with
  | EmptyString => EmptyString
  | String c s' => String (lower_ascii c) (lower s')
  end.

(** [sub in s]. *)
Fixpoint contains (sub s : string) : bool :=
  String.prefix sub s ||
  match s with
  | EmptyString => false
  | String _ s' => contains sub s'
  end.

Fixpoint drop (n : nat) (s : string) : string :=
  match n, s with
  | O, _ => s
  | S n', String _ s' => drop n' s'
  | S _, EmptyString => EmptyString
  end.

(** [s.replace(old, new)] for a non-empty [old]: every occurrence, scanning
    left to right.  [fuel] bounds the scan by the length of [s]. *)
Fixpoint replace_fuel (fuel : nat) (old new s : string) : string :=
  match fuel with
  | O => s
  | S fuel' =>
      match s with
      | EmptyString => EmptyString
      | String c s' =>
          if String.prefix old s
          then new ++ replace_fuel fuel' old new (drop (String.length old) s)
          else String c (replace_fuel fuel' old new s')
      end
  end.

Definition replace (old new s : string) : string :=
  replace_fuel (String.length s) old new s.

(** [f"{i}"] for a non-negative integer. *)
Definition of_nat (n : nat) : string := NilEmpty.string_of_uint (Nat.to_uint n).

Definition is_space (c : ascii) : bool :=
  let n := nat_of_ascii c in
  ((9 <=? n)%nat && (n <=? 13)%nat) || (n =? 32)%nat.

Fixpoint lstrip (s : string) : string :=
  match s with
  | String c s' => if is_space c then lstrip s' else s
  | EmptyString => EmptyString
  end.

Fixpoint rstrip (s : string) : string :=
  match s with
  | EmptyString => EmptyString
  | String c s' =>
      match rstrip s' with
      | EmptyString => if is_space c then EmptyString else String c EmptyString
      | r => String c r
      end
  end.

(** [s.strip()]. *)
Definition strip (s : string) : string := rstrip (lstrip s).

End Str.

(** ** Timestamps (UTC) *)

Record Timestamp := mkTs {
  year : Z; month : Z; day : Z; hour : Z; minute : Z; second : Z
}.

Definition ts_eqb (a b : Timestamp) : bool :=
  (year a =? year b)%Z && (month a =? month b)%Z && (day a =? day b)%Z &&
  (hour a =? hour b)%Z && (minute a =? minute b)%Z && (second a =? second b)%Z.

Definition ts_fields (a : Timestamp) : list Z :=
  [year a; month a; day a; hour a; minute a; second a].

Fixpoint lex_leb (a b : list Z) : bool :=
  match a, b with
  | x :: a', y :: b' => (x <? y)%Z || ((x =? y)%Z && lex_leb a' b')
  | _, _ => true
  end.

(** Chronological order. *)
Definition ts_leb (a b : Timestamp) : bool := lex_leb (ts_fields a) (ts_fields b).

Definition ts_mem (t : Timestamp) (idx : list Timestamp) : bool := existsb (ts_eqb t) idx.

(** ** Series and frames

    A series is an index (its row labels) with a value per label; a frame is
    an index with an ordered list of named columns.  Values are always read
    through [loc], which yields NaN for a label outside the index: this is
    pandas' label alignment. *)

Record Series := mkSeries {
  s_index : list Timestamp;
  s_at : Timestamp -> cell
}.

Definition loc (s : Series) (t : Timestamp) : cell :=
  if ts_mem t (s_index s) then s_at s t else NaN.

Definition index_union (a b : list Timestamp) : list Timestamp :=
  a ++ filter (fun t => negb (ts_mem t a)) b.

(** Arithmetic of two series aligns them on the union of their indexes. *)
Definition series_binop (f : cell -> cell -> cell) (a b : Series) : Series :=
  {| s_index := index_union (s_index a) (s_index b);
     s_at := fun t => f (loc a t) (loc b t) |}.

Definition series_sub := series_binop cell_sub.
Definition series_add := series_binop cell_add.
Definition series_mul := series_binop cell_mul.

Definition series_map (f : cell -> cell) (a : Series) : Series :=
  {| s_index := s_index a; s_at := fun t => f (loc a t) |}.

Definition series_clip_lower (lo : Q) : Series -> Series := series_map (cell_clip_lower lo).
Definition series_scale (w : Q) : Series -> Series := series_map (cell_map (fun x => x * w)).

(** [Series.sum()]. *)
Definition series_sum (a : Series) : Q := nansum (map (loc a) (s_index a)).

Definition Column := (string * (Timestamp -> cell))%type.

Record DataFrame := mkFrame {
  df_index : list Timestamp;
  df_columns : list Column
}.

(** [pd.DataFrame()] *)
Definition empty_frame : DataFrame := {| df_index := []; df_columns := [] |}.

Definition columns (df : DataFrame) : list string := map fst (df_columns df).

Definition has_column (name : string) (df : DataFrame) : bool :=
  existsb (String.eqb name) (columns df).

(** [df[name]]: [None] is the KeyError of a missing column. *)
Definition getitem (df : DataFrame) (name : string) : option Series :=
  match find (fun c => String.eqb name (fst c)) (df_columns df) with
  | Some c => Some {| s_index := df_index df; s_at := snd c |}
  | None => None
  end.

Fixpoint upsert (name : string) (f : Timestamp -> cell) (cols : list Column) : list Column :=
  match cols with
  | [] => [(name, f)]
  | c :: cols' =>
      if String.eqb name (fst c) then (name, f) :: cols' else c :: upsert name f cols'
  end.

Definition is_nil {A} (l : list A) : bool := match l with [] => true | _ => false end.

(** [df[name] = s].  The series is aligned on the frame's index; an existing
    column is replaced in place, a new one is appended on the right.  A frame
    whose index is still empty takes the index of the first non-empty series
    assigned to it. *)
Definition setitem (df : DataFrame) (name : string) (s : Series) : DataFrame :=
  if is_nil (df_index df) && negb (is_nil (s_index s))
  then {| df_index := s_index s;
          df_columns := upsert name (loc s)
                          (map (fun c => (fst c, fun _ => NaN)) (df_columns df)) |}
  else {| df_index := df_index df;
          df_columns := upsert name (loc s) (df_columns df) |}.

Definition count_name (name : string) (names : list string) : nat :=
  List.length (filter (String.eqb name) names).

Fixpoint position (name : string) (names : list string) : nat :=
  match names with
  | [] => O
  | n :: names' => if String.eqb name n then O else S (position name names')
  end.

(** [df.columns.get_loc(name)] as an integer position: only a label that
    occurs exactly once has one. *)
Definition get_loc (df : DataFrame) (name : string) : option nat :=
  if (count_name name (columns df) =? 1)%nat
  then Some (position name (columns df))
  else None.

(** [df.insert(loc, name, s)]: [None] is the error raised for a column that
    already exists or for a position past the end. *)
Definition insert (df : DataFrame) (pos : nat) (name : string) (s : Series) : option DataFrame :=
  if has_column name df then None
  else if (List.length (df_columns df) <? pos)%nat then None
  else Some {| df_index := df_index df;
               df_columns := firstn pos (df_columns df) ++ (name, loc s)
                               :: skipn pos (df_columns df) |}.

(** [df.sum(axis=1)]. *)
Definition frame_sum_rows (df : DataFrame) : Series :=
  {| s_index := df_index df;
     s_at := fun t =>
       Some (nansum (map (fun c : Column =>
                           loc {| s_index := df_index df; s_at := snd c |} t)
                         (df_columns df))) |}.

(** [df.round(d)]. *)
Definition frame_round (d : nat) (df : DataFrame) : DataFrame :=
  {| df_index := df_index df;
     df_columns := map (fun c : Column => (fst c, fun t => cell_round d (snd c t)))
                       (df_columns df) |}.

(** The value of column [name] in row [t]; NaN when there is no such cell. *)
Definition at_ (df : DataFrame) (name : string) (t : Timestamp) : cell :=
  match getitem df name with
  | Some s => loc s t
  | None => NaN
  end.

(** Rows whose label satisfies [keep]. *)
Definition frame_filter (keep : Timestamp -> bool) (df : DataFrame) : DataFrame :=
  {| df_index := filter keep (df_index df); df_columns := df_columns df |}.

(** [df.reindex(idx)] *)
Definition frame_reindex (idx : list Timestamp) (df : DataFrame) : DataFrame :=
  {| df_index := idx;
     df_columns := map (fun c : Column =>
                          (fst c, loc {| s_index := df_index df; s_at := snd c |}))
                       (df_columns df) |}.

Definition frame_of_series (name : string) (s : Series) : DataFrame :=
  {| df_index := s_index s; df_columns := [(name, loc s)] |}.

(** A small option monad for code that may raise: [None] is a raised exception. *)
Notation "x <- e ;; k" := (match e with Some x => k | None => None end)
  (at level 61, e at next level, right associativity).

(** ** auxiliary_module.py *)

Module Auxiliary.

(** [AuxiliaryVar.date_time_formats], in the order of the source. *)
Definition date_time_formats : list string := [
  "%m/%d/";
  "%d/%m/";
  "%m-%d";
  "%f/%e/";
  "%b %e, ";
  "%B %e, ";
  "%m-%d %H:%M:%S";
  "%m-%d %I:%M:%S %p";
  "%d %B ";
  "%b %e, ";
  "%H:%M:%S";
  "%I:%M:%S %p";
  "%d.%m. %H:%M";
  "%m/%d/%Y";
  "%d/%m/%Y";
  "%Y-%m-%d";
  "%f/%e/%Y";
  "%b %e, %Y";
  "%B %e, %Y";
  "%Y-%m-%d %H:%M:%S";
  "%Y-%m-%d %I:%M:%S %p";
  "%d %B %Y";
  "%b %e, %Y";
  "%H:%M:%S";
  "%I:%M:%S %p";
  "%Y-%d.%m. %H:%M";
  "%Y-%m-%d %H:%M:%S%z"
]%string.

(** What [pd.read_csv(path, header=None)] does. *)
Inductive ReadResult :=
| FileNotFoundError
| OtherReadError
| ReadOk (rows : list (option string * cell)).

(** A frame as this module hands it on: either the two columns as read, under
    the default integer index, or the value column indexed by the parsed
    timestamps of column 0 (a missing entry parses to NaT, here [None]). *)
Inductive Loaded :=
| Unparsed (rows : list (option string * cell))
| Indexed (rows : list (option Timestamp * cell)).

(** What a call of this module returns: a frame, the class object
    [pd.DataFrame] itself (the source writes [return pd.DataFrame], without
    calling it), or an exception that leaves the function. *)
Inductive Returned :=
| Frame (v : Loaded)
| FrameClass
| Raises.

(** [pd.infer_freq]: a frequency string, no frequency, or an exception. *)
Inductive FreqResult :=
| Freq (f : option string)
| FreqRaises.

(** [remove_feb_29] *)
Definition is_feb_29 (t : Timestamp) : bool := (month t =? 2)%Z && (day t =? 29)%Z.

Definition remove_feb_29 (df : DataFrame) : DataFrame :=
  frame_filter (fun t => negb (is_feb_29 t)) df.

Definition rows_of (df : DataFrame) : Z := Z.of_nat (List.length (df_index df)).

(** [remove_feb_29_if_mismatch]; the third case of the source only logs. *)
Definition remove_feb_29_if_mismatch (df1 df2 : DataFrame) : DataFrame * DataFrame :=
  let len1 := rows_of df1 in
  let len2 := rows_of df2 in
  if (len1 =? 8784)%Z && (len2 =? 8760)%Z then (remove_feb_29 df1, df2)
  else if (len2 =? 8784)%Z && (len1 =? 8760)%Z then (df1, remove_feb_29 df2)
  else (df1, df2).

(** Python truthiness of [matched_format]: [None] and the empty string are false. *)
Definition truthy (m : option string) : bool :=
  match m with
  | Some f => negb (String.eqb f "")
  | None => false
  end.

Section Pandas.

(** The library calls of the module, taken as they behave. *)
Variable read_csv : string -> ReadResult.
(** [time.strptime(sample, format)]: [true] when it parses, [false] when it
    raises ValueError. *)
Variable strptime : string -> string -> bool.
(** [pd.to_datetime(column, format=..., utc=True)]; [None] when it raises. *)
Variable to_datetime : list (option string) -> string -> option (list (option Timestamp)).
Variable infer_freq : Loaded -> FreqResult.
(** [dataframe.resample('1h').mean()] *)
Variable resample_hourly_mean : Loaded -> Loaded.

Definition resample_quarter_to_hour (dataframe : Loaded) : Returned :=
  match infer_freq dataframe with
  | Freq f =>
      match f with
      | Some name => if String.eqb name "15min"
                     then Frame (resample_hourly_mean dataframe)
                     else Frame dataframe
      | None => Frame dataframe
      end
  | FreqRaises => FrameClass
  end.

(** [dataframe[0].dropna().astype(str).head(20)] *)
Fixpoint dropna (col : list (option string)) : list string :=
  match col with
  | [] => []
  | Some s :: col' => s :: dropna col'
  | None :: col' => dropna col'
  end.

Definition samples_of (rows : list (option string * cell)) : list string :=
  firstn 20 (dropna (map fst rows)).

(** The inner loop: the first format of the list that parses the sample. *)
Fixpoint first_format (sample : string) (formats : list string) : option string :=
  match formats with
  | [] => None
  | dt_format :: rest =>
      if strptime (Str.strip sample) dt_format
      then Some dt_format
      else first_format sample rest
  end.

(** [sample] is parsed by [f], and by no format listed before [f]. *)
Definition first_match (formats : list string) (sample f : string) : Prop :=
  exists earlier later,
    formats = earlier ++ f :: later /\
    (forall fmt, In fmt earlier -> strptime (Str.strip sample) fmt = false) /\
    strptime (Str.strip sample) f = true.

(** No format of the list parses [sample]. *)
Definition no_match (formats : list string) (sample : string) : Prop :=
  forall fmt, In fmt formats -> strptime (Str.strip sample) fmt = false.

(** The outer loop, threading [matched_format]; it leaves at the first
    sample after which [matched_format] is truthy. *)
Fixpoint scan_samples (formats : list string) (matched_format : option string)
         (samples : list string) : option string :=
  match samples with
  | [] => matched_format
  | sample :: rest =>
      let matched_format :=
        match first_format sample formats with
        | Some f => Some f
        | None => matched_format
        end in
      if truthy matched_format then matched_format
      else scan_samples formats matched_format rest
  end.

Definition detect_format (rows : list (option string * cell)) : option string :=
  scan_samples date_time_formats None (samples_of rows).

Definition has_year (fmt : string) : bool :=
  Str.contains "Y" fmt || Str.contains "y" fmt.

(** Column 0 converted with the matched format, then made the index. *)
Definition convert (fmt : string) (rows : list (option string * cell)) : option Loaded :=
  let col := map fst rows in
  stamps <- (if has_year fmt
             then to_datetime col fmt
             else to_datetime (map (option_map (String.append "2024-")) col)
                              (String.append "%Y-" fmt)) ;;
  Some (Indexed (combine stamps (map snd rows))).

Definition profile_csv_to_dataframe (path : string) : Returned :=
  match read_csv path with
  | FileNotFoundError => FrameClass
  | OtherReadError => Raises
  | ReadOk rows =>
      match detect_format rows with
      | Some fmt =>
          if truthy (Some fmt)
          then match convert fmt rows with
               | Some dataframe => resample_quarter_to_hour dataframe
               | None => FrameClass
               end
          else resample_quarter_to_hour (Unparsed rows)
      | None => resample_quarter_to_hour (Unparsed rows)
      end
  end.

End Pandas.

(** What the documentation of [profile_csv_to_dataframe] promises
    ([-> pd.DataFrame]) and what the stages of [energy_allocator.py] hand back
    in their own handlers ([pd.DataFrame()]): a frame instance. *)
Definition is_frame_instance (r : Returned) : bool :=
  match r with
  | Frame _ => true
  | _ => false
  end.

(** A stand-in for [time.strptime] to run examples with: it knows the numeric
    directives %Y %m %d %H %M %S, matches every other character literally and
    lets any other directive fail. *)
Module Example.

Definition is_digit (c : ascii) : bool :=
  let n := nat_of_ascii c in (48 <=? n)%nat && (n <=? 57)%nat.

Definition digit (c : ascii) : nat := nat_of_ascii c - 48.

Definition in_range (lo hi n : nat) : bool := (lo <=? n)%nat && (n <=? hi)%nat.

Definition directive_range (c : ascii) : option (nat * nat) :=
  if Ascii.eqb c "m" then Some (1, 12)%nat
  else if Ascii.eqb c "d" then Some (1, 31)%nat
  else if Ascii.eqb c "H" then Some (0, 23)%nat
  else if Ascii.eqb c "M" then Some (0, 59)%nat
  else if Ascii.eqb c "S" then Some (0, 61)%nat
  else None.

Fixpoint matches (fmt s : string) : bool :=
  match fmt with
  | EmptyString => match s with EmptyString => true | _ => false end
  | String "%" (String "Y" fmt') =>
      match s with
      | String a (String b (String c (String d s'))) =>
          is_digit a && is_digit b && is_digit c && is_digit d && matches fmt' s'
      | _ => false
      end
  | String "%" (String k fmt') =>
      match directive_range k with
      | None => false
      | Some (lo, hi) =>
          match s with
          | String a s1 =>
              (match s1 with
               | String b s2 =>
                   is_digit a && is_digit b
                   && in_range lo hi (10 * digit a + digit b) && matches fmt' s2
               | EmptyString => false
               end)
              || (is_digit a && in_range lo hi (digit a) && matches fmt' s1)
          | EmptyString => false
          end
      end
  | String c fmt' =>
      match s with
      | String a s' => Ascii.eqb a c && matches fmt' s'
      | EmptyString => false
      end
  end.

Definition strptime (sample fmt : string) : bool := matches fmt sample.

End Example.

End Auxiliary.

(** ** Median of a row ([DataFrame.median(axis=1)], NaN skipped) *)

Module Median.

Fixpoint insert (x : Q) (s : list Q) : list Q :=
  match s with
  | [] => [x]
  | y :: s' => if Qle_bool x y then x :: s else y :: insert x s'
  end.

Definition sort (l : list Q) : list Q := fold_right insert [] l.

(** The middle element of the sorted values, or the mean of the two middle
    elements when their number is even. *)
Definition medianQ (l : list Q) : Q :=
  let s := sort l in
  let k := List.length l in
  if Nat.even k
  then (nth (k / 2 - 1) s 0 + nth (k / 2) s 0) / 2
  else nth (k / 2) s 0.

Definition nanmedian (row : list cell) : cell :=
  match present row with
  | [] => NaN
  | v => Some (medianQ v)
  end.

(** How many values lie strictly below [v], and how many at or below it. *)
Definition count_lt (v : Q) (l : list Q) : nat :=
  List.length (filter (fun x => negb (Qle_bool v x)) l).
Definition count_le (v : Q) (l : list Q) : nat :=
  List.length (filter (fun x => Qle_bool x v) l).

Inductive sorted : list Q -> Prop :=
| sorted_nil : sorted []
| sorted_cons x s : sorted s -> (forall y, In y s -> x <= y) -> sorted (x :: s).

(** The statistical median, said without sorting: [m] is a median of [l] when
    at least half of the values are at most [m] and at least half are at
    least [m]. *)
Definition is_median (m : Q) (l : list Q) : Prop :=
  (List.length l <= 2 * count_le m l)%nat /\
  (2 * count_lt m l <= List.length l)%nat.

End Median.

(** ** spot_module.py *)

Module Spot.

Definition spot_price_median : string := "Spot median [c/kWh]".
Definition spot_price_median_fees : string := "Spot median w/ fees [c/kWh]".

Definition Row := (Timestamp * cell)%type.

(** A call of the external price service: [start] and [end] of the range. *)
Record Request := mkRequest { req_start : Timestamp; req_end : Timestamp }.

(** f"{y}-01-01T00:00:00.000Z" and f"{y}-12-31T23:00:00Z" *)
Definition first_hour (y : Z) : Timestamp := mkTs y 1 1 0 0 0.
Definition last_hour (y : Z) : Timestamp := mkTs y 12 31 23 0 0.

(** The state the cache manager works on: the cache file ([None] when it does
    not exist) and the requests sent to the price service so far, oldest first. *)
Record World := mkWorld {
  cache_file : option (list Row);
  fetched : list Request
}.

(** Stateful code that may raise: the state reached is kept on an exception. *)
Definition M (A : Type) : Type := World -> option A * World.

Definition ret {A} (a : A) : M A := fun w => (Some a, w).
Definition raise {A} : M A := fun w => (None, w).
Definition bind {A B} (m : M A) (k : A -> M B) : M B :=
  fun w => match m w with
           | (Some a, w') => k a w'
           | (None, w') => (None, w')
           end.

Notation "'do' x <~ m ; k" := (bind m (fun x => k))
  (at level 10, x name, m at level 100, k at level 200).

(** What [spot_get_price] and the stages after it return: a frame, or the
    class object [pd.DataFrame] of their exception handlers. *)
Inductive Returned (A : Type) :=
| Frame (v : A)
| FrameClass.
Arguments Frame {A} v.
Arguments FrameClass {A}.

Definition years_of (rows : list Row) : list Z := map (fun r => year (fst r)) rows.

Definition max_opt (l : list Z) : option Z :=
  match l with
  | [] => None
  | x :: l' => Some (fold_left Z.max l' x)
  end.

Definition min_opt (l : list Z) : option Z :=
  match l with
  | [] => None
  | x :: l' => Some (fold_left Z.min l' x)
  end.

(** [index.year.max()] / [.min()]: NaN ([None]) on an empty index. *)
Definition year_max (rows : list Row) : option Z := max_opt (years_of rows).
Definition year_min (rows : list Row) : option Z := min_opt (years_of rows).

Fixpoint dedup {A} (eqb : A -> A -> bool) (l : list A) : list A :=
  match l with
  | [] => []
  | x :: l' => if existsb (eqb x) l' then dedup eqb l' else x :: dedup eqb l'
  end.

Fixpoint insert_by {A} (leb : A -> A -> bool) (x : A) (s : list A) : list A :=
  match s with
  | [] => [x]
  | y :: s' => if leb x y then x :: s else y :: insert_by leb x s'
  end.

Definition sort_by {A} (leb : A -> A -> bool) (l : list A) : list A :=
  fold_right (insert_by leb) [] l.

(** The calendar slot of a row, year left out: [strftime("%m-%d %H:%M:%S%z")]
    of a UTC timestamp. *)
Record HourKey := mkKey {
  k_month : Z; k_day : Z; k_hour : Z; k_minute : Z; k_second : Z
}.

Definition hour_key (t : Timestamp) : HourKey :=
  mkKey (month t) (day t) (hour t) (minute t) (second t).

Definition key_fields (k : HourKey) : list Z :=
  [k_month k; k_day k; k_hour k; k_minute k; k_second k].

Definition key_eqb (a b : HourKey) : bool :=
  (k_month a =? k_month b)%Z && (k_day a =? k_day b)%Z && (k_hour a =? k_hour b)%Z &&
  (k_minute a =? k_minute b)%Z && (k_second a =? k_second b)%Z.

Definition key_leb (a b : HourKey) : bool := lex_leb (key_fields a) (key_fields b).

(** ['2024-' + hour_key], parsed. *)
Definition in_2024 (k : HourKey) : Timestamp :=
  mkTs 2024 (k_month k) (k_day k) (k_hour k) (k_minute k) (k_second k).

(** The table [pivot_table] builds: one row per hour key, one column per year. *)
Record Pivot := mkPivot {
  pv_keys : list HourKey;
  pv_years : list Z;
  pv_cell : HourKey -> Z -> cell
}.

(** The year-values of one hour key, in column order. *)
Definition pivot_row (p : Pivot) (k : HourKey) : list cell :=
  map (pv_cell p k) (pv_years p).

(** The two median columns next to the pivot. *)
Record MedianFrame := mkMedianFrame {
  mf_pivot : Pivot;
  mf_median : HourKey -> cell;
  mf_median_fees : HourKey -> cell
}.

Definition is_some {A} (o : option A) : bool :=
  match o with Some _ => true | None => false end.

Section SpotMedianCalculator.

Variable analysis_length_arg : Z.
Variable vat_perc : Q.
Variable transfer_fee_perc : Q.

(** [datetime.now().year] *)
Variable current_year : Z.

(** The external price service: the (timestamp, value) pairs of the
    response, or [None] when the request or its decoding raises. *)
Variable service : Request -> option (list (Timestamp * Q)).

(** [AuxiliaryFunc.resample_quarter_to_hour] on a price frame; [None] when
    it hands back the class object, on which the next step raises. *)
Variable resample_quarter_to_hour : list Row -> option (list Row).

(** [__init__] *)
Definition analysis_length : Z :=
  if (analysis_length_arg >? 13)%Z then 13%Z else analysis_length_arg.

Definition additional_fee : Q := 1 + vat_perc + transfer_fee_perc.

Definition end_year : Z := (current_year - 1)%Z.
Definition start_year : Z := (end_year - (analysis_length - 1))%Z.

Definition cached_csv_to_dataframe : M (list Row) :=
  fun w => match cache_file w with
           | Some rows => (Some rows, w)
           | None => (None, w)
           end.

(** [dataframe.to_csv(filepath)] *)
Definition to_csv (rows : list Row) : M unit :=
  fun w => (Some tt, {| cache_file := Some rows; fetched := fetched w |}).

(** [dataframe.to_csv(filepath, mode='a', header=not os.path.exists(filepath))] *)
Definition to_csv_append (rows : list Row) : M unit :=
  fun w => (Some tt,
            {| cache_file := Some (match cache_file w with
                                   | Some old => old ++ rows
                                   | None => rows
                                   end);
               fetched := fetched w |}).

Definition from_api_to_dataframe (start end_ : Timestamp) : M (list Row) :=
  fun w =>
    let w' := {| cache_file := cache_file w;
                 fetched := fetched w ++ [mkRequest start end_] |} in
    match service (mkRequest start end_) with
    | None => (None, w')
    | Some spot =>
        let dataframe := map (fun entry => (fst entry, Some (snd entry * (1 # 10)))) spot in
        (resample_quarter_to_hour dataframe, w')
    end.

(** The value of [index.year.max()] (or [.min()]) when the comparison
    holds; a comparison with NaN is false. *)
Definition when (test : Z -> bool) (a : option Z) : option Z :=
  match a with
  | Some x => if test x then Some x else None
  | None => None
  end.

Definition update_cache (dataframe : list Row) : M (list Row) :=
  match when (fun y => (y <? end_year)%Z) (year_max dataframe) with
  | Some ymax =>
      do new <~ from_api_to_dataframe (first_hour (ymax + 1)) (last_hour end_year) ;
      do _ <~ to_csv_append new ;
      cached_csv_to_dataframe
  | None =>
      match when (fun y => (y >? start_year)%Z) (year_min dataframe) with
      | Some ymin =>
          do new_df <~ from_api_to_dataframe (first_hour start_year) (last_hour (ymin - 1)) ;
          do _ <~ to_csv (new_df ++ dataframe) ;
          cached_csv_to_dataframe
      | None => ret dataframe
      end
  end.

(** [dataframe[start:end]] on a chronological index. *)
Definition slice (start end_ : Timestamp) (rows : list Row) : list Row :=
  filter (fun r => ts_leb start (fst r) && ts_leb (fst r) end_) rows.

Definition months_in_year (y : Z) (rows : list Row) : list Z :=
  dedup Z.eqb (map (fun r => month (fst r))
                   (filter (fun r => (year (fst r) =? y)%Z) rows)).

(** Removes the first year when fewer than 12 of its months are present. *)
Definition drop_partial_first_year (rows : list Row) : list Row :=
  match year_min rows with
  | Some first_year =>
      if negb (List.length (months_in_year first_year rows) =? 12)%nat
      then filter (fun r => negb (year (fst r) =? first_year)%Z) rows
      else rows
  | None => rows
  end.

Definition spot_get_price_body : M (list Row) :=
  fun w =>
    match cache_file w with
    | Some _ =>
        (do dataframe <~ cached_csv_to_dataframe ;
         do dataframe <~ update_cache dataframe ;
         let dataframe := slice (first_hour start_year) (last_hour end_year) dataframe in
         ret (drop_partial_first_year dataframe)) w
    | None =>
        (do dataframe <~ from_api_to_dataframe (first_hour start_year) (last_hour end_year) ;
         do _ <~ to_csv dataframe ;
         ret (drop_partial_first_year dataframe)) w
    end.

(** [spot_get_price]: the handler turns an exception into the class object. *)
Definition spot_get_price (w : World) : Returned (list Row) * World :=
  match spot_get_price_body w with
  | (Some dataframe, w') => (Frame dataframe, w')
  | (None, w') => (FrameClass, w')
  end.

(** The values of one hour key in one year. *)
Definition group (rows : list Row) (k : HourKey) (y : Z) : list cell :=
  map snd (filter (fun r => key_eqb (hour_key (fst r)) k && (year (fst r) =? y)%Z) rows).

(** [pivot_table(index='hour_key', columns='year', values='value')]: the
    cell is the mean of the group (the default aggregation), groups without
    a value are left out, and rows and columns come out sorted. *)
Definition pivot_table (rows : list Row) : Pivot :=
  let cell_of := fun k y => nanmean (group rows k y) in
  let all_keys := dedup key_eqb (map (fun r => hour_key (fst r)) rows) in
  let all_years := dedup Z.eqb (years_of rows) in
  {| pv_keys := sort_by key_leb
                  (filter (fun k => existsb (fun y => is_some (cell_of k y)) all_years) all_keys);
     pv_years := sort_by Z.leb
                  (filter (fun y => existsb (fun k => is_some (cell_of k y)) all_keys) all_years);
     pv_cell := cell_of |}.

Definition spot_pivot_by_hour (prices : Returned (list Row)) : Returned Pivot :=
  match prices with
  | Frame rows => Frame (pivot_table rows)
  | FrameClass => FrameClass
  end.

(** The first median is taken over the year columns; the second call of
    [dataframe.median(axis=1)] runs after the first median has been stored
    as a column, so it sees that column too. *)
Definition add_medians (p : Pivot) : MedianFrame :=
  let median := fun k => Median.nanmedian (pivot_row p k) in
  {| mf_pivot := p;
     mf_median := median;
     mf_median_fees := fun k =>
       cell_map (fun m => m * additional_fee)
                (Median.nanmedian (pivot_row p k ++ [median k])) |}.

Definition spot_calculate_median (pivot : Returned Pivot) : Returned MedianFrame :=
  match pivot with
  | Frame p => Frame (add_medians p)
  | FrameClass => FrameClass
  end.

(** The median profile on the calendar of 2024, year columns dropped. *)
Definition median_profile (m : MedianFrame) : DataFrame :=
  {| df_index := map in_2024 (pv_keys (mf_pivot m));
     df_columns := [ (spot_price_median, fun t => mf_median m (hour_key t));
                     (spot_price_median_fees, fun t => mf_median_fees m (hour_key t)) ] |}.

Definition spot_remove_years (m : Returned MedianFrame) : Returned DataFrame :=
  match m with
  | Frame mf => Frame (median_profile mf)
  | FrameClass => FrameClass
  end.

(** The whole chain a call of [spot_remove_years()] runs. *)
Definition price_profile (w : World) : Returned DataFrame * World :=
  let (prices, w') := spot_get_price w in
  (spot_remove_years (spot_calculate_median (spot_pivot_by_hour prices)), w').

End SpotMedianCalculator.

(** The frame [from_api_to_dataframe] builds from a response before it is
    resampled: one row per entry, the price multiplied by 0.1. *)
Definition api_rows (spot : list (Timestamp * Q)) : list Row :=
  map (fun entry => (fst entry, Some (snd entry * (1 # 10)))) spot.

(** An index in chronological order, repeated timestamps allowed: what the
    slice by labels [dataframe[start:end]] asks of the frame it cuts. *)
Fixpoint chronological (rows : list Row) : bool :=
  match rows with
  | a :: rest =>
      match rest with
      | b :: _ => ts_leb (fst a) (fst b) && chronological rest
      | [] => true
      end
  | [] => true
  end.

(** What a request comes back as: the resampled frame, or nothing when the
    service or the resampling fails. *)
Definition answer (service : Request -> option (list (Timestamp * Q)))
           (resample_quarter_to_hour : list Row -> option (list Row))
           (request : Request) : option (list Row) :=
  match service request with
  | Some spot => resample_quarter_to_hour (api_rows spot)
  | None => None
  end.

End Spot.

(** ** energy_allocator.py *)

Module Allocator.

Definition spot_price_median : string := Spot.spot_price_median.
Definition spot_price_median_fees : string := Spot.spot_price_median_fees.
Definition production_column : string := "PV production [kWh]".
Definition company_column : string := "Company consumption [kWh]".
Definition company_after_pv : string := "Company after PV [kWh]".
Definition value_after_subtraction : string := "Company value of coverage [c]".
Definition pv_after_company : string := "PV post company [kWh]".
Definition temp_apartment_consumption : string := "APP consumption [kWh]".
Definition temp_app_after_pv : string := "APP after PV [kWh]".
Definition temp_value_of_coverage : string := "APP value of coverage [c]".
Definition pv_over_production : string := "PV over production [kWh]".
Definition value_to_grid : string := "Electricity value to grid [c]".

(** One row of [app_data_dict] / [apartments_df]; [apartment] is the row label. *)
Record ApartmentRow := mkApartment {
  apartment : string;
  allocation : Q;
  profile : string;
  amount : nat
}.

(** [calculation_method]; [other_method] is any string but the two known ones. *)
Inductive Method := by_apartment | by_type | other_method.

(** The column names built for one unit. *)
Definition consumption_name (apt : string) : string :=
  Str.replace "APP" apt temp_apartment_consumption.
Definition after_name (apt : string) : string :=
  Str.replace "APP" apt temp_app_after_pv.
Definition value_name (apt : string) : string :=
  Str.replace "APP" apt temp_value_of_coverage.
(** f"{apartment} consumption [kWh]" *)
Definition apartment_column (apt : string) : string :=
  String.append apt " consumption [kWh]".

(** [apartments_df.index.repeat(apartments_df["amount"])] *)
Definition index_repeat (table : list ApartmentRow) : list string :=
  flat_map (fun r => repeat (apartment r) (amount r)) table.

(** [apartments_df.loc[labels]]: for each label, in turn, every row carrying it. *)
Definition loc_labels (table : list ApartmentRow) (labels : list string) : list ApartmentRow :=
  flat_map (fun l => filter (fun r => String.eqb l (apartment r)) table) labels.

(** The new index: each row's label followed by the global counter. *)
Definition relabel (table : list ApartmentRow) : list ApartmentRow :=
  let global_index := seq 1 (List.length table) in
  map (fun ai : ApartmentRow * nat =>
         {| apartment := String.append (apartment (fst ai)) (Str.of_nat (snd ai));
            allocation := allocation (fst ai);
            profile := profile (fst ai);
            amount := amount (fst ai) |})
      (combine table global_index).

(** [apartments_df["allocation"] / apartments_df["amount"]] *)
Definition normalize (table : list ApartmentRow) : list ApartmentRow :=
  map (fun r => {| apartment := apartment r;
                   allocation := allocation r / inject_Z (Z.of_nat (amount r));
                   profile := profile r;
                   amount := amount r |})
      table.

(** The "by type" branch of [add_apartment_consumption]. *)
Definition expand_by_type (app_data_dict : list ApartmentRow) : list ApartmentRow :=
  normalize (relabel (loc_labels app_data_dict (index_repeat app_data_dict))).

(** The expansion as the specification words it: the specs are taken in list
    order, a spec with count [n] and weight [w] yields [n] units of weight
    [w / n], and each unit is named by its type followed by one counter that
    runs on across the types. *)
Definition unit_of (r : ApartmentRow) (i : nat) : ApartmentRow :=
  {| apartment := String.append (apartment r) (Str.of_nat i);
     allocation := allocation r / inject_Z (Z.of_nat (amount r));
     profile := profile r;
     amount := amount r |}.

Fixpoint expand_from (counter : nat) (specs : list ApartmentRow) : list ApartmentRow :=
  match specs with
  | [] => []
  | r :: rest =>
      map (unit_of r) (seq counter (amount r)) ++ expand_from (counter + amount r) rest
  end.

(** The three columns of one unit, and the columns the frame holds before the
    units are added when the price profile has its two columns. *)
Definition unit_columns (apt : string) : list string :=
  [consumption_name apt; after_name apt; value_name apt].

Definition base_columns : list string :=
  [spot_price_median; spot_price_median_fees; production_column; company_column;
   company_after_pv; value_after_subtraction; pv_after_company].

(** All the columns of the final frame, in order. *)
Definition final_columns (labels : list string) : list string :=
  base_columns ++ flat_map unit_columns labels ++ [pv_over_production; value_to_grid].

Fixpoint distinct (names : list string) : bool :=
  match names with
  | [] => true
  | n :: names' => negb (existsb (String.eqb n) names') && distinct names'
  end.

(** The unit identifiers are pairwise distinct and none of the column names
    built from them collides with another column. *)
Definition well_named (labels : list string) : Prop :=
  distinct (final_columns labels) = true.

(** [apartments_df.loc[label, column]] as a scalar: the label has to be unique. *)
Definition unique_row (label : string) (table : list ApartmentRow) : option ApartmentRow :=
  match filter (fun r => String.eqb label (apartment r)) table with
  | [r] => Some r
  | _ => None
  end.

(** An exception inside a stage is caught there and [pd.DataFrame()] returned. *)
Definition handled (body : option DataFrame) : DataFrame :=
  match body with
  | Some dataframe => dataframe
  | None => empty_frame
  end.

(** What [add_apartment_consumption] leaves behind: the frame it returns and
    the attributes [self.apartments_df] ([None] while unset) and
    [self.profile_df]. *)
Record Resolved := mkResolved {
  r_frame : DataFrame;
  r_apartments : option (list ApartmentRow);
  r_profiles : DataFrame
}.

(** [dict[key] = v] *)
Fixpoint dict_set (key : string) (v : Q) (d : list (string * Q)) : list (string * Q) :=
  match d with
  | [] => [(key, v)]
  | kv :: d' => if String.eqb key (fst kv) then (key, v) :: d' else kv :: dict_set key v d'
  end.

Definition mentions (word col : string) : bool := Str.contains word (Str.lower col).



(** [dataframe[col].sum()] *)
Definition column_total (dataframe : DataFrame) (col : string) : Q :=
  nansum (map (at_ dataframe col) (df_index dataframe)).

Section EnergyAllocator.

(** [self.spot_processor.spot_remove_years()] *)
Variable price : Spot.Returned DataFrame.
(** [profile_csv_to_dataframe(path)] for a file that loads: the value column
    under its timestamp index. *)
Variable load : string -> Series.
Variable production_path : string.
Variable company_path : string.
Variable app_data_dict : list ApartmentRow.
Variable calculation_method : Method.

(** When the price stage handed back the class object there is no index to
    reindex on, and the stage ends in its handler. *)
Definition add_production : DataFrame :=
  handled (
    let production_df := frame_of_series production_column (load production_path) in
    match price with
    | Spot.FrameClass => None
    | Spot.Frame dataframe =>
        let (production_df, dataframe) :=
          Auxiliary.remove_feb_29_if_mismatch production_df dataframe in
        if negb (has_column production_column production_df) then None
        else
          let production_df := frame_reindex (df_index dataframe) production_df in
          s <- getitem production_df production_column ;;
          Some (setitem dataframe production_column s)
    end).

Definition add_company_consumption_from (upstream : DataFrame) : DataFrame :=
  handled (
    let company_df := frame_of_series company_column (load company_path) in
    let dataframe := upstream in
    let (company_df, dataframe) :=
      Auxiliary.remove_feb_29_if_mismatch company_df dataframe in
    if negb (has_column company_column company_df) then None
    else
      let company_df := frame_reindex (df_index dataframe) company_df in
      s <- getitem company_df company_column ;;
      Some (setitem dataframe company_column s)).

Definition add_company_consumption : DataFrame :=
  add_company_consumption_from add_production.

Definition calculate_company_from (upstream : DataFrame) : DataFrame :=
  handled (
    let dataframe := upstream in
    let required_columns := [company_column; production_column; spot_price_median] in
    if negb (forallb (fun col => has_column col dataframe) required_columns) then None
    else
      company <- getitem dataframe company_column ;;
      production <- getitem dataframe production_column ;;
      let unmet_consumption := series_sub company production in
      let dataframe := setitem dataframe company_after_pv
                               (series_clip_lower 0 unmet_consumption) in
      company <- getitem dataframe company_column ;;
      after <- getitem dataframe company_after_pv ;;
      let covered_consumption := series_sub company after in
      fees <- getitem dataframe spot_price_median_fees ;;
      let value := series_mul fees covered_consumption in
      let dataframe := setitem dataframe value_after_subtraction value in
      production <- getitem dataframe production_column ;;
      company <- getitem dataframe company_column ;;
      let excess_pv := series_sub production company in
      Some (setitem dataframe pv_after_company (series_clip_lower 0 excess_pv))).

Definition calculate_company : DataFrame :=
  calculate_company_from add_company_consumption.

Definition resolve_apartments : option (list ApartmentRow) :=
  match calculation_method with
  | by_apartment => Some app_data_dict
  | by_type => Some (expand_by_type app_data_dict)
  | other_method => None
  end.

(** The loop over [self.apartments_df.index].  The call of
    [remove_feb_29_if_mismatch] in it drops its result, so it changes
    nothing. *)
Fixpoint add_profiles (table : list ApartmentRow) (labels : list string)
         (dataframe profile_df : DataFrame) : option DataFrame * DataFrame :=
  match labels with
  | [] => (Some dataframe, profile_df)
  | apt :: rest =>
      let apartment_consumption := consumption_name apt in
      match unique_row apt table with
      | None => (None, profile_df)
      | Some r =>
          let profile_df := setitem profile_df apartment_consumption (load (profile r)) in
          match getitem profile_df apartment_consumption with
          | None => (None, profile_df)
          | Some s => add_profiles table rest (setitem dataframe apartment_consumption s) profile_df
          end
      end
  end.

Definition add_apartment_consumption_from (upstream : DataFrame) : Resolved :=
  match resolve_apartments with
  | None => {| r_frame := empty_frame; r_apartments := None; r_profiles := empty_frame |}
  | Some apartments_df =>
      let (result, profile_df) :=
        add_profiles apartments_df (map apartment apartments_df) upstream empty_frame in
      {| r_frame := handled result;
         r_apartments := Some apartments_df;
         r_profiles := profile_df |}
  end.

Definition add_apartment_consumption : Resolved :=
  add_apartment_consumption_from calculate_company.

(** The loop of [calculate_apartment]. *)
Fixpoint insert_units (table : list ApartmentRow) (labels : list string)
         (dataframe : DataFrame) : option DataFrame :=
  match labels with
  | [] => Some dataframe
  | apt :: rest =>
      if negb (has_column (apartment_column apt) dataframe) then None
      else
        consumption <- getitem dataframe (apartment_column apt) ;;
        leftover <- getitem dataframe pv_after_company ;;
        r <- unique_row apt table ;;
        let app_after_pv := series_sub consumption (series_scale (allocation r) leftover) in
        let covered_consumption := series_sub consumption app_after_pv in
        fees <- getitem dataframe spot_price_median_fees ;;
        let allocation_value := series_mul fees covered_consumption in
        column_loc <- get_loc dataframe (apartment_column apt) ;;
        let insert_loc := (column_loc + 1)%nat in
        dataframe <- insert dataframe insert_loc (after_name apt) app_after_pv ;;
        dataframe <- insert dataframe (insert_loc + 1)%nat (value_name apt) allocation_value ;;
        insert_units table rest dataframe
  end.

Definition calculate_apartment_from (r : Resolved) : DataFrame :=
  handled (
    apartments_df <- r_apartments r ;;
    insert_units apartments_df (map apartment apartments_df) (r_frame r)).

Definition calculate_apartment : DataFrame :=
  calculate_apartment_from add_apartment_consumption.

(** The frame before the final [round(3)]. *)
Definition surplus_columns (dataframe profile_df : DataFrame) : option DataFrame :=
  production <- getitem dataframe production_column ;;
  company <- getitem dataframe company_column ;;
  let calculation :=
    series_clip_lower 0
      (series_sub production (series_add company (frame_sum_rows profile_df))) in
  let dataframe := setitem dataframe pv_over_production calculation in
  over <- getitem dataframe pv_over_production ;;
  median <- getitem dataframe spot_price_median ;;
  let value := series_mul over median in
  Some (setitem dataframe value_to_grid value).

Definition calculate_pv_over_production_from (dataframe profile_df : DataFrame) : DataFrame :=
  handled (
    unrounded <- surplus_columns dataframe profile_df ;;
    Some (frame_round 3 unrounded)).

Definition calculate_pv_over_production : DataFrame :=
  calculate_pv_over_production_from calculate_apartment (r_profiles add_apartment_consumption).

(** [dataframe[value_columns].sum().round(0)]: one total per value column. *)
Definition value_sums (dataframe : DataFrame) : list (string * Q) :=
  let value_columns := filter (mentions "value") (columns dataframe) in
  map (fun col => (col, round_dec 0 (column_total dataframe col))) value_columns.

Definition sma_value_sum : list (string * Q) :=
  value_sums calculate_pv_over_production.

Definition before_columns (dataframe : DataFrame) : list string :=
  filter (mentions "consumption") (columns dataframe).
Definition after_columns (dataframe : DataFrame) : list string :=
  filter (mentions "after") (columns dataframe).

(** The loop over [zip(before_columns, after_columns)] filling [savings]. *)
Fixpoint savings_of (dataframe : DataFrame) (pairs : list (string * string))
         (savings : list (string * Q)) : option (list (string * Q)) :=
  match pairs with
  | [] => Some savings
  | (before, after) :: rest =>
      b <- getitem dataframe before ;;
      a <- getitem dataframe after ;;
      savings_of dataframe rest
        (dict_set (Str.replace "consumption" "consumption covered" before)
                  (series_sum (series_sub b a)) savings)
  end.

(** [energy_value_sum]; [None] stands for the [pd.DataFrame()] of its handler. *)
Definition energy_sums (dataframe : DataFrame) : option (list (string * Q)) :=
  let before := before_columns dataframe in
  let after := after_columns dataframe in
  if negb (List.length before =? List.length after)%nat then None
  else savings_of dataframe (combine before after) [].

Definition energy_value_sum : option (list (string * Q)) :=
  energy_sums calculate_pv_over_production.

End EnergyAllocator.

End Allocator.

(** ** Notions used in the statements *)

(** A series is supported on [idx] when it is NaN outside of it. *)
Definition supported (idx : list Timestamp) (s : Series) : Prop :=
  forall t, ts_mem t idx = false -> loc s t = NaN.

(** The columns [names] of [df] are those of [profile_df], cut to the rows of [df]. *)
Definition linked (df profile_df : DataFrame) (names : list string) : Prop :=
  forall c t, In c names ->
    at_ df c t = if ts_mem t (df_index df) then at_ profile_df c t else NaN.


(** ** Inputs for the examples *)

(** Prices for the hour 03-15 17:00 in 2019, 2020 and 2023; 2021 has a row
    for another hour only and 2022 holds a NaN. *)
Definition example_prices : list Spot.Row :=
  [ (mkTs 2019 3 15 17 0 0, Some (4 # 1));
    (mkTs 2020 3 15 17 0 0, Some (10 # 1));
    (mkTs 2021 3 15 18 0 0, Some (100 # 1));
    (mkTs 2022 3 15 17 0 0, None);
    (mkTs 2023 3 15 17 0 0, Some (6 # 1)) ].

(** A profile file in month/day/year notation: an empty first cell, a cell
    that is no date, then dates. *)
Definition example_rows : list (option string * cell) :=
  [ (None, Some (1 # 1));
    (Some "kWh"%string, None);
    (Some " 03/04/2021 "%string, Some (5 # 2));
    (Some "2021-03-05"%string, Some (7 # 2)) ].

Definition example_read_csv (path : string) : Auxiliary.ReadResult :=
  if String.eqb path "production.csv" then Auxiliary.ReadOk example_rows
  else if String.eqb path "notes.csv"
       then Auxiliary.ReadOk [ (Some "kWh"%string, None); (Some "total"%string, Some (2 # 1)) ]
       else Auxiliary.FileNotFoundError.

Definition example_infer_freq (_ : Auxiliary.Loaded) : Auxiliary.FreqResult :=
  Auxiliary.Freq None.
Definition example_resample (v : Auxiliary.Loaded) : Auxiliary.Loaded := v.

(** A cache holding one row of 2022, read in 2025 with a window of 5 years
    (2020 to 2024); the service answers with no rows. *)
Definition example_world : Spot.World :=
  {| Spot.cache_file := Some [ (mkTs 2022 6 1 0 0 0, Some (3 # 1)) ];
     Spot.fetched := [] |}.

Definition quiet_service (_ : Spot.Request) : option (list (Timestamp * Q)) := Some [].
Definition no_resampling (rows : list Spot.Row) : option (list Spot.Row) := Some rows.

(** The scenario of four consecutive hours: production 10 kWh, company
    consumption 4 kWh, price with fees 5 c/kWh (4 c/kWh without), and one
    unit "A" with weight 0.5 consuming 3 kWh. *)
Definition example_hours : list Timestamp :=
  [ mkTs 2024 1 1 0 0 0; mkTs 2024 1 1 1 0 0; mkTs 2024 1 1 2 0 0; mkTs 2024 1 1 3 0 0 ].

Definition constant_series (idx : list Timestamp) (v : Q) : Series :=
  {| s_index := idx; s_at := fun _ => Some v |}.

Definition example_price : DataFrame :=
  {| df_index := example_hours;
     df_columns := [ (Allocator.spot_price_median, fun _ => Some (4 # 1));
                     (Allocator.spot_price_median_fees, fun _ => Some (5 # 1)) ] |}.

Definition example_load (path : string) : Series :=
  if String.eqb path "production.csv" then constant_series example_hours (10 # 1)
  else if String.eqb path "company.csv" then constant_series example_hours (4 # 1)
  else if String.eqb path "A.csv" then constant_series example_hours (3 # 1)
  else {| s_index := []; s_at := fun _ => NaN |}.

Definition example_apartments : list Allocator.ApartmentRow :=
  [ Allocator.mkApartment "A" (1 # 2) "A.csv" 1 ].

(** One hour in which the values have a fourth decimal: production 1.0004,
    company consumption 0.5006, unit "A" consuming 0.2, price 1. *)
Definition rounding_hour : Timestamp := mkTs 2024 1 1 0 0 0.

Definition rounding_price : DataFrame :=
  {| df_index := [rounding_hour];
     df_columns := [ (Allocator.spot_price_median, fun _ => Some (1 # 1));
                     (Allocator.spot_price_median_fees, fun _ => Some (1 # 1)) ] |}.

Definition rounding_load (path : string) : Series :=
  if String.eqb path "production.csv" then constant_series [rounding_hour] (10004 # 10000)
  else if String.eqb path "company.csv" then constant_series [rounding_hour] (5006 # 10000)
  else constant_series [rounding_hour] (2 # 10).

(** A unit with the whole leftover assigned to it and a small consumption. *)
Definition greedy_apartments : list Allocator.ApartmentRow :=
  [ Allocator.mkApartment "A" (1 # 1) "A.csv" 1 ].

(** The types of the repository's example run. *)
Definition example_types : list Allocator.ApartmentRow :=
  [ Allocator.mkApartment "A" (24 # 100) "A_consumption.csv" 4;
    Allocator.mkApartment "B" (27 # 100) "B_consumption.csv" 3;
    Allocator.mkApartment "C" (49 # 100) "C_consumption.csv" 4 ].

(** A price service that answers with one price, 50 in its own unit, for the
    first hour of every month of every year asked for. *)
Definition years_between (a b : Z) : list Z :=
  map (fun i => (a + Z.of_nat i)%Z) (seq 0 (Z.to_nat (b - a + 1))).

Definition monthly_prices (a b : Z) : list (Timestamp * Q) :=
  flat_map (fun y => map (fun m => (mkTs y m 1 0 0 0, 50 # 1))
                         [1; 2; 3; 4; 5; 6; 7; 8; 9; 10; 11; 12]%Z)
           (years_between a b).

Definition monthly_service (q : Spot.Request) : option (list (Timestamp * Q)) :=
  Some (monthly_prices (year (Spot.req_start q)) (year (Spot.req_end q))).

Definition failing_service (_ : Spot.Request) : option (list (Timestamp * Q)) := None.

(** Cache files holding the twelve months of 2022, and those of 2020 to 2024. *)
Definition world_2022 : Spot.World :=
  {| Spot.cache_file := Some (Spot.api_rows (monthly_prices 2022 2022));
     Spot.fetched := [] |}.

Definition world_2020_2024 : Spot.World :=
  {| Spot.cache_file := Some (Spot.api_rows (monthly_prices 2020 2024));
     Spot.fetched := [] |}.

Definition no_cache : Spot.World := {| Spot.cache_file := None; Spot.fetched := [] |}.

(** A frame that starts in June 2022 and goes on through January 2023. *)
Definition late_start : list Spot.Row :=
  [ (mkTs 2022 6 1 0 0 0, Some (3 # 1)); (mkTs 2023 1 1 0 0 0, Some (4 # 1)) ].

(** The hours of a year, in order. *)
Definition days_in_month (leap : bool) (m : nat) : nat :=
  match m with
  | 2 => if leap then 29 else 28
  | 4 | 6 | 9 | 11 => 30
  | _ => 31
  end%nat.

Definition hours_of_year (y : Z) (leap : bool) : list Timestamp :=
  flat_map (fun m =>
    flat_map (fun d =>
      map (fun h => mkTs y (Z.of_nat m) (Z.of_nat d) (Z.of_nat h) 0 0) (seq 0 24))
      (seq 1 (days_in_month leap m)))
    (seq 1 12).

Definition hourly_frame (y : Z) (leap : bool) (name : string) (v : Q) : DataFrame :=
  {| df_index := hours_of_year y leap; df_columns := [(name, fun _ => Some v)] |}.

(** A [pd.to_datetime] for examples that cannot convert anything. *)
Definition refusing_to_datetime (col : list (option string)) (fmt : string)
  : option (list (option Timestamp)) := None.

(** Two types whose units collide: "A1" gives the unit "A11", and so does the
    tenth unit of "A". *)
Definition colliding_types : list Allocator.ApartmentRow :=
  [ Allocator.mkApartment "A1" (1 # 10) "A1.csv" 1;
    Allocator.mkApartment "A" (9 # 10) "A.csv" 10 ].



(** * Frames: reading back what was stored *)

Lemma ts_eqb_refl t : ts_eqb t t = true.
Proof. unfold ts_eqb. now rewrite !Z.eqb_refl. Qed.

Lemma ts_eqb_eq a b : ts_eqb a b = true -> a = b.
Proof.
  unfold ts_eqb. rewrite !andb_true_iff, !Z.eqb_eq.
  destruct a, b; simpl. intros [[[[[-> ->] ->] ->] ->] ->]. reflexivity.
Qed.

Lemma ts_mem_In t idx : ts_mem t idx = true <-> In t idx.
Proof.
  unfold ts_mem. rewrite existsb_exists. split.
  - intros (x & Hin & E). apply ts_eqb_eq in E. now subst.
  - intro H. exists t. split; [assumption | apply ts_eqb_refl].
Qed.

Lemma is_nil_true {A} (l : list A) : is_nil l = true -> l = [].
Proof. destruct l; [reflexivity | discriminate]. Qed.

Lemma loc_outside s t : ts_mem t (s_index s) = false -> loc s t = NaN.
Proof. unfold loc. now intros ->. Qed.

Lemma loc_binop f a b t :
  f NaN NaN = NaN -> loc (series_binop f a b) t = f (loc a t) (loc b t).
Proof.
  intro Hf. unfold loc at 1; simpl.
  destruct (ts_mem t (index_union (s_index a) (s_index b))) eqn:E; trivial.
  assert (Ha : ts_mem t (s_index a) = false /\ ts_mem t (s_index b) = false).
  { destruct (ts_mem t (s_index a)) eqn:Ea.
    - exfalso. apply ts_mem_In in Ea.
      assert (X : ts_mem t (index_union (s_index a) (s_index b)) = true)
        by (apply ts_mem_In, in_or_app; now left).
      congruence.
    - split; trivial.
      destruct (ts_mem t (s_index b)) eqn:Eb; trivial.
      exfalso. apply ts_mem_In in Eb.
      assert (X : ts_mem t (index_union (s_index a) (s_index b)) = true).
      { apply ts_mem_In, in_or_app. right. apply filter_In. split; trivial.
        now rewrite Ea. }
      congruence. }
  destruct Ha as [Ha Hb].
  now rewrite (loc_outside a t Ha), (loc_outside b t Hb), Hf.
Qed.

Lemma loc_map f a t : f NaN = NaN -> loc (series_map f a) t = f (loc a t).
Proof.
  intro Hf. unfold loc at 1; simpl.
  destruct (ts_mem t (s_index a)) eqn:E; trivial.
  now rewrite (loc_outside a t E), Hf.
Qed.

Lemma loc_sub a b t : loc (series_sub a b) t = cell_sub (loc a t) (loc b t).
Proof. now apply loc_binop. Qed.
Lemma loc_add a b t : loc (series_add a b) t = cell_add (loc a t) (loc b t).
Proof. now apply loc_binop. Qed.
Lemma loc_mul a b t : loc (series_mul a b) t = cell_mul (loc a t) (loc b t).
Proof. now apply loc_binop. Qed.
Lemma loc_clip lo a t : loc (series_clip_lower lo a) t = cell_clip_lower lo (loc a t).
Proof. now apply loc_map. Qed.
Lemma loc_scale w a t : loc (series_scale w a) t = cell_map (fun x => x * w) (loc a t).
Proof. now apply loc_map. Qed.

(** ** Columns by name *)

Lemma at_outside df n t : ts_mem t (df_index df) = false -> at_ df n t = NaN.
Proof.
  intro H. unfold at_, getitem.
  destruct (find _ _); trivial. unfold loc; simpl. now rewrite H.
Qed.

Lemma at_empty_index df n t : df_index df = [] -> at_ df n t = NaN.
Proof. intro H. apply at_outside. now rewrite H. Qed.

Lemma getitem_at df n s :
  getitem df n = Some s -> s_index s = df_index df /\ forall t, loc s t = at_ df n t.
Proof.
  unfold at_, getitem.
  destruct (find (fun c => String.eqb n (fst c)) (df_columns df)); [|discriminate].
  intros [= <-]. split; reflexivity.
Qed.

Lemma getitem_index df n s : getitem df n = Some s -> s_index s = df_index df.
Proof. intro H. now apply getitem_at in H. Qed.

Lemma getitem_loc df n s t : getitem df n = Some s -> loc s t = at_ df n t.
Proof. intro H. now apply getitem_at in H. Qed.

Lemma getitem_supported df n s : getitem df n = Some s -> supported (df_index df) s.
Proof.
  intros H t Ht. rewrite (getitem_loc _ _ _ t H). now apply at_outside.
Qed.

Lemma find_name_In (m : string) (cols : list Column) :
  find (fun c => String.eqb m (fst c)) cols = None <-> ~ In m (map fst cols).
Proof.
  induction cols as [|c cols IH]; simpl.
  - split; auto.
  - destruct (String.eqb_spec m (fst c)) as [->|Hne].
    + split; [discriminate|]. intro H. exfalso. apply H. now left.
    + rewrite IH. split.
      * intros H [E|Hin]; [now subst | contradiction].
      * intros H Hin. apply H. now right.
Qed.

Lemma has_column_In n df : has_column n df = true <-> In n (columns df).
Proof.
  unfold has_column. rewrite existsb_exists. split.
  - intros (x & Hin & E). apply String.eqb_eq in E. now subst.
  - intro H. exists n. split; [assumption | apply String.eqb_refl].
Qed.

Lemma has_column_false n df : has_column n df = false <-> ~ In n (columns df).
Proof.
  rewrite <- has_column_In. destruct (has_column n df); split; congruence.
Qed.

Lemma getitem_None df n : getitem df n = None <-> ~ In n (columns df).
Proof.
  unfold getitem, columns. rewrite <- find_name_In.
  destruct (find _ _); split; congruence.
Qed.

Lemma getitem_Some df n : In n (columns df) -> exists s, getitem df n = Some s.
Proof.
  intro H. destruct (getitem df n) eqn:E; [eauto|].
  apply getitem_None in E. contradiction.
Qed.

Lemma find_upsert m n f (cols : list Column) :
  find (fun c => String.eqb m (fst c)) (upsert n f cols)
  = if String.eqb m n then Some (n, f) else find (fun c => String.eqb m (fst c)) cols.
Proof.
  induction cols as [|c cols IH]; simpl.
  - destruct (String.eqb m n); reflexivity.
  - destruct (String.eqb_spec n (fst c)) as [E|Hne]; simpl.
    + subst n. destruct (String.eqb m (fst c)); reflexivity.
    + destruct (String.eqb_spec m (fst c)) as [E'|Hne'].
      * subst m. destruct (String.eqb_spec (fst c) n); [congruence | reflexivity].
      * exact IH.
Qed.

Lemma names_upsert n f (cols : list Column) :
  map fst (upsert n f cols)
  = if existsb (String.eqb n) (map fst cols) then map fst cols else map fst cols ++ [n].
Proof.
  induction cols as [|c cols IH]; simpl; trivial.
  destruct (String.eqb_spec n (fst c)) as [E|Hne]; simpl.
  - now subst.
  - rewrite IH. destruct (existsb _ _); reflexivity.
Qed.

Lemma columns_setitem df n s :
  columns (setitem df n s)
  = if has_column n df then columns df else columns df ++ [n].
Proof.
  unfold setitem, columns, has_column.
  destruct (is_nil (df_index df) && negb (is_nil (s_index s))); simpl;
    rewrite names_upsert, ?map_map; simpl; reflexivity.
Qed.

Lemma columns_setitem_new df n s :
  ~ In n (columns df) -> columns (setitem df n s) = columns df ++ [n].
Proof.
  intro H. rewrite columns_setitem. apply has_column_false in H. now rewrite H.
Qed.

Lemma index_setitem df n s :
  df_index (setitem df n s)
  = if is_nil (df_index df) && negb (is_nil (s_index s)) then s_index s else df_index df.
Proof. unfold setitem. destruct (_ && _); reflexivity. Qed.

Lemma find_wiped m (cols : list Column) :
  find (fun c => String.eqb m (fst c)) (map (fun c : Column => (fst c, fun _ : Timestamp => NaN)) cols)
  = option_map (fun c : Column => (fst c, fun _ : Timestamp => NaN))
      (find (fun c => String.eqb m (fst c)) cols).
Proof.
  induction cols as [|c cols IH]; simpl; trivial.
  destruct (String.eqb m (fst c)); simpl; trivial.
Qed.

(** Storing under one name leaves the other columns as they read. *)
Lemma at_setitem_other df n s m t :
  m <> n -> at_ (setitem df n s) m t = at_ df m t.
Proof.
  intro Hne. unfold at_, getitem, setitem.
  destruct (is_nil (df_index df) && negb (is_nil (s_index s))) eqn:E; simpl;
    rewrite find_upsert; destruct (String.eqb_spec m n); try congruence.
  apply andb_true_iff in E. destruct E as [E _]. apply is_nil_true in E.
  rewrite find_wiped, E.
  destruct (find (fun c => String.eqb m (fst c)) (df_columns df));
    simpl; unfold loc; simpl.
  - now destruct (ts_mem t (s_index s)).
  - reflexivity.
Qed.

(** A series that is NaN outside the frame's index reads back as stored. *)
Lemma at_setitem_same df n s t :
  supported (df_index df) s -> at_ (setitem df n s) n t = loc s t.
Proof.
  intro Hs. unfold at_, getitem, setitem.
  destruct (is_nil (df_index df) && negb (is_nil (s_index s))) eqn:E; simpl;
    rewrite find_upsert, String.eqb_refl; unfold loc at 1; simpl.
  - destruct (ts_mem t (s_index s)) eqn:Et; trivial.
    symmetry. now apply loc_outside.
  - destruct (ts_mem t (df_index df)) eqn:Et; trivial.
    symmetry. now apply Hs.
Qed.

(** In general the stored series is cut to the index of the frame. *)
Lemma at_setitem_same_cut df n s t :
  at_ (setitem df n s) n t
  = if ts_mem t (df_index (setitem df n s)) then loc s t else NaN.
Proof.
  unfold at_, getitem, setitem.
  destruct (is_nil (df_index df) && negb (is_nil (s_index s))) eqn:E; simpl;
    rewrite find_upsert, String.eqb_refl; reflexivity.
Qed.

(** ** Insertion at a position *)

Lemma insert_Some df pos n s df' :
  insert df pos n s = Some df' ->
  ~ In n (columns df) /\ (pos <= List.length (columns df))%nat /\
  df_index df' = df_index df /\
  columns df' = firstn pos (columns df) ++ n :: skipn pos (columns df).
Proof.
  unfold insert. destruct (has_column n df) eqn:H; [discriminate|].
  destruct (Nat.ltb_spec (List.length (df_columns df)) pos); [discriminate|].
  intros [= <-]. apply has_column_false in H.
  unfold columns in *. rewrite length_map. simpl.
  rewrite map_app, firstn_map. simpl. rewrite skipn_map. auto.
Qed.

Lemma insert_succeeds df pos n s :
  ~ In n (columns df) -> (pos <= List.length (columns df))%nat ->
  exists df', insert df pos n s = Some df'.
Proof.
  intros H Hp. unfold insert. apply has_column_false in H. rewrite H.
  unfold columns in Hp. rewrite length_map in Hp.
  destruct (Nat.ltb_spec (List.length (df_columns df)) pos); [exfalso; unfold Column in *; lia | eauto].
Qed.

Lemma find_app_name m (a b : list Column) :
  find (fun c => String.eqb m (fst c)) (a ++ b)
  = match find (fun c => String.eqb m (fst c)) a with
    | Some c => Some c
    | None => find (fun c => String.eqb m (fst c)) b
    end.
Proof.
  induction a as [|c a IH]; simpl; trivial.
  destruct (String.eqb m (fst c)); trivial.
Qed.

Lemma at_insert_other df pos n s df' m t :
  insert df pos n s = Some df' -> m <> n -> at_ df' m t = at_ df m t.
Proof.
  unfold insert. destruct (has_column n df); [discriminate|].
  destruct (_ <? _)%nat; [discriminate|]. intros [= <-] Hne.
  unfold at_, getitem; simpl.
  rewrite find_app_name. simpl.
  destruct (String.eqb_spec m n); [congruence|].
  rewrite <- find_app_name, firstn_skipn. reflexivity.
Qed.

Lemma at_insert_same df pos n s df' t :
  insert df pos n s = Some df' -> supported (df_index df) s ->
  at_ df' n t = loc s t.
Proof.
  unfold insert. destruct (has_column n df) eqn:H; [discriminate|].
  destruct (_ <? _)%nat; [discriminate|]. intros [= <-] Hs.
  apply has_column_false in H.
  unfold at_, getitem; simpl.
  rewrite find_app_name.
  assert (N : find (fun c => String.eqb n (fst c)) (firstn pos (df_columns df)) = None).
  { apply find_name_In. intro Hin. apply H. unfold columns.
    rewrite <- (firstn_skipn pos (df_columns df)), map_app.
    apply in_or_app. now left. }
  rewrite N. simpl. rewrite String.eqb_refl. unfold loc at 1; simpl.
  destruct (ts_mem t (df_index df)) eqn:Et; trivial.
  symmetry. now apply Hs.
Qed.

(** ** Rounding a frame *)

Lemma columns_round d df : columns (frame_round d df) = columns df.
Proof. unfold columns, frame_round; simpl. now rewrite map_map. Qed.

Lemma index_round d df : df_index (frame_round d df) = df_index df.
Proof. reflexivity. Qed.

Lemma at_round d df n t : at_ (frame_round d df) n t = cell_round d (at_ df n t).
Proof.
  unfold at_, getitem, frame_round; simpl.
  induction (df_columns df) as [|c cols IH]; simpl; trivial.
  destruct (String.eqb n (fst c)); simpl.
  - unfold loc; simpl. now destruct (ts_mem t (df_index df)).
  - exact IH.
Qed.

(** * Rounding *)

Lemma rint_comp x y : x == y -> rint x = rint y.
Proof.
  intro H. unfold rint. rewrite (Qfloor_comp _ _ H).
  assert (E : x - inject_Z (Qfloor y) == y - inject_Z (Qfloor y)) by (now rewrite H).
  now rewrite (Qcompare_comp _ _ E _ _ (Qeq_refl (1 # 2))).
Qed.

(** The fractional part and its comparison with one half. *)
Lemma rint_cases x :
  let f := Qfloor x in
  inject_Z f <= x /\ x < inject_Z f + 1 /\
  ((x - inject_Z f < 1 # 2 /\ rint x = f) \/
   (x - inject_Z f == 1 # 2 /\ (rint x = f \/ rint x = (f + 1)%Z)) \/
   (1 # 2 < x - inject_Z f /\ rint x = (f + 1)%Z)).
Proof.
  intro f. split; [apply Qfloor_le|]. split.
  { pose proof (Qlt_floor x) as H. fold f in H. rewrite inject_Z_plus in H. exact H. }
  unfold rint. fold f.
  destruct (Qcompare (x - inject_Z f) (1 # 2)) eqn:E.
  - right. left. split; [now apply Qeq_alt|]. destruct (Z.even f); auto.
  - left. split; [now apply Qlt_alt | reflexivity].
  - right. right. split; [|reflexivity]. apply Qgt_alt in E. exact E.
Qed.


Lemma rint_mono x y : x <= y -> (rint x <= rint y)%Z.
Proof.
  intro Hxy.
  pose proof (Qfloor_resp_le _ _ Hxy) as Hf.
  destruct (rint_cases x) as (X1 & X2 & HX).
  destruct (rint_cases y) as (Y1 & Y2 & HY).
  destruct (Z.eq_dec (Qfloor x) (Qfloor y)) as [E|NE].
  - destruct (Qeq_dec x y) as [Exy|Nxy]; [rewrite (rint_comp _ _ Exy); lia|].
    assert (Hlt : x < y) by (apply Qle_lt_or_eq in Hxy; tauto).
    rewrite E in *. cbv zeta in *.
    destruct HX as [[H ->]|[[H [-> | ->]]|[H ->]]];
      destruct HY as [[H' ->]|[[H' [-> | ->]]|[H' ->]]]; try lia; exfalso; lra.
  - assert (L : (Qfloor x + 1 <= Qfloor y)%Z) by lia.
    assert (A : (rint x <= Qfloor x + 1)%Z)
      by (destruct HX as [[_ ->]|[[_ [-> | ->]]|[_ ->]]]; lia).
    assert (B : (Qfloor y <= rint y)%Z)
      by (destruct HY as [[_ ->]|[[_ [-> | ->]]|[_ ->]]]; lia).
    lia.
Qed.

Lemma rint_Z z : rint (inject_Z z) = z.
Proof.
  unfold rint. rewrite Qfloor_Z.
  assert (E : inject_Z z - inject_Z z == 0) by ring.
  rewrite (Qcompare_comp _ _ E _ _ (Qeq_refl (1 # 2))). reflexivity.
Qed.

Lemma pow10_pos d : 0 < pow10 d.
Proof.
  unfold pow10. change 0 with (inject_Z 0). rewrite <- Zlt_Qlt.
  apply Z.pow_pos_nonneg; lia.
Qed.

Lemma round_dec_comp d x y : x == y -> round_dec d x == round_dec d y.
Proof.
  intro H. unfold round_dec.
  assert (E : x * pow10 d == y * pow10 d) by (now rewrite H).
  now rewrite (rint_comp _ _ E).
Qed.

Lemma round_dec_mono d x y : x <= y -> round_dec d x <= round_dec d y.
Proof.
  intro H. unfold round_dec. pose proof (pow10_pos d) as P.
  apply Qmult_le_compat_r.
  - rewrite <- Zle_Qle. apply rint_mono. apply Qmult_le_compat_r; lra.
  - apply Qlt_le_weak, Qinv_lt_0_compat, P.
Qed.

Lemma round_dec_0 d : round_dec d 0 == 0.
Proof.
  unfold round_dec.
  assert (E : 0 * pow10 d == inject_Z 0) by ring.
  rewrite (rint_comp _ _ E), rint_Z.
  pose proof (pow10_pos d). field. lra.
Qed.

Lemma round_dec_nonneg d x : 0 <= x -> 0 <= round_dec d x.
Proof. intro H. rewrite <- (round_dec_0 d). now apply round_dec_mono. Qed.


Lemma nansum_Some vs : nansum (map Some vs) = sumQ vs.
Proof. induction vs as [|v vs IH]; simpl; trivial. now rewrite IH. Qed.

Lemma sumQ_nonneg vs : Forall (fun v => 0 <= v) vs -> 0 <= sumQ vs.
Proof.
  induction 1 as [|v vs Hv _ IH]; simpl; [apply Qle_refl | lra].
Qed.

(** * Facts about the row median *)

Section MedianFacts.

Import Median.

Lemma Qle_bool_false (x y : Q) : Qle_bool x y = false <-> y < x.
Proof.
  split; intro H.
  - apply Qnot_le_lt. intro C. apply Qle_bool_iff in C. congruence.
  - destruct (Qle_bool x y) eqn:E; trivial.
    apply Qle_bool_iff in E. apply Qlt_not_le in H. contradiction.
Qed.

Lemma length_insert x s : List.length (insert x s) = S (List.length s).
Proof.
  induction s as [|y s IH]; simpl; trivial.
  destruct (Qle_bool x y); simpl; auto.
Qed.

Lemma length_sort l : List.length (sort l) = List.length l.
Proof.
  induction l as [|x l IH]; simpl; trivial.
  rewrite length_insert. now rewrite IH.
Qed.

Lemma In_insert x s y : In y (insert x s) -> y = x \/ In y s.
Proof.
  induction s as [|z s IH]; simpl.
  - intros [H|[]]; auto.
  - destruct (Qle_bool x z); simpl.
    + intros [H|[H|H]]; auto.
    + intros [H|H]; auto. destruct (IH H); auto.
Qed.

Lemma sorted_insert x s : sorted s -> sorted (insert x s).
Proof.
  induction 1 as [|z s Hs IH Hz]; simpl.
  - constructor; [constructor | intros y []].
  - destruct (Qle_bool x z) eqn:E.
    + apply Qle_bool_iff in E.
      constructor; [constructor; assumption|].
      intros y [<-|Hy]; trivial.
      apply Qle_trans with z; auto.
    + apply Qle_bool_false in E.
      constructor; trivial.
      intros y Hy. destruct (In_insert _ _ _ Hy) as [->|Hy']; auto.
      now apply Qlt_le_weak.
Qed.

Lemma sorted_sort l : sorted (sort l).
Proof.
  induction l; simpl; [constructor | now apply sorted_insert].
Qed.

Lemma count_lt_cons v x l :
  count_lt v (x :: l) = ((if Qle_bool v x then 0 else 1) + count_lt v l)%nat.
Proof. unfold count_lt; simpl. destruct (Qle_bool v x); reflexivity. Qed.

Lemma count_le_cons v x l :
  count_le v (x :: l) = ((if Qle_bool x v then 1 else 0) + count_le v l)%nat.
Proof. unfold count_le; simpl. destruct (Qle_bool x v); reflexivity. Qed.

Lemma count_lt_insert v x s : count_lt v (insert x s) = count_lt v (x :: s).
Proof.
  induction s as [|y s IH]; simpl; trivial.
  destruct (Qle_bool x y); trivial.
  rewrite count_lt_cons, IH, !count_lt_cons. lia.
Qed.

Lemma count_le_insert v x s : count_le v (insert x s) = count_le v (x :: s).
Proof.
  induction s as [|y s IH]; simpl; trivial.
  destruct (Qle_bool x y); trivial.
  rewrite count_le_cons, IH, !count_le_cons. lia.
Qed.

Lemma count_lt_sort v l : count_lt v (sort l) = count_lt v l.
Proof.
  induction l as [|x l IH]; simpl; trivial.
  now rewrite count_lt_insert, !count_lt_cons, IH.
Qed.

Lemma count_le_sort v l : count_le v (sort l) = count_le v l.
Proof.
  induction l as [|x l IH]; simpl; trivial.
  now rewrite count_le_insert, !count_le_cons, IH.
Qed.

Lemma count_lt_app v l1 l2 : count_lt v (l1 ++ l2) = (count_lt v l1 + count_lt v l2)%nat.
Proof. unfold count_lt. now rewrite filter_app, length_app. Qed.

Lemma count_le_app v l1 l2 : count_le v (l1 ++ l2) = (count_le v l1 + count_le v l2)%nat.
Proof. unfold count_le. now rewrite filter_app, length_app. Qed.

Lemma count_lt_mono v w l : v <= w -> (count_lt v l <= count_lt w l)%nat.
Proof.
  intro H. induction l as [|x l IH]; simpl; trivial.
  rewrite !count_lt_cons.
  destruct (Qle_bool v x) eqn:E1, (Qle_bool w x) eqn:E2; try lia.
  apply Qle_bool_iff in E2. apply Qle_bool_false in E1.
  exfalso. apply (Qlt_irrefl x). apply Qlt_le_trans with v; trivial.
  now apply Qle_trans with w.
Qed.

Lemma count_le_mono v w l : v <= w -> (count_le v l <= count_le w l)%nat.
Proof.
  intro H. induction l as [|x l IH]; simpl; trivial.
  rewrite !count_le_cons.
  destruct (Qle_bool x v) eqn:E1, (Qle_bool x w) eqn:E2; try lia.
  apply Qle_bool_iff in E1. apply Qle_bool_false in E2.
  exfalso. apply (Qlt_irrefl x). apply Qle_lt_trans with w; trivial.
  now apply Qle_trans with v.
Qed.

Lemma count_lt_le_length v l : (count_lt v l <= List.length l)%nat.
Proof. unfold count_lt. apply filter_length_le. Qed.

Lemma count_le_le_length v l : (count_le v l <= List.length l)%nat.
Proof. unfold count_le. apply filter_length_le. Qed.

(** Above a lower bound of the list nothing is counted. *)
Lemma count_lt_below v l : (forall y, In y l -> v <= y) -> count_lt v l = 0%nat.
Proof.
  induction l as [|x l IH]; intros H; trivial.
  rewrite count_lt_cons, IH by (intros; apply H; now right).
  assert (E : Qle_bool v x = true) by (apply Qle_bool_iff, H; now left).
  now rewrite E.
Qed.

Lemma count_le_below v l : (forall y, In y l -> v < y) -> count_le v l = 0%nat.
Proof.
  induction l as [|x l IH]; intros H; trivial.
  rewrite count_le_cons, IH by (intros; apply H; now right).
  assert (E : Qle_bool x v = false) by (apply Qle_bool_false, H; now left).
  now rewrite E.
Qed.

(** In a sorted list, the counts of [v] pin down where [v] sits. *)
Lemma nth_of_counts t : sorted t -> forall n v,
  (n < List.length t)%nat -> (count_lt v t <= n)%nat -> (n < count_le v t)%nat ->
  nth n t 0 == v.
Proof.
  induction 1 as [|a t Ht IH Ha]; intros n v Hn Hlt Hle; simpl in Hn; [lia|].
  rewrite count_lt_cons in Hlt. rewrite count_le_cons in Hle.
  destruct (Qle_bool v a) eqn:Eva.
  - (* v <= a: nothing of the tail is below v *)
    apply Qle_bool_iff in Eva.
    destruct (Qle_bool a v) eqn:Eav.
    + apply Qle_bool_iff in Eav.
      destruct n as [|n]; simpl; [now apply Qle_antisym|].
      apply IH; try lia.
      rewrite count_lt_below; [lia|].
      intros y Hy. apply Qle_trans with a; auto.
    + apply Qle_bool_false in Eav.
      rewrite count_le_below in Hle; [lia|].
      intros y Hy. apply Qlt_le_trans with a; auto.
  - apply Qle_bool_false in Eva.
    assert (Eav : Qle_bool a v = true) by (apply Qle_bool_iff; now apply Qlt_le_weak).
    rewrite Eav in Hle.
    destruct n as [|n]; [lia|]. simpl. apply IH; lia.
Qed.

Lemma sorted_nth_le s : sorted s -> forall i j,
  (i <= j)%nat -> (j < List.length s)%nat -> nth i s 0 <= nth j s 0.
Proof.
  induction 1 as [|a s Hs IH Ha]; intros i j Hij Hj; simpl in Hj; [lia|].
  destruct i as [|i], j as [|j]; simpl; try lia.
  - apply Qle_refl.
  - apply Ha, nth_In. lia.
  - apply IH; lia.
Qed.

(** Conversely, the element at position [j] has at most [j] values strictly
    below it and more than [j] values at or below it. *)
Lemma counts_of_nth s : sorted s -> forall j, (j < List.length s)%nat ->
  (count_lt (nth j s 0%Q) s <= j)%nat /\ (j < count_le (nth j s 0%Q) s)%nat.
Proof.
  induction 1 as [|a s Hs IH Ha]; intros j Hj; simpl in Hj; [lia|].
  destruct j as [|j]; simpl.
  - rewrite count_lt_cons, count_le_cons.
    assert (E : Qle_bool a a = true) by (apply Qle_bool_iff, Qle_refl).
    rewrite E. rewrite count_lt_below by assumption. lia.
  - destruct (IH j) as [H1 H2]; [lia|].
    rewrite count_lt_cons, count_le_cons.
    assert (E : Qle_bool a (nth j s 0) = true)
      by (apply Qle_bool_iff, Ha, nth_In; lia).
    rewrite E. destruct (Qle_bool (nth j s 0) a); lia.
Qed.

Lemma count_lt_self v : count_lt v [v] = 0%nat.
Proof.
  rewrite count_lt_cons.
  assert (E : Qle_bool v v = true) by (apply Qle_bool_iff, Qle_refl).
  now rewrite E.
Qed.

Lemma count_le_self v : count_le v [v] = 1%nat.
Proof.
  rewrite count_le_cons.
  assert (E : Qle_bool v v = true) by (apply Qle_bool_iff, Qle_refl).
  now rewrite E.
Qed.

Lemma even_half k : Nat.even k = true -> exists j, k = (2 * j)%nat /\ (k / 2 = j)%nat.
Proof.
  intro E. apply Nat.even_spec in E. destruct E as [j ->].
  exists j. split; trivial.
  rewrite Nat.mul_comm. apply Nat.div_mul. lia.
Qed.

Lemma odd_half k : Nat.even k = false -> exists j, k = (2 * j + 1)%nat /\ (k / 2 = j)%nat.
Proof.
  intro E.
  assert (O : Nat.odd k = true) by (unfold Nat.odd; now rewrite E).
  apply Nat.odd_spec in O. destruct O as [j ->].
  exists j. split; trivial.
  symmetry. apply Nat.div_unique with 1%nat; lia.
Qed.

(** The median lies between the two middle elements (which coincide for an
    odd number of values). *)
Lemma medianQ_counts l : l <> [] ->
  let m := medianQ l in
  let k := List.length l in
  (2 * count_lt m l <= k)%nat /\ (k <= 2 * count_le m l)%nat /\
  (count_lt m l <= k / 2)%nat /\ (k / 2 < count_le m l + (if Nat.even k then 1 else 0))%nat.
Proof.
  intros Hne m k.
  assert (Hk : (0 < k)%nat) by (subst k; destruct l; simpl; [congruence | lia]).
  pose proof (sorted_sort l) as Hs.
  pose proof (length_sort l) as Hl. fold k in Hl.
  unfold m, medianQ. fold k.
  rewrite <- (count_lt_sort _ l), <- (count_le_sort _ l).
  destruct (Nat.even k) eqn:E.
  - destruct (even_half k E) as (j & Hkj & Hj). rewrite Hj.
    assert (Hj0 : (0 < j)%nat) by lia.
    set (a := nth (j - 1) (sort l) 0). set (b := nth j (sort l) 0).
    assert (Hab : a <= b) by (apply sorted_nth_le; trivial; lia).
    destruct (counts_of_nth _ Hs (j - 1)%nat) as [_ Ha]; [lia|]. fold a in Ha.
    destruct (counts_of_nth _ Hs j) as [Hb _]; [lia|]. fold b in Hb.
    assert (H1 : a <= (a + b) / 2) by (apply Qle_shift_div_l; lra).
    assert (H2 : (a + b) / 2 <= b) by (apply Qle_shift_div_r; lra).
    pose proof (count_lt_mono _ _ (sort l) H2).
    pose proof (count_le_mono _ _ (sort l) H1).
    lia.
  - destruct (odd_half k E) as (j & Hkj & Hj). rewrite Hj.
    destruct (counts_of_nth _ Hs j) as [Ha Hb]; [lia|].
    lia.
Qed.

(** The value the code computes is a statistical median of the values. *)
Lemma medianQ_is_median l : l <> [] -> is_median (medianQ l) l.
Proof.
  intro Hne. destruct (medianQ_counts l Hne) as (H1 & H2 & _). split; assumption.
Qed.

(** Adding the median of a row to the row does not move the median. *)
Lemma medianQ_absorb l : l <> [] -> medianQ (l ++ [medianQ l]) == medianQ l.
Proof.
  intro Hne.
  destruct (medianQ_counts l Hne) as (_ & _ & Hlt & Hle).
  set (m := medianQ l) in *. set (k := List.length l) in *.
  assert (Hk : (0 < k)%nat) by (subst k; destruct l; simpl; [congruence | lia]).
  set (t := sort (l ++ [m])).
  assert (Ht : sorted t) by apply sorted_sort.
  assert (Hlen : List.length t = S k)
    by (unfold t; rewrite length_sort, length_app; simpl; fold k; lia).
  assert (Clt : count_lt m t = count_lt m l)
    by (unfold t; rewrite count_lt_sort, count_lt_app, count_lt_self; lia).
  assert (Cle : count_le m t = S (count_le m l))
    by (unfold t; rewrite count_le_sort, count_le_app, count_le_self; lia).
  unfold medianQ at 1. rewrite length_app. simpl List.length. fold k. fold t.
  replace (k + 1)%nat with (S k) by lia.
  rewrite Nat.even_succ. unfold Nat.odd.
  destruct (Nat.even k) eqn:E; simpl negb; cbv iota.
  - destruct (even_half k E) as (j & Hkj & Hj). rewrite Hj in *.
    assert (Hd : (S k / 2 = j)%nat)
      by (symmetry; apply Nat.div_unique with 1%nat; lia).
    rewrite Hd. apply nth_of_counts; trivial; lia.
  - destruct (odd_half k E) as (j & Hkj & Hj). rewrite Hj in *.
    assert (Hd : (S k / 2 = S j)%nat)
      by (symmetry; apply Nat.div_unique with 0%nat; lia).
    rewrite Hd. replace (S j - 1)%nat with j by lia.
    assert (A : nth j t 0 == m) by (apply nth_of_counts; trivial; lia).
    assert (B : nth (S j) t 0 == m) by (apply nth_of_counts; trivial; lia).
    rewrite A, B. field.
Qed.

End MedianFacts.

Lemma present_app l1 l2 : present (l1 ++ l2) = present l1 ++ present l2.
Proof.
  induction l1 as [|[x|] l1 IH]; simpl; trivial. now rewrite IH.
Qed.

Lemma nanmedian_present row v :
  present row = v -> v <> [] -> Median.nanmedian row = Some (Median.medianQ v).
Proof.
  unfold Median.nanmedian. intros <-.
  destruct (present row); [congruence | reflexivity].
Qed.

(** C3.  For an hour key whose row of the pivot holds the values [vals] (the
    years that have a value for it; years without one are skipped, not read
    as zero), the column 'Spot median [c/kWh]' is the median of exactly
    [vals], a statistical median of them, and the column
    'Spot median w/ fees [c/kWh]' is that median times
    (1 + VAT + transfer fee), although the code takes the second median over
    the row extended with the first one. *)
Theorem C3_median_of_present_years :
  forall (vat_perc transfer_fee_perc : Q) (rows : list Spot.Row)
         (k : Spot.HourKey) (vals : list Q),
    let p := Spot.pivot_table rows in
    let mf := Spot.add_medians vat_perc transfer_fee_perc p in
    present (Spot.pivot_row p k) = vals ->
    vals <> [] ->
    Spot.spot_calculate_median vat_perc transfer_fee_perc
      (Spot.spot_pivot_by_hour (Spot.Frame rows)) = Spot.Frame mf /\
    Spot.mf_median mf k = Some (Median.medianQ vals) /\
    Median.is_median (Median.medianQ vals) vals /\
    Spot.mf_median_fees mf k
      =c= Some (Median.medianQ vals * (1 + vat_perc + transfer_fee_perc)).
Proof.
  intros vat fee rows k vals p mf Hv Hne.
  assert (Hm : Median.nanmedian (Spot.pivot_row p k) = Some (Median.medianQ vals))
    by now apply nanmedian_present.
  split; [reflexivity|].
  split; [exact Hm|].
  split; [now apply medianQ_is_median|].
  unfold mf, Spot.add_medians; simpl.
  rewrite Hm.
  rewrite (nanmedian_present _ (vals ++ [Median.medianQ vals])).
  - simpl. unfold Spot.additional_fee.
    rewrite (medianQ_absorb vals Hne). reflexivity.
  - rewrite present_app, Hv. reflexivity.
  - destruct vals; discriminate.
Qed.

Lemma C3_median_of_present_years_witness :
  let p := Spot.pivot_table example_prices in
  let mf := Spot.add_medians (255 # 1000) (111 # 1000) p in
  let k := Spot.mkKey 3 15 17 0 0 in
  Spot.mf_median mf k = Some (Median.medianQ [4 # 1; 10 # 1; 6 # 1]) /\
  Spot.mf_median_fees mf k
    =c= Some (Median.medianQ [4 # 1; 10 # 1; 6 # 1] * (1 + (255 # 1000) + (111 # 1000))).
Proof.
  intros p mf k.
  destruct (C3_median_of_present_years (255 # 1000) (111 # 1000) example_prices k
              [4 # 1; 10 # 1; 6 # 1]) as (_ & H1 & _ & H2).
  - vm_compute. reflexivity.
  - discriminate.
  - split; [exact H1 | exact H2].
Defined.

(** * Date-format detection *)

Section Detection.

Import Auxiliary.

Variable strptime : string -> string -> bool.

Lemma first_format_Some formats sample f :
  first_format strptime sample formats = Some f <-> first_match strptime formats sample f.
Proof.
  induction formats as [|g formats IH]; simpl.
  - split; [discriminate|]. intros (e & l & H & _). destruct e; discriminate.
  - destruct (strptime (Str.strip sample) g) eqn:E.
    + split.
      * intros [= <-]. exists [], formats. simpl. repeat split; trivial. intros ? [].
      * intros (e & l & H & He & Hf). destruct e as [|g' e]; simpl in H.
        -- now injection H as ->.
        -- injection H as -> _. rewrite He in E by now left. discriminate.
    + rewrite IH. split.
      * intros (e & l & -> & He & Hf). exists (g :: e), l. repeat split; trivial.
        intros fmt [<-|Hin]; auto.
      * intros (e & l & H & He & Hf). destruct e as [|g' e]; simpl in H.
        -- injection H as -> _. congruence.
        -- injection H as -> ->. exists e, l. repeat split; trivial.
           intros fmt Hin. apply He. now right.
Qed.

Lemma first_format_None formats sample :
  first_format strptime sample formats = None <-> no_match strptime formats sample.
Proof.
  unfold no_match. induction formats as [|g formats IH]; simpl.
  - split; trivial. intros _ ? [].
  - destruct (strptime (Str.strip sample) g) eqn:E.
    + split; [discriminate|]. intro H. rewrite H in E by now left. discriminate.
    + rewrite IH. split.
      * intros H fmt [<-|Hin]; auto.
      * intros H fmt Hin. apply H. now right.
Qed.

Lemma first_format_In formats sample f :
  first_format strptime sample formats = Some f -> In f formats.
Proof.
  intro H. apply first_format_Some in H. destruct H as (e & l & -> & _).
  apply in_or_app. right. now left.
Qed.

Variable formats : list string.
Hypothesis formats_nonempty : forall f, In f formats -> f <> ""%string.

Lemma truthy_format f : In f formats -> truthy (Some f) = true.
Proof.
  intro H. simpl. apply formats_nonempty in H.
  destruct (String.eqb_spec f ""); [contradiction | reflexivity].
Qed.

(** The scan stops at the first sample that some format parses and reports
    the first format of the list that parses that sample. *)
Lemma scan_samples_Some samples f :
  scan_samples strptime formats None samples = Some f <->
  exists before sample after,
    samples = before ++ sample :: after /\
    (forall s, In s before -> no_match strptime formats s) /\
    first_match strptime formats sample f.
Proof.
  induction samples as [|s samples IH]; simpl.
  - split; [discriminate|]. intros (b & x & a & H & _). destruct b; discriminate.
  - destruct (first_format strptime s formats) as [g|] eqn:E.
    + rewrite (truthy_format g) by (eapply first_format_In; eassumption).
      split.
      * intros [= <-]. exists [], s, samples. simpl. repeat split.
        -- intros ? [].
        -- now apply first_format_Some.
      * intros (b & x & a & H & Hb & Hx). destruct b as [|s' b]; simpl in H.
        -- injection H as -> ->. apply first_format_Some in Hx. congruence.
        -- injection H as -> ->.
           assert (N : first_format strptime s' formats = None)
             by (apply first_format_None, Hb; now left).
           congruence.
    + simpl. rewrite IH. split.
      * intros (b & x & a & -> & Hb & Hx). exists (s :: b), x, a. repeat split; trivial.
        intros s' [<-|Hin]; auto. now apply first_format_None.
      * intros (b & x & a & H & Hb & Hx). destruct b as [|s' b]; simpl in H.
        -- injection H as -> ->. apply first_format_Some in Hx. congruence.
        -- injection H as -> ->. exists b, x, a. repeat split; trivial.
           intros s0 Hin. apply Hb. now right.
Qed.


End Detection.

Lemma date_time_formats_nonempty :
  forall f, In f Auxiliary.date_time_formats -> f <> ""%string.
Proof.
  assert (H : forallb (fun f => negb (String.eqb f "")) Auxiliary.date_time_formats = true)
    by reflexivity.
  rewrite forallb_forall in H.
  intros f Hin E. apply H in Hin. subst f. discriminate.
Qed.


(** On the example file the third sample decides: "%m/%d/%Y" is reported,
    although "%d/%m/%Y", later in the list, parses the sample as well, and
    although the fourth sample is in another notation. *)
Example detect_example_rows :
  Auxiliary.detect_format Auxiliary.Example.strptime example_rows = Some "%m/%d/%Y"%string /\
  Auxiliary.Example.strptime "03/04/2021" "%d/%m/%Y" = true.
Proof. split; reflexivity. Qed.


(** C8, on the code.  For a path whose file does not exist the function does
    not return a frame: it returns the class object [pd.DataFrame] itself.
    Any other failure to read leaves the function as an exception. *)
Theorem C8_missing_file_returns_class_object :
  forall (strptime : string -> string -> bool)
         (to_datetime : list (option string) -> string -> option (list (option Timestamp)))
         (infer_freq : Auxiliary.Loaded -> Auxiliary.FreqResult)
         (resample_hourly_mean : Auxiliary.Loaded -> Auxiliary.Loaded)
         (path : string),
    let missing := fun _ : string => Auxiliary.FileNotFoundError in
    let unreadable := fun _ : string => Auxiliary.OtherReadError in
    Auxiliary.profile_csv_to_dataframe missing strptime to_datetime infer_freq
      resample_hourly_mean path = Auxiliary.FrameClass /\
    Auxiliary.is_frame_instance
      (Auxiliary.profile_csv_to_dataframe missing strptime to_datetime infer_freq
         resample_hourly_mean path) = false /\
    Auxiliary.profile_csv_to_dataframe unreadable strptime to_datetime infer_freq
      resample_hourly_mean path = Auxiliary.Raises.
Proof. intros. repeat split. Qed.

(** * The price cache *)

Section CacheFacts.

Import Spot.

Variable analysis_length_arg : Z.
Variable current_year : Z.
Variable service : Request -> option (list (Timestamp * Q)).
Variable resample : list Row -> option (list Row).

Let fetch := from_api_to_dataframe service resample.

(** A fetch sends exactly its one request, whatever the service answers, and
    leaves the cache file alone. *)
Lemma from_api_fetched start end_ w :
  fetched (snd (fetch start end_ w)) = fetched w ++ [mkRequest start end_] /\
  cache_file (snd (fetch start end_ w)) = cache_file w.
Proof.
  unfold fetch, from_api_to_dataframe.
  destruct (service (mkRequest start end_)); simpl; auto.
Qed.

Lemma when_true test y : test y = true -> when test (Some y) = Some y.
Proof. unfold when. now intros ->. Qed.

(** With both a leading and a trailing gap, [update_cache] takes its first
    branch: the request covers the years after the cached ones. *)
Lemma update_cache_both_gaps cached ymin ymax w :
  year_min cached = Some ymin ->
  year_max cached = Some ymax ->
  (ymax < end_year current_year)%Z ->
  fetched (snd (update_cache analysis_length_arg current_year service resample cached w))
  = fetched w ++ [mkRequest (first_hour (ymax + 1)) (last_hour (end_year current_year))].
Proof.
  intros Hmin Hmax Hlt.
  unfold update_cache. rewrite Hmax.
  rewrite when_true by (now apply Z.ltb_lt).
  unfold bind.
  destruct (from_api_fetched (first_hour (ymax + 1)) (last_hour (end_year current_year)) w)
    as [Hf Hc].
  fold fetch.
  destruct (fetch (first_hour (ymax + 1)) (last_hour (end_year current_year)) w)
    as [[new|] w1]; simpl in *; [|exact Hf].
  unfold cached_csv_to_dataframe; simpl.
  exact Hf.
Qed.

End CacheFacts.

(** C1, as the code has it.  When the cache file exists and misses both a
    leading range (cached minimum year > start_year) and a trailing range
    (cached maximum year < end_year), one call of [spot_get_price] sends
    exactly one request to the price service, and that request covers the
    trailing gap, from the first hour of cached_max_year+1 to the last hour
    of end_year: the trailing-gap check comes first. *)
Theorem C1_trailing_gap_first :
  forall (analysis_length_arg current_year : Z)
         (service : Spot.Request -> option (list (Timestamp * Q)))
         (resample : list Spot.Row -> option (list Spot.Row))
         (w : Spot.World) (cached : list Spot.Row) (ymin ymax : Z),
    Spot.cache_file w = Some cached ->
    Spot.year_min cached = Some ymin ->
    Spot.year_max cached = Some ymax ->
    (ymin > Spot.start_year analysis_length_arg current_year)%Z ->
    (ymax < Spot.end_year current_year)%Z ->
    Spot.fetched (snd (Spot.spot_get_price analysis_length_arg current_year
                                            service resample w))
    = Spot.fetched w
      ++ [Spot.mkRequest (Spot.first_hour (ymax + 1))
                         (Spot.last_hour (Spot.end_year current_year))].
Proof.
  intros len now service resample w cached ymin ymax Hfile Hmin Hmax Hlead Htrail.
  pose proof (update_cache_both_gaps len now service resample cached ymin ymax w
                Hmin Hmax Htrail) as Hu.
  unfold Spot.spot_get_price, Spot.spot_get_price_body.
  rewrite Hfile.
  unfold Spot.bind at 1. unfold Spot.cached_csv_to_dataframe at 1. rewrite Hfile.
  unfold Spot.bind at 1.
  destruct (Spot.update_cache len now service resample cached w) as [[df|] w1];
    simpl in *; exact Hu.
Qed.

Lemma C1_trailing_gap_first_witness :
  Spot.fetched (snd (Spot.spot_get_price 5 2025 quiet_service no_resampling example_world))
  = [Spot.mkRequest (mkTs 2023 1 1 0 0 0) (mkTs 2024 12 31 23 0 0)].
Proof.
  apply (C1_trailing_gap_first 5 2025 quiet_service no_resampling example_world
           [ (mkTs 2022 6 1 0 0 0, Some (3 # 1)) ] 2022 2022);
    vm_compute; reflexivity.
Defined.

(** C1 as it is worded: on that cache, which misses 2020-2021 and 2023-2024,
    the single request would have to be the leading range 2020..2021.  It is
    not. *)
Lemma C1_leading_gap_first_fails :
  let cached := [ (mkTs 2022 6 1 0 0 0, Some (3 # 1)) ] in
  Spot.cache_file example_world = Some cached /\
  Spot.year_min cached = Some 2022%Z /\
  Spot.year_max cached = Some 2022%Z /\
  (2022 > Spot.start_year 5 2025)%Z /\
  (2022 < Spot.end_year 2025)%Z /\
  Spot.fetched (snd (Spot.spot_get_price 5 2025 quiet_service no_resampling example_world))
  <> Spot.fetched example_world
     ++ [Spot.mkRequest (Spot.first_hour (Spot.start_year 5 2025))
                        (Spot.last_hour (2022 - 1))].
Proof.
  repeat split; try reflexivity.
  vm_compute. discriminate.
Qed.

(** * The allocation waterfall *)

Ltac names_differ :=
  let E := fresh "E" in intro E; vm_compute in E; discriminate E.

Ltac loc_simpl :=
  repeat first [ rewrite loc_clip | rewrite loc_mul | rewrite loc_sub
               | rewrite loc_add | rewrite loc_scale ].

Lemma supported_sub_l idx a b : supported idx a -> supported idx (series_sub a b).
Proof. intros H t Ht. rewrite loc_sub, (H t Ht). reflexivity. Qed.

Lemma supported_mul_l idx a b : supported idx a -> supported idx (series_mul a b).
Proof. intros H t Ht. rewrite loc_mul, (H t Ht). reflexivity. Qed.

Lemma supported_clip idx lo a : supported idx a -> supported idx (series_clip_lower lo a).
Proof. intros H t Ht. rewrite loc_clip, (H t Ht). reflexivity. Qed.

Lemma index_setitem_supported df n s :
  df_index (setitem df n s) = df_index df \/ df_index df = [].
Proof.
  rewrite index_setitem. destruct (is_nil (df_index df)) eqn:E; simpl; auto.
  right. now apply is_nil_true.
Qed.

Section CompanyBalance.

Import Allocator.

Variable upstream : DataFrame.
Let R := calculate_company_from upstream.


End CompanyBalance.

Lemma clip0_max x : clip_lowerQ 0 x == maxQ x 0.
Proof.
  unfold clip_lowerQ, maxQ.
  destruct (Qle_bool 0 x) eqn:E1, (Qle_bool x 0) eqn:E2; try reflexivity.
  - apply Qle_bool_iff in E1, E2. now apply Qle_antisym.
  - exfalso.
    assert (A : x < 0) by (apply Qnot_le_lt; intro C; apply Qle_bool_iff in C; congruence).
    assert (B : 0 < x) by (apply Qnot_le_lt; intro C; apply Qle_bool_iff in C; congruence).
    lra.
Qed.

Lemma maxQ_cases x y : (x <= y /\ maxQ x y = y) \/ (y < x /\ maxQ x y = x).
Proof.
  unfold maxQ. destruct (Qle_bool x y) eqn:E.
  - left. split; trivial. now apply Qle_bool_iff.
  - right. split; trivial. apply Qnot_le_lt. intro C. apply Qle_bool_iff in C. congruence.
Qed.



(** * Expansion "by type" *)

Section Expansion.

Import Allocator.

Lemma filter_absent_label (table : list ApartmentRow) a :
  ~ In a (map apartment table) ->
  filter (fun r' => String.eqb a (apartment r')) table = [].
Proof.
  induction table as [|y table IH]; simpl; trivial.
  intro H. destruct (String.eqb_spec a (apartment y)) as [E|_].
  - exfalso. apply H. now left.
  - apply IH. intro Hin. apply H. now right.
Qed.

Lemma filter_unique_label (table : list ApartmentRow) r :
  NoDup (map apartment table) -> In r table ->
  filter (fun r' => String.eqb (apartment r) (apartment r')) table = [r].
Proof.
  induction table as [|x table IH]; simpl; [intros _ []|].
  intros Hnd Hin. inversion Hnd as [|? ? Hx Hnd']; subst.
  destruct Hin as [->|Hin].
  - rewrite String.eqb_refl. f_equal. now apply filter_absent_label.
  - destruct (String.eqb_spec (apartment r) (apartment x)) as [E|_].
    + exfalso. apply Hx. rewrite <- E. now apply in_map.
    + now apply IH.
Qed.

Lemma loc_labels_app table l1 l2 :
  loc_labels table (l1 ++ l2) = loc_labels table l1 ++ loc_labels table l2.
Proof. unfold loc_labels. apply flat_map_app. Qed.

Lemma loc_labels_repeat table r n :
  NoDup (map apartment table) -> In r table ->
  loc_labels table (repeat (apartment r) n) = repeat r n.
Proof.
  intros Hnd Hin. induction n as [|n IH]; simpl; trivial.
  rewrite IH. now rewrite filter_unique_label.
Qed.

(** With distinct labels, selecting the repeated labels repeats the rows. *)
Lemma loc_labels_index_repeat table :
  NoDup (map apartment table) ->
  forall part, incl part table ->
  loc_labels table (index_repeat part) = flat_map (fun r => repeat r (amount r)) part.
Proof.
  intros Hnd part. induction part as [|r part IH]; intros Hincl; simpl; trivial.
  rewrite loc_labels_app, loc_labels_repeat; trivial.
  - f_equal. apply IH. intros x Hx. apply Hincl. now right.
  - apply Hincl. now left.
Qed.

Lemma combine_app_same {A B} (a1 a2 : list A) (b1 b2 : list B) :
  List.length a1 = List.length b1 ->
  combine (a1 ++ a2) (b1 ++ b2) = combine a1 b1 ++ combine a2 b2.
Proof.
  revert b1. induction a1 as [|x a1 IH]; intros [|y b1]; simpl; try discriminate; trivial.
  intros [= H]. now rewrite IH.
Qed.

Lemma combine_repeat_seq (r : ApartmentRow) n c (f : ApartmentRow * nat -> ApartmentRow) :
  map f (combine (repeat r n) (seq c n)) = map (fun i => f (r, i)) (seq c n).
Proof.
  revert c. induction n as [|n IH]; intro c; simpl; trivial. now rewrite IH.
Qed.

(** Relabelling and normalising the repeated rows, with the counter started
    at [c], is the expansion started at [c]. *)
Lemma relabel_normalize_from specs c :
  let rows := flat_map (fun r => repeat r (amount r)) specs in
  normalize
    (map (fun ai : ApartmentRow * nat =>
            {| apartment := String.append (apartment (fst ai)) (Str.of_nat (snd ai));
               allocation := allocation (fst ai);
               profile := profile (fst ai);
               amount := amount (fst ai) |})
         (combine rows (seq c (List.length rows))))
  = expand_from c specs.
Proof.
  revert c. induction specs as [|r specs IH]; intro c; simpl; trivial.
  rewrite length_app, repeat_length, seq_app.
  rewrite combine_app_same by (now rewrite repeat_length, length_seq).
  rewrite map_app. unfold normalize at 1. rewrite map_app. f_equal.
  - rewrite combine_repeat_seq, map_map. reflexivity.
  - apply IH.
Qed.

Lemma expand_by_type_spec specs :
  NoDup (map apartment specs) -> expand_by_type specs = expand_from 1 specs.
Proof.
  intro Hnd. unfold expand_by_type, relabel.
  rewrite loc_labels_index_repeat by (trivial; apply incl_refl).
  apply relabel_normalize_from.
Qed.



End Expansion.


(** * Column names *)

Lemma consumption_name_eq apt :
  Allocator.consumption_name apt = String.append apt " consumption [kWh]".
Proof. reflexivity. Qed.



Lemma apartment_column_eq apt :
  Allocator.apartment_column apt = Allocator.consumption_name apt.
Proof. reflexivity. Qed.

Lemma lower_app a b : Str.lower (a ++ b) = (Str.lower a ++ Str.lower b)%string.
Proof. induction a as [|c a IH]; simpl; trivial. now rewrite IH. Qed.

Lemma contains_app_r sub a b :
  Str.contains sub b = true -> Str.contains sub (a ++ b) = true.
Proof.
  intro H. induction a as [|c a IH]; simpl; trivial.
  rewrite IH. apply orb_true_r.
Qed.

Lemma mentions_suffix word apt suffix :
  Str.contains word (Str.lower suffix) = true ->
  Allocator.mentions word (String.append apt suffix) = true.
Proof.
  intro H. unfold Allocator.mentions. rewrite lower_app. now apply contains_app_r.
Qed.

Lemma mentions_consumption apt :
  Allocator.mentions "consumption" (Allocator.consumption_name apt) = true.
Proof. rewrite consumption_name_eq. now apply mentions_suffix. Qed.



(** * The stages before the units *)

Lemma columns_remove_feb_29 a b :
  columns (fst (Auxiliary.remove_feb_29_if_mismatch a b)) = columns a /\
  columns (snd (Auxiliary.remove_feb_29_if_mismatch a b)) = columns b.
Proof.
  unfold Auxiliary.remove_feb_29_if_mismatch.
  destruct (_ && _); [split; reflexivity|].
  destruct (_ && _); split; reflexivity.
Qed.

Lemma columns_reindex idx df : columns (frame_reindex idx df) = columns df.
Proof. unfold columns, frame_reindex; simpl. now rewrite map_map. Qed.

(** The shape shared by [add_production] and [add_company_consumption]. *)
Lemma columns_add_series name (s : Series) (upstream : DataFrame) :
  ~ In name (columns upstream) ->
  columns (Allocator.handled (
      let loaded := frame_of_series name s in
      let (loaded, dataframe) := Auxiliary.remove_feb_29_if_mismatch loaded upstream in
      if negb (has_column name loaded) then None
      else
        let loaded := frame_reindex (df_index dataframe) loaded in
        s <- getitem loaded name ;;
        Some (setitem dataframe name s)))
  = columns upstream ++ [name].
Proof.
  intro Hfresh. cbv zeta.
  destruct (columns_remove_feb_29 (frame_of_series name s) upstream) as [C1 C2].
  destruct (Auxiliary.remove_feb_29_if_mismatch (frame_of_series name s) upstream)
    as [loaded dataframe]; simpl in C1, C2.
  assert (H1 : has_column name loaded = true)
    by (apply has_column_In; rewrite C1; now left).
  rewrite H1; simpl.
  destruct (getitem_Some (frame_reindex (df_index dataframe) loaded) name) as [x Hx].
  { rewrite columns_reindex, C1. now left. }
  rewrite Hx. simpl.
  rewrite columns_setitem_new; rewrite C2; trivial.
Qed.

(** [spot_remove_years] hands on exactly the two median columns. *)
Lemma columns_median_profile m :
  columns (Spot.median_profile m)
  = [Allocator.spot_price_median; Allocator.spot_price_median_fees].
Proof. reflexivity. Qed.

Section Stages.

Import Allocator.

Variable pf : DataFrame.
Variable load : string -> Series.
Variable production_path : string.
Variable company_path : string.

Hypothesis price_columns : columns pf = [spot_price_median; spot_price_median_fees].

Let price := Spot.Frame pf.

Lemma columns_add_production :
  columns (add_production price load production_path)
  = [spot_price_median; spot_price_median_fees; production_column].
Proof.
  unfold add_production, price.
  rewrite columns_add_series; rewrite price_columns; [reflexivity|].
  intros [E|[E|[]]]; vm_compute in E; discriminate E.
Qed.

Lemma columns_add_company_consumption :
  columns (add_company_consumption price load production_path company_path)
  = [spot_price_median; spot_price_median_fees; production_column; company_column].
Proof.
  unfold add_company_consumption, add_company_consumption_from.
  rewrite columns_add_series; rewrite columns_add_production; [reflexivity|].
  intros [E|[E|[E|[]]]]; vm_compute in E; discriminate E.
Qed.

End Stages.

(** [calculate_company] appends its three columns to a frame that has the
    price, production and consumption columns and none of the three. *)
Lemma columns_calculate_company upstream :
  In Allocator.company_column (columns upstream) ->
  In Allocator.production_column (columns upstream) ->
  In Allocator.spot_price_median (columns upstream) ->
  In Allocator.spot_price_median_fees (columns upstream) ->
  ~ In Allocator.company_after_pv (columns upstream) ->
  ~ In Allocator.value_after_subtraction (columns upstream) ->
  ~ In Allocator.pv_after_company (columns upstream) ->
  columns (Allocator.calculate_company_from upstream)
  = columns upstream ++ [Allocator.company_after_pv; Allocator.value_after_subtraction;
                         Allocator.pv_after_company].
Proof.
  intros Hc Hp Hm Hf Na Nv Nl.
  unfold Allocator.calculate_company_from.
  assert (R : forallb (fun col => has_column col upstream)
                [Allocator.company_column; Allocator.production_column;
                 Allocator.spot_price_median] = true).
  { simpl. rewrite !(proj2 (has_column_In _ _)) by assumption. reflexivity. }
  rewrite R. cbv beta iota zeta. simpl negb. cbv iota.
  destruct (getitem_Some _ _ Hc) as [company Ec]. rewrite Ec.
  destruct (getitem_Some _ _ Hp) as [production Ep]. rewrite Ep.
  set (df1 := setitem upstream Allocator.company_after_pv _).
  assert (C1 : columns df1 = columns upstream ++ [Allocator.company_after_pv])
    by (now apply columns_setitem_new).
  assert (In1 : forall n, In n (columns upstream) -> In n (columns df1))
    by (intros n Hn; rewrite C1; apply in_or_app; now left).
  destruct (getitem_Some df1 Allocator.company_column) as [company1 Ec1]; [auto|].
  rewrite Ec1.
  destruct (getitem_Some df1 Allocator.company_after_pv) as [after Ea1].
  { rewrite C1. apply in_or_app. right. now left. }
  rewrite Ea1.
  destruct (getitem_Some df1 Allocator.spot_price_median_fees) as [fees Ef1]; [auto|].
  rewrite Ef1.
  set (df2 := setitem df1 Allocator.value_after_subtraction _).
  assert (C2 : columns df2 = columns df1 ++ [Allocator.value_after_subtraction]).
  { apply columns_setitem_new. rewrite C1. intro H. apply in_app_or in H.
    destruct H as [H|[E|[]]]; [contradiction | vm_compute in E; discriminate E]. }
  assert (In2 : forall n, In n (columns df1) -> In n (columns df2))
    by (intros n Hn; rewrite C2; apply in_or_app; now left).
  destruct (getitem_Some df2 Allocator.production_column) as [production2 Ep2]; [auto|].
  rewrite Ep2.
  destruct (getitem_Some df2 Allocator.company_column) as [company2 Ec2]; [auto|].
  rewrite Ec2. simpl Allocator.handled.
  rewrite columns_setitem_new.
  - rewrite C2, C1, <- !app_assoc. reflexivity.
  - rewrite C2, C1. intro H. apply in_app_or in H.
    destruct H as [H|[E|[]]]; [|vm_compute in E; discriminate E].
    apply in_app_or in H.
    destruct H as [H|[E|[]]]; [contradiction | vm_compute in E; discriminate E].
Qed.

Lemma columns_calculate_company_pipeline pf load production_path company_path :
  columns pf = [Allocator.spot_price_median; Allocator.spot_price_median_fees] ->
  columns (Allocator.calculate_company (Spot.Frame pf) load production_path company_path)
  = Allocator.base_columns.
Proof.
  intro H. unfold Allocator.calculate_company.
  rewrite columns_calculate_company;
    rewrite (columns_add_company_consumption pf load production_path company_path H);
    try reflexivity; simpl; auto 6;
    intro X; repeat (destruct X as [X|X]; [vm_compute in X; discriminate X|]); exact X.
Qed.

(** * Adding the units' consumption *)

Lemma NoDup_app_cons_fresh {A} (l m : list A) x : NoDup (l ++ x :: m) -> ~ In x l.
Proof.
  intros H Hin. apply NoDup_remove_2 in H. apply H. apply in_or_app. now left.
Qed.

Lemma NoDup_app_cons_shift {A} (l m : list A) x :
  NoDup (l ++ x :: m) -> NoDup ((l ++ [x]) ++ m).
Proof. now rewrite <- app_assoc. Qed.

Lemma unique_row_of_label table u :
  NoDup (map Allocator.apartment table) -> In u (map Allocator.apartment table) ->
  exists r, Allocator.unique_row u table = Some r /\ In r table /\ Allocator.apartment r = u.
Proof.
  intros Hnd Hin. apply in_map_iff in Hin. destruct Hin as (r & <- & Hr).
  exists r. unfold Allocator.unique_row.
  rewrite (filter_unique_label table r Hnd Hr). auto.
Qed.

Section AddProfiles.

Import Allocator.

Variable load : string -> Series.
Variable table : list ApartmentRow.
Hypothesis labels_distinct : NoDup (map apartment table).

Lemma add_profiles_spec : forall todo df P done,
  incl todo (map apartment table) ->
  NoDup (columns df ++ map consumption_name todo) ->
  NoDup (columns P ++ map consumption_name todo) ->
  incl done (columns P) ->
  (df_index P <> [] -> df_index df <> []) ->
  linked df P done ->
  exists df' P',
    add_profiles load table todo df P = (Some df', P') /\
    columns df' = columns df ++ map consumption_name todo /\
    columns P' = columns P ++ map consumption_name todo /\
    (forall n t, In n (columns df) -> at_ df' n t = at_ df n t) /\
    linked df' P' (done ++ map consumption_name todo).
Proof.
  induction todo as [|u rest IH]; intros df P done Hincl Ndf NP Hdone J L.
  - exists df, P. simpl. rewrite !app_nil_r. repeat split; trivial.
  - simpl in Ndf, NP.
    assert (Fdf : ~ In (consumption_name u) (columns df))
      by (eapply NoDup_app_cons_fresh; eassumption).
    assert (FP : ~ In (consumption_name u) (columns P))
      by (eapply NoDup_app_cons_fresh; eassumption).
    destruct (unique_row_of_label table u labels_distinct) as (r & Hr & _ & _).
    { apply Hincl. now left. }
    simpl. rewrite Hr.
    set (cu := consumption_name u) in *.
    set (P1 := setitem P cu (load (profile r))).
    assert (CP1 : columns P1 = columns P ++ [cu]) by (now apply columns_setitem_new).
    destruct (getitem_Some P1 cu) as [s Hs].
    { rewrite CP1. apply in_or_app. right. now left. }
    rewrite Hs.
    set (df1 := setitem df cu s).
    assert (Cdf1 : columns df1 = columns df ++ [cu]) by (now apply columns_setitem_new).
    assert (Is : s_index s = df_index P1) by (eapply getitem_index; eassumption).
    assert (Idf1 : df_index df1
                   = if is_nil (df_index df) && negb (is_nil (df_index P1))
                     then df_index P1 else df_index df).
    { unfold df1. now rewrite index_setitem, Is. }
    assert (IP1 : df_index P1 = df_index P \/ df_index P = [])
      by apply index_setitem_supported.
    assert (J1 : df_index P1 <> [] -> df_index df1 <> []).
    { intro H. rewrite Idf1.
      destruct (df_index df) eqn:Ed; simpl.
      - destruct (df_index P1); simpl; [congruence | discriminate].
      - discriminate. }
    assert (L1 : linked df1 P1 (done ++ [cu])).
    { intros c t Hc. apply in_app_or in Hc. destruct Hc as [Hc|[<-|[]]].
      - assert (Ne : c <> cu) by (intro E; subst c; apply FP, Hdone, Hc).
        unfold df1, P1. rewrite !at_setitem_other by assumption.
        fold P1. fold df1. rewrite (L c t Hc), Idf1.
        destruct (df_index df) eqn:Ed; simpl; trivial.
        destruct (df_index P1) eqn:Ep1; simpl; trivial.
        (* the frame takes the index of the profile frame: both were empty *)
        assert (Ep : df_index P = []).
        { destruct (df_index P) eqn:Ep; trivial.
          exfalso. apply J; [discriminate | reflexivity]. }
        rewrite (at_empty_index P c t Ep). now destruct (ts_eqb t t0 || ts_mem t l).
      - unfold df1. rewrite at_setitem_same_cut. fold df1.
        now rewrite (getitem_loc _ _ _ t Hs). }
    destruct (IH df1 P1 (done ++ [cu])) as (df' & P' & E & C' & CP' & Keep & L').
    + intros x Hx. apply Hincl. now right.
    + rewrite Cdf1. now apply NoDup_app_cons_shift.
    + rewrite CP1. now apply NoDup_app_cons_shift.
    + rewrite CP1. intros x Hx. apply in_app_or in Hx. apply in_or_app.
      destruct Hx as [Hx|Hx]; [left; now apply Hdone | now right].
    + exact J1.
    + exact L1.
    + exists df', P'. split; [exact E|].
      split; [rewrite C', Cdf1, <- app_assoc; reflexivity|].
      split; [rewrite CP', CP1, <- app_assoc; reflexivity|].
      split.
      * intros n t Hn. rewrite Keep by (rewrite Cdf1; apply in_or_app; now left).
        unfold df1. apply at_setitem_other. intro X. subst n. contradiction.
      * rewrite <- app_assoc in L'. exact L'.
Qed.

End AddProfiles.

(** * Inserting the units' columns *)

Lemma count_position_unique (x : string) pre post :
  ~ In x pre -> ~ In x post ->
  count_name x (pre ++ x :: post) = 1%nat /\ position x (pre ++ x :: post) = List.length pre.
Proof.
  intros Hpre Hpost. unfold count_name.
  assert (Z0 : forall l, ~ In x l -> filter (String.eqb x) l = []).
  { induction l as [|y l IH]; simpl; trivial. intro H.
    destruct (String.eqb_spec x y) as [E|_].
    - exfalso. apply H. now left.
    - apply IH. intro Hin. apply H. now right. }
  split.
  - rewrite filter_app. simpl. rewrite String.eqb_refl, (Z0 pre Hpre), (Z0 post Hpost).
    reflexivity.
  - clear Z0 Hpost. induction pre as [|y pre IH]; simpl.
    + now rewrite String.eqb_refl.
    + destruct (String.eqb_spec x y) as [E|_].
      * exfalso. apply Hpre. now left.
      * f_equal. apply IH. intro Hin. apply Hpre. now right.
Qed.

Lemma firstn_exact {A} (l1 l2 : list A) : firstn (List.length l1) (l1 ++ l2) = l1.
Proof. induction l1 as [|x l1 IH]; simpl; [now destruct l2 | now rewrite IH]. Qed.

Lemma skipn_exact {A} (l1 l2 : list A) : skipn (List.length l1) (l1 ++ l2) = l2.
Proof. induction l1 as [|x l1 IH]; simpl; trivial. Qed.

Lemma firstn_skipn_at {A} (pre : list A) x post :
  firstn (List.length pre + 1) (pre ++ x :: post) = pre ++ [x] /\
  skipn (List.length pre + 1) (pre ++ x :: post) = post.
Proof.
  replace (pre ++ x :: post) with ((pre ++ [x]) ++ post) by (now rewrite <- app_assoc).
  replace (List.length pre + 1)%nat with (List.length (pre ++ [x]))
    by (rewrite length_app; reflexivity).
  split; [apply firstn_exact | apply skipn_exact].
Qed.

Lemma consumption_in_unit_columns v rest :
  In v rest -> In (Allocator.consumption_name v) (flat_map Allocator.unit_columns rest).
Proof.
  intro H. apply in_flat_map. exists v. split; trivial. now left.
Qed.

Lemma consumption_names_in_unit_columns c rest :
  In c (map Allocator.consumption_name rest) -> In c (flat_map Allocator.unit_columns rest).
Proof.
  intro H. apply in_map_iff in H. destruct H as (v & <- & Hv).
  now apply consumption_in_unit_columns.
Qed.

Section InsertUnits.

Import Allocator.

Variable table : list ApartmentRow.
Hypothesis labels_distinct : NoDup (map apartment table).

Lemma insert_units_spec : forall todo pre df,
  incl todo (map apartment table) ->
  columns df = pre ++ map consumption_name todo ->
  NoDup (pre ++ flat_map unit_columns todo) ->
  In pv_after_company pre -> In spot_price_median_fees pre ->
  exists df',
    insert_units table todo df = Some df' /\
    columns df' = pre ++ flat_map unit_columns todo /\
    df_index df' = df_index df /\
    (forall n t, In n (columns df) -> at_ df' n t = at_ df n t) /\
    (forall u r t, In u todo -> unique_row u table = Some r ->
       at_ df' (after_name u) t
         = cell_sub (at_ df (consumption_name u) t)
                    (cell_map (fun x => x * allocation r) (at_ df pv_after_company t)) /\
       at_ df' (value_name u) t
         = cell_mul (at_ df spot_price_median_fees t)
                    (cell_sub (at_ df (consumption_name u) t) (at_ df' (after_name u) t))).
Proof.
  induction todo as [|u rest IH]; intros pre df Hincl Hcols Hnd Hleft Hfees.
  - exists df. simpl in *. rewrite app_nil_r in *.
    split; [reflexivity|]. split; [exact Hcols|]. split; [reflexivity|].
    split; [reflexivity|]. intros ? ? ? [].
  - simpl in Hcols, Hnd.
    set (cu := consumption_name u) in *.
    set (au := after_name u) in *.
    set (vu := value_name u) in *.
    set (R := map consumption_name rest) in *.
    set (T := flat_map unit_columns rest) in *.
    assert (RT : forall c, In c R -> In c T)
      by (intro c; apply consumption_names_in_unit_columns).
    (* freshness of the three names *)
    assert (Ncu_pre : ~ In cu pre) by (eapply NoDup_app_cons_fresh; eassumption).
    assert (Ncu_R : ~ In cu R).
    { intro H. apply RT in H. apply NoDup_remove_2 in Hnd. apply Hnd.
      apply in_or_app. right. right. now right. }
    assert (Hnd2 : NoDup ((pre ++ [cu]) ++ au :: vu :: T))
      by (rewrite <- app_assoc; exact Hnd).
    assert (Nau : ~ In au (pre ++ cu :: R)).
    { intro H. apply NoDup_remove_2 in Hnd2. apply Hnd2.
      rewrite <- app_assoc. simpl. apply in_app_or in H. apply in_or_app.
      destruct H as [H|[H|H]]; [now left | right; now left |].
      right. right. right. now apply RT. }
    assert (Hnd3 : NoDup ((pre ++ [cu; au]) ++ vu :: T))
      by (rewrite <- app_assoc; exact Hnd).
    assert (Nvu : ~ In vu ((pre ++ [cu]) ++ au :: R)).
    { intro H. apply NoDup_remove_2 in Hnd3. apply Hnd3.
      rewrite <- !app_assoc in *. simpl in *. apply in_app_or in H. apply in_or_app.
      destruct H as [H|[H|[H|H]]]; [now left | right; now left | right; right; now left |].
      right. right. right. now apply RT. }
    assert (In_pre : forall n, In n pre -> In n (columns df))
      by (intros n Hn; rewrite Hcols; apply in_or_app; now left).
    assert (In_cu : In cu (columns df))
      by (rewrite Hcols; apply in_or_app; right; now left).
    (* the body of the loop *)
    simpl insert_units. change (apartment_column u) with cu.
    rewrite (proj2 (has_column_In cu df) In_cu). simpl negb. cbv iota.
    destruct (getitem_Some df cu In_cu) as [consumption Hc]. rewrite Hc.
    destruct (getitem_Some df pv_after_company (In_pre _ Hleft)) as [leftover Hl]. rewrite Hl.
    destruct (unique_row_of_label table u labels_distinct) as (r & Hr & _ & _).
    { apply Hincl. now left. }
    rewrite Hr.
    destruct (getitem_Some df spot_price_median_fees (In_pre _ Hfees)) as [fees Hf]. rewrite Hf.
    assert (Hloc : get_loc df cu = Some (List.length pre)).
    { destruct (count_position_unique cu pre R Ncu_pre Ncu_R) as [Hcount Hpos].
      unfold get_loc. now rewrite Hcols, Hcount, Hpos. }
    rewrite Hloc. cbv beta iota zeta. fold au vu.
    set (A := series_sub consumption (series_scale (allocation r) leftover)).
    set (V := series_mul fees (series_sub consumption A)).
    assert (SA : supported (df_index df) A)
      by (apply supported_sub_l; eapply getitem_supported; eassumption).
    assert (SV : supported (df_index df) V)
      by (apply supported_mul_l; eapply getitem_supported; eassumption).
    destruct (insert_succeeds df (List.length pre + 1) au A) as [df1 H1].
    { now rewrite Hcols. }
    { rewrite Hcols, length_app. simpl. lia. }
    rewrite H1.
    destruct (insert_Some _ _ _ _ _ H1) as (_ & _ & I1 & C1).
    rewrite Hcols in C1.
    destruct (firstn_skipn_at pre cu R) as [F1 S1]. rewrite F1, S1 in C1.
    destruct (insert_succeeds df1 (List.length pre + 1 + 1) vu V) as [df2 H2].
    { now rewrite C1. }
    { rewrite C1, !length_app. simpl. lia. }
    rewrite H2.
    destruct (insert_Some _ _ _ _ _ H2) as (_ & _ & I2 & C2).
    rewrite C1 in C2.
    assert (C2' : columns df2 = (pre ++ [cu; au; vu]) ++ R).
    { rewrite C2.
      replace ((pre ++ [cu]) ++ au :: R) with ((pre ++ [cu; au]) ++ R)
        by (now rewrite <- !app_assoc).
      replace (List.length pre + 1 + 1)%nat with (List.length (pre ++ [cu; au]))
        by (rewrite length_app; simpl; lia).
      rewrite firstn_exact, skipn_exact, <- !app_assoc. reflexivity. }
    (* columns of [df] read the same in [df2] *)
    assert (K2 : forall n t, In n (columns df) -> at_ df2 n t = at_ df n t).
    { intros n t Hn.
      rewrite (at_insert_other _ _ _ _ _ n t H2).
      - apply (at_insert_other _ _ _ _ _ n t H1).
        intro E. subst n. apply Nau. now rewrite <- Hcols.
      - intro E. subst n. apply Nvu. rewrite Hcols in Hn.
        rewrite <- app_assoc. simpl. apply in_app_or in Hn. apply in_or_app.
        destruct Hn as [Hn|[Hn|Hn]]; [now left | right; now left | right; right; now right]. }
    assert (Eau : forall t, at_ df2 au t = loc A t).
    { intro t. rewrite (at_insert_other _ _ _ _ _ au t H2).
      - now apply (at_insert_same _ _ _ _ _ t H1).
      - intro E. apply Nvu. rewrite <- E. apply in_or_app. right. now left. }
    assert (Evu : forall t, at_ df2 vu t = loc V t).
    { intro t. apply (at_insert_same _ _ _ _ _ t H2). now rewrite I1. }
    destruct (IH (pre ++ [cu; au; vu]) df2) as (df' & E' & C' & I' & K' & V').
    + intros x Hx. apply Hincl. now right.
    + exact C2'.
    + now rewrite <- app_assoc.
    + apply in_or_app. now left.
    + apply in_or_app. now left.
    + exists df'. split; [exact E'|].
      split; [rewrite C', <- app_assoc; reflexivity|].
      split; [now rewrite I', I2, I1|].
      assert (In2 : forall n, In n (columns df) -> In n (columns df2)).
      { intros n Hn. rewrite C2', Hcols in *. apply in_app_or in Hn.
        rewrite <- app_assoc. apply in_or_app.
        destruct Hn as [Hn|[Hn|Hn]]; [now left | right; now left |].
        right. simpl. right. right. now right. }
      split.
      * intros n t Hn. rewrite K' by auto. now apply K2.
      * intros v rv t Hv Hrv.
        assert (Hhead : v = u ->
          at_ df' (after_name v) t
            = cell_sub (at_ df (consumption_name v) t)
                (cell_map (fun x => x * allocation rv) (at_ df pv_after_company t)) /\
          at_ df' (value_name v) t
            = cell_mul (at_ df spot_price_median_fees t)
                (cell_sub (at_ df (consumption_name v) t) (at_ df' (after_name v) t))).
        { intros ->. assert (rv = r) by congruence. subst rv.
          fold cu au vu.
          assert (Ia : In au (columns df2)).
          { rewrite C2'. apply in_or_app. left. apply in_or_app. right. right. now left. }
          assert (Iv : In vu (columns df2)).
          { rewrite C2'. apply in_or_app. left. apply in_or_app. right. right. right. now left. }
          rewrite !K' by assumption. rewrite Eau, Evu.
          unfold V, A. loc_simpl.
          rewrite !(getitem_loc _ _ _ t Hc), !(getitem_loc _ _ _ t Hl),
                  !(getitem_loc _ _ _ t Hf).
          split; reflexivity. }
        destruct Hv as [<-|Hv]; [now apply Hhead|].
        destruct (V' v rv t Hv Hrv) as [Va Vv].
        rewrite Va, Vv, Va.
        rewrite !K2; [split; reflexivity | auto ..].
        rewrite Hcols. apply in_or_app. right. right. now apply in_map.
Qed.

End InsertUnits.

(** * The frame with the units *)

Lemma distinct_NoDup names : Allocator.distinct names = true -> NoDup names.
Proof.
  induction names as [|n names IH]; simpl; [constructor|].
  intro H. apply andb_true_iff in H. destruct H as [H1 H2].
  constructor; [|now apply IH].
  intro Hin. apply negb_true_iff in H1.
  assert (X : existsb (String.eqb n) names = true)
    by (apply existsb_exists; exists n; split; [assumption | apply String.eqb_refl]).
  congruence.
Qed.

Lemma NoDup_consumption_names pre labels :
  NoDup (pre ++ flat_map Allocator.unit_columns labels) ->
  NoDup (pre ++ map Allocator.consumption_name labels).
Proof.
  revert pre. induction labels as [|u rest IH]; intros pre H; simpl in *; trivial.
  replace (pre ++ Allocator.consumption_name u :: map Allocator.consumption_name rest)
    with ((pre ++ [Allocator.consumption_name u]) ++ map Allocator.consumption_name rest)
    by (now rewrite <- app_assoc).
  apply IH.
  replace (pre ++ Allocator.consumption_name u :: Allocator.after_name u
               :: Allocator.value_name u :: flat_map Allocator.unit_columns rest)
    with ((pre ++ [Allocator.consumption_name u]) ++ Allocator.after_name u
               :: Allocator.value_name u :: flat_map Allocator.unit_columns rest) in H
    by (now rewrite <- app_assoc).
  apply NoDup_remove_1 in H. apply NoDup_remove_1 in H. exact H.
Qed.



Section Pipeline.

Import Allocator.

Variable pf : DataFrame.
Variable load : string -> Series.
Variable production_path : string.
Variable company_path : string.
Variable app_data_dict : list ApartmentRow.
Variable calculation_method : Method.
Variable table : list ApartmentRow.

Hypothesis price_columns : columns pf = [spot_price_median; spot_price_median_fees].
Hypothesis resolved : resolve_apartments app_data_dict calculation_method = Some table.
Hypothesis names : well_named (map apartment table).

Let labels := map apartment table.
Let price := Spot.Frame pf.
Let F0 := calculate_company price load production_path company_path.
Let RES := add_apartment_consumption price load production_path company_path
             app_data_dict calculation_method.
Let F2 := calculate_apartment price load production_path company_path
            app_data_dict calculation_method.

Lemma names_all : NoDup (final_columns labels).
Proof. apply distinct_NoDup, names. Qed.

Lemma names_units : NoDup (base_columns ++ flat_map unit_columns labels).
Proof.
  pose proof names_all as H. unfold final_columns in H.
  rewrite app_assoc in H. now apply NoDup_app_remove_r in H.
Qed.

Lemma labels_distinct : NoDup labels.
Proof.
  pose proof names_units as H. apply NoDup_app_remove_l in H.
  apply (NoDup_consumption_names []) in H. simpl in H.
  now apply NoDup_map_inv in H.
Qed.

Lemma columns_F0 : columns F0 = base_columns.
Proof. now apply columns_calculate_company_pipeline. Qed.

(** What [add_apartment_consumption] and [calculate_apartment] build. *)
Lemma pipeline_structure :
  r_apartments RES = Some table /\
  columns (r_frame RES) = base_columns ++ map consumption_name labels /\
  columns (r_profiles RES) = map consumption_name labels /\
  linked (r_frame RES) (r_profiles RES) (map consumption_name labels) /\
  columns F2 = base_columns ++ flat_map unit_columns labels /\
  df_index F2 = df_index (r_frame RES) /\
  (forall n t, In n (columns (r_frame RES)) -> at_ F2 n t = at_ (r_frame RES) n t) /\
  (forall u r t, In u labels -> unique_row u table = Some r ->
     at_ F2 (after_name u) t
       = cell_sub (at_ F2 (consumption_name u) t)
                  (cell_map (fun x => x * allocation r) (at_ F2 pv_after_company t)) /\
     at_ F2 (value_name u) t
       = cell_mul (at_ F2 spot_price_median_fees t)
                  (cell_sub (at_ F2 (consumption_name u) t) (at_ F2 (after_name u) t))).
Proof.
  pose proof labels_distinct as Hl. pose proof names_units as Hu.
  destruct (add_profiles_spec load table Hl labels F0 empty_frame [])
    as (F1 & P & E & C1 & CP & _ & L).
  - apply incl_refl.
  - rewrite columns_F0. now apply NoDup_consumption_names.
  - simpl. apply (NoDup_consumption_names []). simpl.
    now apply NoDup_app_remove_l in Hu.
  - intros x [].
  - intro H. now elim H.
  - intros c t [].
  - assert (ER : RES = {| r_frame := F1; r_apartments := Some table; r_profiles := P |}).
    { unfold RES, add_apartment_consumption, add_apartment_consumption_from.
      rewrite resolved. fold price. fold F0. fold labels. now rewrite E. }
    rewrite columns_F0 in C1. simpl in CP, L.
    destruct (insert_units_spec table Hl labels base_columns F1)
      as (F & EF & CF & IF & KF & VF); trivial.
    + apply incl_refl.
    + unfold base_columns. simpl. auto 10.
    + unfold base_columns. simpl. auto 10.
    + assert (E2 : F2 = F).
      { unfold F2, calculate_apartment, calculate_apartment_from.
        fold RES. rewrite ER. simpl. fold labels. now rewrite EF. }
      rewrite ER, E2. simpl.
      split; [reflexivity|].
      do 6 (split; [assumption|]).
      intros u r t Hin Hr. destruct (VF u r t Hin Hr) as [Va Vv].
      assert (Ic : In (consumption_name u) (columns F1)).
      { rewrite C1. apply in_or_app. right. now apply in_map. }
      assert (Il : In pv_after_company (columns F1)).
      { rewrite C1. apply in_or_app. left. unfold base_columns. simpl. auto 10. }
      assert (If : In spot_price_median_fees (columns F1)).
      { rewrite C1. apply in_or_app. left. unfold base_columns. simpl. auto 10. }
      rewrite (KF _ t Ic), (KF _ t Il), (KF _ t If). split; assumption.
Qed.

End Pipeline.


(** * Grid surplus *)

Lemma find_own_column (cols : list Column) c :
  NoDup (map fst cols) -> In c cols ->
  find (fun c' => String.eqb (fst c) (fst c')) cols = Some c.
Proof.
  induction cols as [|x cols IH]; simpl; [intros _ []|].
  intros Hnd Hin. inversion Hnd as [|? ? Hx Hnd']; subst.
  destruct Hin as [->|Hin].
  - now rewrite String.eqb_refl.
  - destruct (String.eqb_spec (fst c) (fst x)) as [E|_].
    + exfalso. apply Hx. rewrite <- E. now apply in_map.
    + now apply IH.
Qed.

(** Inside its index, the row sum of a frame adds up its columns. *)
Lemma frame_sum_rows_at P t :
  NoDup (columns P) -> ts_mem t (df_index P) = true ->
  loc (frame_sum_rows P) t = Some (nansum (map (fun n => at_ P n t) (columns P))).
Proof.
  intros Hnd Ht. unfold loc, frame_sum_rows; simpl. rewrite Ht.
  f_equal. f_equal. unfold columns. rewrite map_map.
  apply map_ext_in. intros c Hc. unfold at_, getitem.
  now rewrite (find_own_column _ c Hnd Hc).
Qed.

Lemma surplus_columns_spec F P :
  In Allocator.production_column (columns F) ->
  In Allocator.company_column (columns F) ->
  In Allocator.spot_price_median (columns F) ->
  ~ In Allocator.pv_over_production (columns F) ->
  ~ In Allocator.value_to_grid (columns F) ->
  exists S,
    Allocator.surplus_columns F P = Some S /\
    columns S = columns F ++ [Allocator.pv_over_production; Allocator.value_to_grid] /\
    (forall n t, In n (columns F) -> at_ S n t = at_ F n t) /\
    (forall t, at_ S Allocator.pv_over_production t
               = cell_clip_lower 0
                   (cell_sub (at_ F Allocator.production_column t)
                             (cell_add (at_ F Allocator.company_column t)
                                       (loc (frame_sum_rows P) t)))) /\
    (forall t, at_ S Allocator.value_to_grid t
               = cell_mul (at_ S Allocator.pv_over_production t)
                          (at_ F Allocator.spot_price_median t)).
Proof.
  intros Hp Hc Hm No Nv. unfold Allocator.surplus_columns.
  destruct (getitem_Some F _ Hp) as [production Ep]. rewrite Ep.
  destruct (getitem_Some F _ Hc) as [company Ec]. rewrite Ec.
  set (calc := series_clip_lower 0 _).
  set (S1 := setitem F Allocator.pv_over_production calc).
  assert (C1 : columns S1 = columns F ++ [Allocator.pv_over_production])
    by (now apply columns_setitem_new).
  assert (Sc : supported (df_index F) calc).
  { apply supported_clip, supported_sub_l. eapply getitem_supported; eassumption. }
  destruct (getitem_Some S1 Allocator.pv_over_production) as [over Eo].
  { rewrite C1. apply in_or_app. right. now left. }
  rewrite Eo.
  destruct (getitem_Some S1 Allocator.spot_price_median) as [median Em].
  { rewrite C1. apply in_or_app. now left. }
  rewrite Em.
  set (value := series_mul over median).
  assert (Sv : supported (df_index S1) value).
  { apply supported_mul_l. eapply getitem_supported; eassumption. }
  exists (setitem S1 Allocator.value_to_grid value).
  split; [reflexivity|].
  assert (Nv1 : ~ In Allocator.value_to_grid (columns S1)).
  { rewrite C1. intro H. apply in_app_or in H.
    destruct H as [H|[E|[]]]; [contradiction | vm_compute in E; discriminate E]. }
  assert (Eover : forall t, at_ S1 Allocator.pv_over_production t = loc calc t)
    by (intro t; now apply at_setitem_same).
  assert (Ecalc : forall t, loc calc t
            = cell_clip_lower 0
                (cell_sub (at_ F Allocator.production_column t)
                          (cell_add (at_ F Allocator.company_column t)
                                    (loc (frame_sum_rows P) t)))).
  { intro t. unfold calc. loc_simpl.
    now rewrite (getitem_loc _ _ _ t Ep), (getitem_loc _ _ _ t Ec). }
  split; [rewrite columns_setitem_new, C1, <- app_assoc; trivial|].
  split.
  { intros n t Hn. rewrite at_setitem_other.
    - unfold S1. apply at_setitem_other. intro E. subst n. contradiction.
    - intro E. subst n. contradiction. }
  assert (Eo2 : forall t, at_ (setitem S1 Allocator.value_to_grid value)
                            Allocator.pv_over_production t = loc calc t).
  { intro t. rewrite at_setitem_other by names_differ. apply Eover. }
  split.
  { intro t. now rewrite Eo2, Ecalc. }
  intro t. rewrite at_setitem_same by assumption. unfold value. loc_simpl.
  rewrite (getitem_loc _ _ _ t Eo), (getitem_loc _ _ _ t Em), Eo2, Eover.
  unfold S1. now rewrite at_setitem_other by names_differ.
Qed.

Lemma in_base_final labels n :
  In n Allocator.base_columns ->
  In n (Allocator.base_columns ++ flat_map Allocator.unit_columns labels).
Proof. intro H. apply in_or_app. now left. Qed.

Section FinalFrame.

Import Allocator.

Variable pf : DataFrame.
Variable load : string -> Series.
Variable production_path : string.
Variable company_path : string.
Variable app_data_dict : list ApartmentRow.
Variable calculation_method : Method.
Variable table : list ApartmentRow.

Hypothesis price_columns : columns pf = [spot_price_median; spot_price_median_fees].
Hypothesis resolved : resolve_apartments app_data_dict calculation_method = Some table.
Hypothesis names : well_named (map apartment table).

Let labels := map apartment table.
Let price := Spot.Frame pf.
Let RES := add_apartment_consumption price load production_path company_path
             app_data_dict calculation_method.
Let F2 := calculate_apartment price load production_path company_path
            app_data_dict calculation_method.
Let FIN := calculate_pv_over_production price load production_path company_path
             app_data_dict calculation_method.

(** The final frame: the frame with the units, two more columns, rounded. *)
Lemma final_frame_structure :
  columns FIN = final_columns labels /\
  (forall n t, In n (columns F2) -> at_ FIN n t = cell_round 3 (at_ F2 n t)) /\
  (forall t, at_ FIN pv_over_production t
             = cell_round 3
                 (cell_clip_lower 0
                    (cell_sub (at_ F2 production_column t)
                              (cell_add (at_ F2 company_column t)
                                        (loc (frame_sum_rows (r_profiles RES)) t))))) /\
  (forall t, at_ FIN value_to_grid t
             = cell_round 3
                 (cell_mul
                    (cell_clip_lower 0
                       (cell_sub (at_ F2 production_column t)
                                 (cell_add (at_ F2 company_column t)
                                           (loc (frame_sum_rows (r_profiles RES)) t))))
                    (at_ F2 spot_price_median t))).
Proof.
  destruct (pipeline_structure pf load production_path company_path app_data_dict
              calculation_method table price_columns resolved names)
    as (_ & _ & _ & _ & CF & _ & _ & _).
  change (columns F2 = base_columns ++ flat_map unit_columns labels) in CF.
  pose proof (names_all table names) as Hall. fold labels in Hall.
  unfold final_columns in Hall. rewrite app_assoc, <- CF in Hall.
  assert (No : ~ In pv_over_production (columns F2))
    by (eapply NoDup_app_cons_fresh; eassumption).
  assert (Nv : ~ In value_to_grid (columns F2)).
  { assert (Hall2 : NoDup ((columns F2 ++ [pv_over_production]) ++ [value_to_grid]))
      by (rewrite <- app_assoc; exact Hall).
    apply NoDup_app_cons_fresh in Hall2.
    intro H. apply Hall2. apply in_or_app. now left. }
  destruct (surplus_columns_spec F2 (r_profiles RES)) as (SF & ES & CS & KS & OS & VS);
    trivial; try (rewrite CF; apply in_base_final; unfold base_columns; simpl; auto 10).
  assert (EF : FIN = frame_round 3 SF).
  { unfold FIN, calculate_pv_over_production, calculate_pv_over_production_from.
    fold F2. fold RES. now rewrite ES. }
  rewrite EF. split.
  { rewrite columns_round, CS, CF. unfold final_columns. now rewrite <- app_assoc. }
  split; [intros n t Hn; now rewrite at_round, KS|].
  split; [intro t; now rewrite at_round, OS|].
  intro t. now rewrite at_round, VS, OS.
Qed.

(** Where every unit has a consumption value, the row sum of the profile
    frame is the sum of those values. *)
Lemma profile_sum_at t vs :
  labels <> [] ->
  map (fun u => at_ F2 (consumption_name u) t) labels = map Some vs ->
  loc (frame_sum_rows (r_profiles RES)) t = Some (sumQ vs).
Proof.
  intros Hne Hvs.
  destruct (pipeline_structure pf load production_path company_path app_data_dict
              calculation_method table price_columns resolved names)
    as (_ & C1 & CP & L & _ & _ & KF & _).
  set (F1 := r_frame RES) in *. set (P := r_profiles RES) in *.
  change (columns F1 = base_columns ++ map consumption_name labels) in C1.
  change (columns P = map consumption_name labels) in CP.
  change (linked F1 P (map consumption_name labels)) in L.
  change (forall n t, In n (columns F1) -> at_ F2 n t = at_ F1 n t) in KF.
  assert (In1 : forall u, In u labels -> In (consumption_name u) (columns F1)).
  { intros u Hu. rewrite C1. apply in_or_app. right. now apply in_map. }
  (* every unit column of the frame reads as in the profile frame *)
  assert (Link : forall u, In u labels ->
            at_ F2 (consumption_name u) t
            = if ts_mem t (df_index F1) then at_ P (consumption_name u) t else NaN).
  { intros u Hu. rewrite KF by auto. apply L. now apply in_map. }
  assert (NP : NoDup (columns P)).
  { rewrite CP. pose proof (names_units table names) as Hu.
    apply NoDup_app_remove_l in Hu.
    exact (NoDup_consumption_names [] _ Hu). }
  destruct labels as [|u0 rest] eqn:El; [congruence|].
  destruct vs as [|v0 vs']; [discriminate|].
  assert (H0 : at_ F2 (consumption_name u0) t = Some v0) by (now injection Hvs).
  assert (M1 : ts_mem t (df_index F1) = true).
  { rewrite Link in H0 by (now left).
    destruct (ts_mem t (df_index F1)); [reflexivity | discriminate]. }
  assert (MP : ts_mem t (df_index P) = true).
  { rewrite Link, M1 in H0 by (now left).
    destruct (ts_mem t (df_index P)) eqn:E; trivial.
    rewrite at_outside in H0 by assumption. discriminate. }
  rewrite frame_sum_rows_at; trivial.
  rewrite CP, map_map. f_equal. rewrite <- nansum_Some, <- Hvs. f_equal.
    apply map_ext_in. intros u Hu. rewrite Link, M1 by assumption. reflexivity.
Qed.

End FinalFrame.

(** C7, as the code has it.  With at least one unit, in every row in which
    production, company consumption and every unit's consumption are numbers
    (read off the frame before the final rounding), the surplus column of the
    returned frame is max(production - (company consumption + sum of the
    units' consumption), 0) rounded to 3 decimals, and the value-to-grid
    column is the fee-free price times that unrounded maximum, rounded to 3
    decimals; every other column is the unrounded column rounded.  Where the
    inputs are non-negative the surplus is non-negative and at most the
    production column of the returned frame. *)
Theorem C7_grid_surplus_rounded :
  forall (pf : DataFrame) (load : string -> Series)
         (production_path company_path : string)
         (app_data_dict : list Allocator.ApartmentRow)
         (calculation_method : Allocator.Method)
         (table : list Allocator.ApartmentRow),
    columns pf = [Allocator.spot_price_median; Allocator.spot_price_median_fees] ->
    Allocator.resolve_apartments app_data_dict calculation_method = Some table ->
    Allocator.well_named (map Allocator.apartment table) ->
    table <> [] ->
    let F := Allocator.calculate_apartment (Spot.Frame pf) load production_path
               company_path app_data_dict calculation_method in
    let FIN := Allocator.calculate_pv_over_production (Spot.Frame pf) load
                 production_path company_path app_data_dict calculation_method in
    (forall n t, In n (columns F) -> at_ FIN n t = cell_round 3 (at_ F n t)) /\
    forall (t : Timestamp) (p c : Q) (vs : list Q),
      at_ F Allocator.production_column t = Some p ->
      at_ F Allocator.company_column t = Some c ->
      map (fun r => at_ F (Allocator.consumption_name (Allocator.apartment r)) t) table
        = map Some vs ->
      let surplus := maxQ (p - (c + sumQ vs)) 0 in
      at_ FIN Allocator.pv_over_production t =c= Some (round_dec 3 surplus) /\
      at_ FIN Allocator.value_to_grid t
        =c= cell_map (fun m => round_dec 3 (surplus * m))
                     (at_ F Allocator.spot_price_median t) /\
      at_ FIN Allocator.production_column t = Some (round_dec 3 p) /\
      (0 <= p -> 0 <= c -> Forall (fun v => 0 <= v) vs ->
       0 <= round_dec 3 surplus /\ round_dec 3 surplus <= round_dec 3 p).
Proof.
  intros pf load pp cp app method table Hp Hr Hn Hne F FIN.
  destruct (final_frame_structure pf load pp cp app method table Hp Hr Hn)
    as (CF & KF & OF & VF).
  fold F in KF, OF, VF. fold FIN in KF, OF, VF.
  split; [exact KF|].
  intros t p c vs Ep Ec Evs surplus.
  assert (Hsum : loc (frame_sum_rows
                   (Allocator.r_profiles
                      (Allocator.add_apartment_consumption (Spot.Frame pf) load pp cp
                         app method))) t = Some (sumQ vs)).
  { apply (profile_sum_at pf load pp cp app method table Hp Hr Hn).
    - destruct table; [congruence | discriminate].
    - rewrite map_map. exact Evs. }
  rewrite OF, VF, Hsum, Ep, Ec. simpl.
  assert (Eq : clip_lowerQ 0 (p - (c + sumQ vs)) == surplus) by apply clip0_max.
  split; [now apply round_dec_comp|].
  split.
  { destruct (at_ F Allocator.spot_price_median t) as [m|]; simpl; trivial.
    apply round_dec_comp. now rewrite Eq. }
  split.
  { rewrite KF, Ep; trivial.
    destruct (pipeline_structure pf load pp cp app method table Hp Hr Hn)
      as (_ & _ & _ & _ & CF2 & _).
    fold F in CF2. rewrite CF2. apply in_base_final.
    unfold Allocator.base_columns. simpl. auto 10. }
  intros Hp0 Hc0 Hv0. split.
  - apply round_dec_nonneg. unfold surplus.
    destruct (maxQ_cases (p - (c + sumQ vs)) 0) as [[_ ->]|[H ->]]; lra.
  - apply round_dec_mono. unfold surplus. pose proof (sumQ_nonneg vs Hv0).
    destruct (maxQ_cases (p - (c + sumQ vs)) 0) as [[_ ->]|[H' ->]]; lra.
Qed.

Lemma C7_grid_surplus_rounded_witness :
  let FIN := Allocator.calculate_pv_over_production (Spot.Frame rounding_price)
               rounding_load "production.csv" "company.csv"
               example_apartments Allocator.by_apartment in
  let surplus := maxQ ((10004 # 10000) - ((5006 # 10000) + sumQ [2 # 10])) 0 in
  at_ FIN Allocator.pv_over_production rounding_hour =c= Some (round_dec 3 surplus) /\
  0 <= round_dec 3 surplus /\ round_dec 3 surplus <= round_dec 3 (10004 # 10000).
Proof.
  intros FIN surplus.
  destruct (C7_grid_surplus_rounded rounding_price rounding_load
              "production.csv" "company.csv" example_apartments Allocator.by_apartment
              example_apartments) as [_ H].
  - reflexivity.
  - reflexivity.
  - vm_compute. reflexivity.
  - discriminate.
  - destruct (H rounding_hour (10004 # 10000) (5006 # 10000) [2 # 10])
      as (H1 & _ & _ & H4).
    + vm_compute. reflexivity.
    + vm_compute. reflexivity.
    + vm_compute. reflexivity.
    + split; [exact H1|].
      apply H4.
      * vm_compute. discriminate.
      * vm_compute. discriminate.
      * repeat constructor. vm_compute. discriminate.
Defined.

(** C7 as it is worded, read on the returned frame: in the row below all the
    inputs are non-negative, yet the surplus 0.3 is not
    max(1 - (0.501 + 0.2), 0) = 0.299. *)
Lemma C7_equation_fails_on_returned_frame :
  let FIN := Allocator.calculate_pv_over_production (Spot.Frame rounding_price)
               rounding_load "production.csv" "company.csv"
               example_apartments Allocator.by_apartment in
  at_ FIN Allocator.production_column rounding_hour =c= Some (1 # 1) /\
  at_ FIN Allocator.company_column rounding_hour =c= Some (501 # 1000) /\
  at_ FIN (Allocator.consumption_name "A") rounding_hour =c= Some (2 # 10) /\
  at_ FIN Allocator.pv_over_production rounding_hour =c= Some (3 # 10) /\
  ~ (3 # 10 == maxQ ((1 # 1) - ((501 # 1000) + (2 # 10))) 0).
Proof.
  cbv zeta.
  split; [vm_compute; reflexivity|].
  split; [vm_compute; reflexivity|].
  split; [vm_compute; reflexivity|].
  split; [vm_compute; reflexivity|].
  intro H. vm_compute in H. discriminate H.
Qed.

(** * The summaries *)









(** * The scenarios of the specification, run on the model *)

(** Production 10, company consumption 4, price with fees 5: nothing is left
    for the company to buy, the coverage is worth 20 and 6 kWh are left over. *)
Example scenario_company :
  let R := Allocator.calculate_company (Spot.Frame example_price) example_load
             "production.csv" "company.csv" in
  forall t, In t example_hours ->
    at_ R Allocator.company_after_pv t =c= Some 0 /\
    at_ R Allocator.value_after_subtraction t =c= Some (20 # 1) /\
    at_ R Allocator.pv_after_company t =c= Some (6 # 1).
Proof.
  intros R t Ht. simpl in Ht.
  repeat (destruct Ht as [<-|Ht];
          [split; [|split]; vm_compute; reflexivity|]).
  contradiction.
Qed.

(** One unit with weight 0.5 consuming 3 against a leftover of 6. *)
Example scenario_unit :
  let F := Allocator.calculate_apartment (Spot.Frame example_price) example_load
             "production.csv" "company.csv" example_apartments Allocator.by_apartment in
  forall t, In t example_hours ->
    at_ F (Allocator.after_name "A") t =c= Some 0 /\
    at_ F (Allocator.value_name "A") t =c= Some (15 # 1).
Proof.
  intros F t Ht. simpl in Ht.
  repeat (destruct Ht as [<-|Ht]; [split; vm_compute; reflexivity|]).
  contradiction.
Qed.

(** Nothing is clipped for a unit: with the whole leftover of 6 assigned to a
    unit that consumes 3, its after-PV value is -3 and its coverage is valued
    on 6 kWh. *)
Example unit_after_pv_goes_negative :
  let F := Allocator.calculate_apartment (Spot.Frame example_price) example_load
             "production.csv" "company.csv" greedy_apartments Allocator.by_apartment in
  at_ F (Allocator.after_name "A") (mkTs 2024 1 1 0 0 0) =c= Some (- (3 # 1)) /\
  at_ F (Allocator.value_name "A") (mkTs 2024 1 1 0 0 0) =c= Some (30 # 1).
Proof. split; vm_compute; reflexivity. Qed.

(** Without any unit the profile frame is empty, its row sum has no rows, and
    the surplus comes out as NaN. *)
Example surplus_without_units_is_NaN :
  let FIN := Allocator.calculate_pv_over_production (Spot.Frame example_price)
               example_load "production.csv" "company.csv" [] Allocator.by_apartment in
  at_ FIN Allocator.production_column (mkTs 2024 1 1 0 0 0) =c= Some (10 # 1) /\
  at_ FIN Allocator.company_column (mkTs 2024 1 1 0 0 0) =c= Some (4 # 1) /\
  at_ FIN Allocator.pv_over_production (mkTs 2024 1 1 0 0 0) = NaN.
Proof. cbv zeta. split; [|split]; vm_compute; reflexivity. Qed.

(** Two types sharing one identifier: every repeated label selects both rows. *)
Example expansion_with_a_repeated_identifier :
  map Allocator.apartment
      (Allocator.expand_by_type [ Allocator.mkApartment "A" (2 # 10) "A.csv" 2;
                                  Allocator.mkApartment "A" (3 # 10) "B.csv" 1 ])
  = ["A1"; "A2"; "A3"; "A4"; "A5"; "A6"]%string.
Proof. reflexivity. Qed.


Example example_types_expanded :
  map Allocator.apartment (Allocator.expand_by_type example_types)
  = ["A1"; "A2"; "A3"; "A4"; "B5"; "B6"; "B7"; "C8"; "C9"; "C10"; "C11"]%string.
Proof. reflexivity. Qed.


(** * The price cache: one call, call after call *)

Section YearBounds.

Import Spot.

Lemma fold_max_ge l : forall x, (x <= fold_left Z.max l x)%Z.
Proof.
  induction l as [|y l IH]; intro x; simpl; [lia|].
  specialize (IH (Z.max x y)). lia.
Qed.

Lemma fold_max_bound l : forall x y, In y l -> (y <= fold_left Z.max l x)%Z.
Proof.
  induction l as [|z l IH]; intros x y []; simpl.
  - subst z. pose proof (fold_max_ge l (Z.max x y)). lia.
  - now apply IH.
Qed.

Lemma fold_max_In l : forall x, fold_left Z.max l x = x \/ In (fold_left Z.max l x) l.
Proof.
  induction l as [|y l IH]; intro x; simpl; [now left|].
  destruct (IH (Z.max x y)) as [E|H]; [|now right; right].
  rewrite E. destruct (Z.max_spec x y) as [[_ ->]|[_ ->]]; auto.
Qed.

Lemma fold_min_le l : forall x, (fold_left Z.min l x <= x)%Z.
Proof.
  induction l as [|y l IH]; intro x; simpl; [lia|].
  specialize (IH (Z.min x y)). lia.
Qed.

Lemma fold_min_bound l : forall x y, In y l -> (fold_left Z.min l x <= y)%Z.
Proof.
  induction l as [|z l IH]; intros x y []; simpl.
  - subst z. pose proof (fold_min_le l (Z.min x y)). lia.
  - now apply IH.
Qed.

Lemma fold_min_In l : forall x, fold_left Z.min l x = x \/ In (fold_left Z.min l x) l.
Proof.
  induction l as [|y l IH]; intro x; simpl; [now left|].
  destruct (IH (Z.min x y)) as [E|H]; [|now right; right].
  rewrite E. destruct (Z.min_spec x y) as [[_ ->]|[_ ->]]; auto.
Qed.

(** [index.year.max()] is a year of the index, and the largest one. *)
Lemma max_opt_spec l m :
  max_opt l = Some m <-> In m l /\ forall y, In y l -> (y <= m)%Z.
Proof.
  destruct l as [|x l]; simpl.
  - split; [discriminate | intros [[] _]].
  - split.
    + intros [= <-]. split.
      * destruct (fold_max_In l x) as [->|H]; auto.
      * intros y [<-|H]; [apply fold_max_ge | now apply fold_max_bound].
    + intros [Hin Hle]. f_equal. apply Z.le_antisymm.
      * destruct (fold_max_In l x) as [->|H]; apply Hle; auto.
      * destruct Hin as [<-|H]; [apply fold_max_ge | now apply fold_max_bound].
Qed.

Lemma min_opt_spec l m :
  min_opt l = Some m <-> In m l /\ forall y, In y l -> (m <= y)%Z.
Proof.
  destruct l as [|x l]; simpl.
  - split; [discriminate | intros [[] _]].
  - split.
    + intros [= <-]. split.
      * destruct (fold_min_In l x) as [->|H]; auto.
      * intros y [<-|H]; [apply fold_min_le | now apply fold_min_bound].
    + intros [Hin Hle]. f_equal. apply Z.le_antisymm.
      * destruct Hin as [<-|H]; [apply fold_min_le | now apply fold_min_bound].
      * destruct (fold_min_In l x) as [->|H]; apply Hle; auto.
Qed.

Lemma year_max_spec rows m :
  year_max rows = Some m <->
  (exists r, In r rows /\ year (fst r) = m) /\
  forall r, In r rows -> (year (fst r) <= m)%Z.
Proof.
  unfold year_max, years_of. rewrite max_opt_spec. split.
  - intros [Hin Hle]. split.
    + apply in_map_iff in Hin. destruct Hin as (r & E & Hr). eauto.
    + intros r Hr. apply Hle. apply in_map_iff. eauto.
  - intros [(r & Hr & E) Hle]. split.
    + apply in_map_iff. eauto.
    + intros y Hy. apply in_map_iff in Hy. destruct Hy as (r' & <- & Hr'). auto.
Qed.

Lemma year_min_spec rows m :
  year_min rows = Some m <->
  (exists r, In r rows /\ year (fst r) = m) /\
  forall r, In r rows -> (m <= year (fst r))%Z.
Proof.
  unfold year_min, years_of. rewrite min_opt_spec. split.
  - intros [Hin Hle]. split.
    + apply in_map_iff in Hin. destruct Hin as (r & E & Hr). eauto.
    + intros r Hr. apply Hle. apply in_map_iff. eauto.
  - intros [(r & Hr & E) Hle]. split.
    + apply in_map_iff. eauto.
    + intros y Hy. apply in_map_iff in Hy. destruct Hy as (r' & <- & Hr'). auto.
Qed.

End YearBounds.

Section CacheCalls.

Import Spot.

Variable analysis_length_arg : Z.
Variable current_year : Z.
Variable service : Request -> option (list (Timestamp * Q)).
Variable resample : list Row -> option (list Row).

Let start_y := start_year analysis_length_arg current_year.
Let end_y := end_year current_year.
Let call := spot_get_price analysis_length_arg current_year service resample.
Let update := update_cache analysis_length_arg current_year service resample.
Let fetch := from_api_to_dataframe service resample.
Let window := slice (first_hour start_y) (last_hour end_y).
Let sent (w : World) (q : Request) : World :=
  {| cache_file := cache_file w; fetched := fetched w ++ [q] |}.
Let stored (w : World) (rows : list Row) (q : Request) : World :=
  {| cache_file := Some rows; fetched := fetched w ++ [q] |}.

Lemma fetch_result start end_ w :
  fetch start end_ w
  = (answer service resample (mkRequest start end_), sent w (mkRequest start end_)).
Proof.
  unfold fetch, from_api_to_dataframe, answer, api_rows, sent.
  now destruct (service (mkRequest start end_)).
Qed.

Lemma call_cached w cached :
  cache_file w = Some cached ->
  call w = match update cached w with
           | (Some df, w') => (Frame (drop_partial_first_year (window df)), w')
           | (None, w') => (FrameClass, w')
           end.
Proof.
  intro Hc. unfold call, spot_get_price, spot_get_price_body. rewrite Hc.
  unfold bind at 1. unfold cached_csv_to_dataframe at 1. rewrite Hc.
  unfold bind at 1. fold update.
  destruct (update cached w) as [[df|] w']; reflexivity.
Qed.

Lemma call_cold w :
  cache_file w = None ->
  let q := mkRequest (first_hour start_y) (last_hour end_y) in
  call w = match answer service resample q with
           | Some rows => (Frame (drop_partial_first_year rows), stored w rows q)
           | None => (FrameClass, sent w q)
           end.
Proof.
  intros Hc q. unfold call, spot_get_price, spot_get_price_body. rewrite Hc.
  unfold bind at 1. fold fetch. fold start_y. fold end_y.
  rewrite fetch_result. fold q.
  destruct (answer service resample q) as [rows|]; reflexivity.
Qed.

(** The three ways through [update_cache]. *)
Lemma update_covering cached w :
  (forall ymax, year_max cached = Some ymax -> (end_y <= ymax)%Z) ->
  (forall ymin, year_min cached = Some ymin -> (ymin <= start_y)%Z) ->
  update cached w = (Some cached, w).
Proof.
  intros Hmax Hmin. unfold update, update_cache, when.
  destruct (year_max cached) as [ymax|].
  - specialize (Hmax ymax eq_refl). fold end_y.
    destruct (Z.ltb_spec ymax end_y); [lia|].
    destruct (year_min cached) as [ymin|]; [|reflexivity].
    specialize (Hmin ymin eq_refl). fold start_y.
    destruct (Z.gtb_spec ymin start_y); [lia | reflexivity].
  - destruct (year_min cached) as [ymin|]; [|reflexivity].
    specialize (Hmin ymin eq_refl). fold start_y.
    destruct (Z.gtb_spec ymin start_y); [lia | reflexivity].
Qed.

Lemma update_trailing cached w ymax :
  year_max cached = Some ymax -> (ymax < end_y)%Z ->
  let q := mkRequest (first_hour (ymax + 1)) (last_hour end_y) in
  let old := match cache_file w with Some rows => rows | None => [] end in
  update cached w = match answer service resample q with
                    | Some new => (Some (old ++ new), stored w (old ++ new) q)
                    | None => (None, sent w q)
                    end.
Proof.
  intros Hmax Hlt q old. unfold update, update_cache. rewrite Hmax.
  fold end_y. rewrite when_true by (now apply Z.ltb_lt).
  unfold bind at 1. fold fetch. rewrite fetch_result. fold q.
  destruct (answer service resample q) as [new|]; [|reflexivity].
  unfold bind, to_csv_append, cached_csv_to_dataframe, stored, sent, old; simpl.
  destruct (cache_file w); reflexivity.
Qed.

Lemma update_leading cached w ymax ymin :
  year_max cached = Some ymax -> (end_y <= ymax)%Z ->
  year_min cached = Some ymin -> (start_y < ymin)%Z ->
  let q := mkRequest (first_hour start_y) (last_hour (ymin - 1)) in
  update cached w = match answer service resample q with
                    | Some new_df => (Some (new_df ++ cached), stored w (new_df ++ cached) q)
                    | None => (None, sent w q)
                    end.
Proof.
  intros Hmax Hge Hmin Hlt q. unfold update, update_cache, when. rewrite Hmax, Hmin.
  fold end_y. fold start_y.
  destruct (Z.ltb_spec ymax end_y); [lia|].
  destruct (Z.gtb_spec ymin start_y); [|lia].
  unfold bind at 1. fold fetch. rewrite fetch_result. fold q.
  destruct (answer service resample q) as [new_df|]; reflexivity.
Qed.

(** Every way through [update_cache], in one statement. *)
Lemma update_cases cached w :
  cache_file w = Some cached ->
  update cached w = (Some cached, w) \/
  exists y1 y2,
    let q := mkRequest (first_hour y1) (last_hour y2) in
    (answer service resample q = None /\ update cached w = (None, sent w q)) \/
    (exists new,
       answer service resample q = Some new /\
       (update cached w = (Some (cached ++ new), stored w (cached ++ new) q) \/
        update cached w = (Some (new ++ cached), stored w (new ++ cached) q))).
Proof.
  intro Hc.
  destruct (year_max cached) as [ymax|] eqn:Emax.
  - destruct (Z.lt_ge_cases ymax end_y) as [Hlt|Hge].
    + right. pose proof (update_trailing cached w ymax Emax Hlt) as H.
      cbv zeta in H. rewrite Hc in H.
      exists (ymax + 1)%Z, end_y. cbv zeta.
      destruct (answer service resample _) as [new|]; eauto.
    + destruct (year_min cached) as [ymin|] eqn:Emin.
      * destruct (Z.lt_ge_cases start_y ymin) as [Hl|Hg].
        -- right. pose proof (update_leading cached w ymax ymin Emax Hge Emin Hl) as H.
           cbv zeta in H.
           exists start_y, (ymin - 1)%Z. cbv zeta.
           destruct (answer service resample _) as [new|]; eauto.
        -- left. apply update_covering; intros y E; rewrite E in *; congruence || lia.
      * left. apply update_covering; intros y E; rewrite E in *; try discriminate.
        injection Emax as <-. lia.
  - left. unfold update, update_cache, when. rewrite Emax.
    assert (E : cached = []).
    { unfold year_max, years_of in Emax. destruct cached; [reflexivity | discriminate]. }
    subst cached. reflexivity.
Qed.

End CacheCalls.

(** X1.  The analysis window: its length is capped at 13 years (capping twice
    changes nothing), it ends with the year before the current one, it spans
    min(analysis_length, 13) years, and it is empty exactly when the length
    asked for is below 1. *)
Theorem window_of_analysis_years :
  forall analysis_length_arg current_year : Z,
    (Spot.analysis_length analysis_length_arg <= 13)%Z /\
    Spot.analysis_length (Spot.analysis_length analysis_length_arg)
      = Spot.analysis_length analysis_length_arg /\
    Spot.end_year current_year = (current_year - 1)%Z /\
    (Spot.end_year current_year - Spot.start_year analysis_length_arg current_year + 1
     = Z.min analysis_length_arg 13)%Z /\
    ((Spot.start_year analysis_length_arg current_year <= Spot.end_year current_year)%Z
     <-> (1 <= analysis_length_arg)%Z).
Proof.
  intros n now.
  unfold Spot.start_year, Spot.end_year, Spot.analysis_length.
  destruct (Z.gtb_spec n 13) as [Hgt|Hle].
  - destruct (Z.gtb_spec 13 13); lia.
  - destruct (Z.gtb_spec n 13); lia.
Qed.

(** X2.  A cache file, in chronological order, whose years reach from the
    first to the last year of the window is used as it is: no request is
    sent, the file is not written, and the frame returned is the window cut
    out of the cached rows, less its first year when that year is
    incomplete. *)
Theorem covering_cache_is_not_refetched :
  forall (analysis_length_arg current_year : Z)
         (service : Spot.Request -> option (list (Timestamp * Q)))
         (resample : list Spot.Row -> option (list Spot.Row))
         (w : Spot.World) (cached : list Spot.Row) (ymin ymax : Z),
    Spot.cache_file w = Some cached ->
    Spot.chronological cached = true ->
    Spot.year_min cached = Some ymin ->
    Spot.year_max cached = Some ymax ->
    (ymin <= Spot.start_year analysis_length_arg current_year)%Z ->
    (Spot.end_year current_year <= ymax)%Z ->
    Spot.spot_get_price analysis_length_arg current_year service resample w
    = (Spot.Frame
         (Spot.drop_partial_first_year
            (Spot.slice (Spot.first_hour (Spot.start_year analysis_length_arg current_year))
                        (Spot.last_hour (Spot.end_year current_year)) cached)),
       w).
Proof.
  intros n now service resample w cached ymin ymax Hc _ Hmin Hmax Hlo Hhi.
  rewrite (call_cached n now service resample w cached Hc).
  rewrite update_covering; [reflexivity | |].
  - intros y E. rewrite Hmax in E. injection E as <-. exact Hhi.
  - intros y E. rewrite Hmin in E. injection E as <-. exact Hlo.
Qed.

(** X3.  An existing cache file that holds no rows is never refilled: the
    comparisons of [update_cache] with the missing extreme years are false,
    no request is sent and the empty frame is returned. *)
Theorem empty_cache_is_never_refilled :
  forall (analysis_length_arg current_year : Z)
         (service : Spot.Request -> option (list (Timestamp * Q)))
         (resample : list Spot.Row -> option (list Spot.Row))
         (log : list Spot.Request),
    let w := {| Spot.cache_file := Some []; Spot.fetched := log |} in
    Spot.spot_get_price analysis_length_arg current_year service resample w
    = (Spot.Frame [], w).
Proof.
  intros n now service resample log w.
  rewrite (call_cached n now service resample w [] eq_refl).
  rewrite update_covering; [reflexivity | |]; intros y E; discriminate E.
Qed.

(** X4.  Without a cache file one request is sent, for the whole window.  The
    file then written holds every row of the answer, each price multiplied
    by 0.1, also the rows of an incomplete first year; only the frame
    returned leaves that year out. *)
Theorem cold_start_fetches_the_whole_window :
  forall (analysis_length_arg current_year : Z)
         (service : Spot.Request -> option (list (Timestamp * Q)))
         (resample : list Spot.Row -> option (list Spot.Row))
         (w : Spot.World) (spot : list (Timestamp * Q)) (rows : list Spot.Row),
    let q := Spot.mkRequest
               (Spot.first_hour (Spot.start_year analysis_length_arg current_year))
               (Spot.last_hour (Spot.end_year current_year)) in
    Spot.cache_file w = None ->
    service q = Some spot ->
    resample (Spot.api_rows spot) = Some rows ->
    Spot.spot_get_price analysis_length_arg current_year service resample w
    = (Spot.Frame (Spot.drop_partial_first_year rows),
       {| Spot.cache_file := Some rows; Spot.fetched := Spot.fetched w ++ [q] |}).
Proof.
  intros n now service resample w spot rows q Hc Hs Hr.
  pose proof (call_cold n now service resample w Hc) as H. cbv zeta in H.
  fold q in H. unfold Spot.answer in H. rewrite Hs, Hr in H. exact H.
Qed.

Lemma log_grew (log : list Spot.Request) q : log ++ [q] <> log.
Proof.
  intro E. apply (f_equal (@List.length _)) in E.
  rewrite length_app in E. simpl in E. lia.
Qed.

(** X5.  With a price service that fails, the cache file is never written,
    and a call that had to send a request ends in its handler: it returns the
    class object and leaves the file as it was. *)
Theorem failed_fetch_leaves_the_cache :
  forall (analysis_length_arg current_year : Z)
         (service : Spot.Request -> option (list (Timestamp * Q)))
         (resample : list Spot.Row -> option (list Spot.Row))
         (w : Spot.World),
    (forall q, service q = None) ->
    let r := Spot.spot_get_price analysis_length_arg current_year service resample w in
    Spot.cache_file (snd r) = Spot.cache_file w /\
    (Spot.fetched (snd r) <> Spot.fetched w -> fst r = Spot.FrameClass) /\
    (Spot.cache_file w = None -> fst r = Spot.FrameClass).
Proof.
  intros n now service resample w Hs r.
  assert (Hdown : forall q, Spot.answer service resample q = None).
  { intro q. unfold Spot.answer. now rewrite Hs. }
  destruct (Spot.cache_file w) as [cached|] eqn:Hc.
  - pose proof (call_cached n now service resample w cached Hc) as E.
    fold r in E.
    destruct (update_cases n now service resample cached w Hc)
      as [U|(y1 & y2 & [[A U]|(new & A & _)])].
    + rewrite U in E. rewrite E. simpl.
      split; [assumption|]. split; [intro H; now elim H | discriminate].
    + rewrite U in E. rewrite E. simpl.
      split; [assumption|]. split; [reflexivity | discriminate].
    + rewrite Hdown in A. discriminate A.
  - pose proof (call_cold n now service resample w Hc) as E. cbv zeta in E.
    fold r in E. rewrite Hdown in E. rewrite E. simpl.
    split; [now rewrite Hc|]. split; reflexivity.
Qed.

(** X6.  A call sends at most one request, after those already sent, and a
    request always runs from the first hour of a year to the last hour of a
    year. *)
Theorem at_most_one_request_per_call :
  forall (analysis_length_arg current_year : Z)
         (service : Spot.Request -> option (list (Timestamp * Q)))
         (resample : list Spot.Row -> option (list Spot.Row))
         (w : Spot.World),
    let w' := snd (Spot.spot_get_price analysis_length_arg current_year service resample w) in
    Spot.fetched w' = Spot.fetched w \/
    exists y1 y2,
      Spot.fetched w'
      = Spot.fetched w ++ [Spot.mkRequest (Spot.first_hour y1) (Spot.last_hour y2)].
Proof.
  intros n now service resample w w'. unfold w'.
  destruct (Spot.cache_file w) as [cached|] eqn:Hc.
  - rewrite (call_cached n now service resample w cached Hc).
    destruct (update_cases n now service resample cached w Hc)
      as [U|(y1 & y2 & [[A U]|(new & A & [U|U])])]; rewrite U; simpl;
      [now left | right; now exists y1, y2 ..].
  - pose proof (call_cold n now service resample w Hc) as E. cbv zeta in E.
    rewrite E. right.
    exists (Spot.start_year n now), (Spot.end_year now).
    now destruct (Spot.answer service resample _).
Qed.

(** X7.  The cache file only grows: after a call every row it held is still
    there, in the same order, with the new rows before or after them. *)
Theorem cache_rows_are_kept :
  forall (analysis_length_arg current_year : Z)
         (service : Spot.Request -> option (list (Timestamp * Q)))
         (resample : list Spot.Row -> option (list Spot.Row))
         (w : Spot.World) (cached : list Spot.Row),
    Spot.cache_file w = Some cached ->
    exists before after,
      Spot.cache_file
        (snd (Spot.spot_get_price analysis_length_arg current_year service resample w))
      = Some (before ++ cached ++ after).
Proof.
  intros n now service resample w cached Hc.
  rewrite (call_cached n now service resample w cached Hc).
  destruct (update_cases n now service resample cached w Hc)
    as [U|(y1 & y2 & [[A U]|(new & A & [U|U])])]; rewrite U; simpl.
  - exists [], []. now rewrite app_nil_r.
  - exists [], []. now rewrite app_nil_r.
  - now exists [], new.
  - exists new, []. now rewrite app_nil_r.
Qed.

(** X8.  A cache that misses years on both sides is repaired by two calls.
    When the first answer holds rows of the years asked for and reaches the
    last year of the window, the second call asks for the years before the
    cached ones: after the two calls the requests sent are the trailing gap,
    then the leading gap, and the file holds the second answer, the old rows
    and the first answer, in this order. *)
Theorem two_calls_repair_both_gaps :
  forall (analysis_length_arg current_year : Z)
         (service : Spot.Request -> option (list (Timestamp * Q)))
         (resample : list Spot.Row -> option (list Spot.Row))
         (w : Spot.World) (cached new : list Spot.Row) (ymin ymax : Z),
    let start_year := Spot.start_year analysis_length_arg current_year in
    let end_year := Spot.end_year current_year in
    let trailing := Spot.mkRequest (Spot.first_hour (ymax + 1)) (Spot.last_hour end_year) in
    let leading := Spot.mkRequest (Spot.first_hour start_year) (Spot.last_hour (ymin - 1)) in
    let call := Spot.spot_get_price analysis_length_arg current_year service resample in
    Spot.cache_file w = Some cached ->
    Spot.year_min cached = Some ymin ->
    Spot.year_max cached = Some ymax ->
    (start_year < ymin)%Z ->
    (ymax < end_year)%Z ->
    Spot.answer service resample trailing = Some new ->
    (forall r, In r new -> (ymax < year (fst r) <= end_year)%Z) ->
    (exists r, In r new /\ year (fst r) = end_year) ->
    let w1 := snd (call w) in
    let w2 := snd (call w1) in
    Spot.fetched w1 = Spot.fetched w ++ [trailing] /\
    Spot.cache_file w1 = Some (cached ++ new) /\
    Spot.fetched w2 = Spot.fetched w ++ [trailing; leading] /\
    forall older, Spot.answer service resample leading = Some older ->
                  Spot.cache_file w2 = Some (older ++ cached ++ new).
Proof.
  intros n now service resample w cached new ymin ymax start_year end_year
         trailing leading call Hc Hmin Hmax Hlead Htrail Hans Hrange Hlast w1 w2.
  assert (E1 : call w = (Spot.Frame
                           (Spot.drop_partial_first_year
                              (Spot.slice (Spot.first_hour start_year)
                                          (Spot.last_hour end_year) (cached ++ new))),
                         {| Spot.cache_file := Some (cached ++ new);
                            Spot.fetched := Spot.fetched w ++ [trailing] |})).
  { unfold call. rewrite (call_cached n now service resample w cached Hc).
    rewrite (update_trailing n now service resample cached w ymax Hmax Htrail).
    fold end_year. fold trailing. now rewrite Hans, Hc. }
  assert (W1 : w1 = {| Spot.cache_file := Some (cached ++ new);
                       Spot.fetched := Spot.fetched w ++ [trailing] |})
    by (unfold w1; now rewrite E1).
  apply year_min_spec in Hmin. destruct Hmin as [(rmin & Imin & Ymin) Lmin].
  apply year_max_spec in Hmax. destruct Hmax as [(rmax & Imax & Ymax) Lmax].
  destruct Hlast as (rlast & Ilast & Ylast).
  assert (Hmax1 : Spot.year_max (cached ++ new) = Some end_year).
  { apply year_max_spec. split.
    - exists rlast. split; [apply in_or_app; now right | assumption].
    - intros r Hr. apply in_app_or in Hr. destruct Hr as [Hr|Hr].
      + specialize (Lmax r Hr). lia.
      + specialize (Hrange r Hr). lia. }
  assert (Hmin1 : Spot.year_min (cached ++ new) = Some ymin).
  { apply year_min_spec. split.
    - exists rmin. split; [apply in_or_app; now left | assumption].
    - intros r Hr. apply in_app_or in Hr. destruct Hr as [Hr|Hr].
      + now apply Lmin.
      + specialize (Hrange r Hr). specialize (Lmin rmax Imax). lia. }
  assert (U2 : Spot.update_cache n now service resample (cached ++ new) w1
               = match Spot.answer service resample leading with
                 | Some older =>
                     (Some (older ++ cached ++ new),
                      {| Spot.cache_file := Some (older ++ cached ++ new);
                         Spot.fetched := Spot.fetched w1 ++ [leading] |})
                 | None =>
                     (None, {| Spot.cache_file := Spot.cache_file w1;
                               Spot.fetched := Spot.fetched w1 ++ [leading] |})
                 end).
  { apply (update_leading n now service resample (cached ++ new) w1 end_year ymin);
      trivial. apply Z.le_refl. }
  assert (C1 : Spot.cache_file w1 = Some (cached ++ new)) by (now rewrite W1).
  split; [now rewrite W1|]. split; [exact C1|].
  unfold w2, call. rewrite (call_cached n now service resample w1 (cached ++ new) C1), U2.
  assert (L : Spot.fetched w1 ++ [leading] = Spot.fetched w ++ [trailing; leading]).
  { rewrite W1. simpl. now rewrite <- app_assoc. }
  destruct (Spot.answer service resample leading) as [older|]; simpl.
  - split; [exact L|]. now intros ? [= <-].
  - split; [exact L|]. discriminate.
Qed.

(** * The window and the first year *)

Lemma ts_leb_first_hour y t : ts_leb (Spot.first_hour y) t = true -> (y <= year t)%Z.
Proof.
  unfold ts_leb, Spot.first_hour. simpl. intro H.
  apply orb_true_iff in H. destruct H as [H|H].
  - apply Z.ltb_lt in H. lia.
  - apply andb_true_iff in H. destruct H as [H _]. apply Z.eqb_eq in H. lia.
Qed.

Lemma ts_leb_last_hour y t : ts_leb t (Spot.last_hour y) = true -> (year t <= y)%Z.
Proof.
  unfold ts_leb, Spot.last_hour. simpl. intro H.
  apply orb_true_iff in H. destruct H as [H|H].
  - apply Z.ltb_lt in H. lia.
  - apply andb_true_iff in H. destruct H as [H _]. apply Z.eqb_eq in H. lia.
Qed.

Lemma drop_partial_first_year_incl rows r :
  In r (Spot.drop_partial_first_year rows) -> In r rows.
Proof.
  unfold Spot.drop_partial_first_year.
  destruct (Spot.year_min rows) as [y|]; trivial.
  destruct (negb _); trivial. intro H. now apply filter_In in H.
Qed.

(** X9.  Whatever a call returns is in the cache file after the call.  When
    the file existed before the call and is in chronological order after it,
    the rows returned all lie between the first hour of the first year and
    the last hour of the last year of the window. *)
Theorem returned_rows_lie_in_the_window :
  forall (analysis_length_arg current_year : Z)
         (service : Spot.Request -> option (list (Timestamp * Q)))
         (resample : list Spot.Row -> option (list Spot.Row))
         (w : Spot.World) (rows file : list Spot.Row),
    let start_year := Spot.start_year analysis_length_arg current_year in
    let end_year := Spot.end_year current_year in
    let r := Spot.spot_get_price analysis_length_arg current_year service resample w in
    fst r = Spot.Frame rows ->
    Spot.cache_file (snd r) = Some file ->
    Spot.chronological file = true ->
    incl rows file /\
    (Spot.cache_file w <> None ->
     forall row, In row rows ->
       ts_leb (Spot.first_hour start_year) (fst row) = true /\
       ts_leb (fst row) (Spot.last_hour end_year) = true /\
       (start_year <= year (fst row) <= end_year)%Z).
Proof.
  intros n now service resample w rows file start_year end_year r Hr Hfile _.
  assert (Hwin : forall df row,
             In row (Spot.drop_partial_first_year
                       (Spot.slice (Spot.first_hour start_year)
                                   (Spot.last_hour end_year) df)) ->
             In row df /\
             ts_leb (Spot.first_hour start_year) (fst row) = true /\
             ts_leb (fst row) (Spot.last_hour end_year) = true).
  { intros df row H. apply drop_partial_first_year_incl in H.
    unfold Spot.slice in H. apply filter_In in H. destruct H as [Hin H].
    apply andb_true_iff in H. tauto. }
  destruct (Spot.cache_file w) as [cached|] eqn:Hc.
  - pose proof (call_cached n now service resample w cached Hc) as E. fold r in E.
    assert (Hsome : forall df w', Spot.cache_file w' = Some df ->
               r = (Spot.Frame
                      (Spot.drop_partial_first_year
                         (Spot.slice (Spot.first_hour start_year)
                                     (Spot.last_hour end_year) df)), w') ->
               incl rows file /\
               (Some cached <> None ->
                forall row, In row rows ->
                  ts_leb (Spot.first_hour start_year) (fst row) = true /\
                  ts_leb (fst row) (Spot.last_hour end_year) = true /\
                  (start_year <= year (fst row) <= end_year)%Z)).
    { intros df w' Hw' Er. rewrite Er in Hr, Hfile. simpl in Hr, Hfile.
      injection Hr as <-. rewrite Hw' in Hfile. injection Hfile as <-. split.
      - intros row H. now apply Hwin in H.
      - intros _ row H. apply Hwin in H. destruct H as (_ & Hlo & Hhi).
        pose proof (ts_leb_first_hour _ _ Hlo). pose proof (ts_leb_last_hour _ _ Hhi).
        repeat split; trivial. }
    destruct (update_cases n now service resample cached w Hc)
      as [U|(y1 & y2 & [[A U]|(new & A & [U|U])])]; rewrite U in E.
    + now apply (Hsome cached w).
    + rewrite E in Hr. discriminate Hr.
    + eapply Hsome; [|exact E]. reflexivity.
    + eapply Hsome; [|exact E]. reflexivity.
  - pose proof (call_cold n now service resample w Hc) as E. cbv zeta in E. fold r in E.
    destruct (Spot.answer service resample _) as [fetched_rows|]; rewrite E in *;
      simpl in Hr; [|discriminate Hr].
    injection Hr as <-. simpl in Hfile. injection Hfile as <-. split.
    + intros row H. now apply drop_partial_first_year_incl in H.
    + intro H. now elim H.
Qed.

Section Dedup.

Variable A : Type.
Variable eqb : A -> A -> bool.
Hypothesis eqb_eq : forall a b, eqb a b = true <-> a = b.

Lemma existsb_eqb_In x (l : list A) : existsb (eqb x) l = true <-> In x l.
Proof.
  rewrite existsb_exists. split.
  - intros (y & Hy & E). apply eqb_eq in E. now subst y.
  - intro H. exists x. split; [assumption | now apply eqb_eq].
Qed.

Lemma In_dedup x (l : list A) : In x (Spot.dedup eqb l) <-> In x l.
Proof.
  induction l as [|y l IH]; simpl; [tauto|].
  destruct (existsb (eqb y) l) eqn:E.
  - rewrite IH. split; [now right|]. intros [<-|H]; trivial.
    now apply existsb_eqb_In.
  - simpl. now rewrite IH.
Qed.

Lemma NoDup_dedup (l : list A) : NoDup (Spot.dedup eqb l).
Proof.
  induction l as [|y l IH]; simpl; [constructor|].
  destruct (existsb (eqb y) l) eqn:E; trivial.
  constructor; trivial. rewrite In_dedup. intro H.
  apply existsb_eqb_In in H. congruence.
Qed.

End Dedup.

Lemma twelve_months (ms : list Z) :
  NoDup ms -> (forall m, In m ms -> (1 <= m <= 12)%Z) ->
  (List.length ms = 12%nat <-> forall m, (1 <= m <= 12)%Z -> In m ms).
Proof.
  intros Hnd Hrange.
  set (all := [1; 2; 3; 4; 5; 6; 7; 8; 9; 10; 11; 12]%Z).
  assert (Hall : forall m, In m all <-> (1 <= m <= 12)%Z).
  { intro m. unfold all. simpl. lia. }
  assert (Nall : NoDup all).
  { unfold all. repeat (constructor; [simpl; lia|]). constructor. }
  assert (Hincl : incl ms all) by (intros m H; apply Hall; auto).
  split.
  - intros Hlen m Hm.
    apply (NoDup_length_incl Hnd (l' := all)); [rewrite Hlen; simpl; lia | exact Hincl|].
    now apply Hall.
  - intro Hfull.
    assert (Hincl' : incl all ms) by (intros m H; apply Hfull; now apply Hall).
    pose proof (NoDup_incl_length Hnd Hincl) as L1.
    pose proof (NoDup_incl_length Nall Hincl') as L2.
    change (List.length all) with 12%nat in *. lia.
Qed.

(** X10.  Only the first year present is tested for completeness, by the
    number of its distinct months.  When every month from 1 to 12 has a row
    in that year, nothing is removed, whatever days or hours are missing;
    when a month has none, exactly the rows of that year are removed and the
    rows of all later years stay, complete or not. *)
Theorem incomplete_first_year_is_dropped :
  forall (rows : list Spot.Row) (first_year : Z),
    Spot.year_min rows = Some first_year ->
    (forall r, In r rows -> (1 <= month (fst r) <= 12)%Z) ->
    let complete :=
      forall m, (1 <= m <= 12)%Z ->
                exists r, In r rows /\ year (fst r) = first_year /\ month (fst r) = m in
    (complete -> Spot.drop_partial_first_year rows = rows) /\
    (~ complete ->
     Spot.drop_partial_first_year rows
     = filter (fun r => negb (year (fst r) =? first_year)%Z) rows).
Proof.
  intros rows y0 Hmin Hmonths complete.
  set (ms := Spot.months_in_year y0 rows).
  assert (Hin : forall m, In m ms <->
                  exists r, In r rows /\ year (fst r) = y0 /\ month (fst r) = m).
  { intro m. unfold ms, Spot.months_in_year.
    rewrite (In_dedup Z Z.eqb Z.eqb_eq), in_map_iff. split.
    - intros (r & E & H). apply filter_In in H. destruct H as [H Y].
      apply Z.eqb_eq in Y. eauto.
    - intros (r & H & Y & E). exists r. split; trivial.
      apply filter_In. split; trivial. now apply Z.eqb_eq. }
  assert (Hcount : List.length ms = 12%nat <-> complete).
  { rewrite twelve_months.
    - unfold complete. split; intros H m Hm; apply Hin; auto.
    - apply NoDup_dedup. exact Z.eqb_eq.
    - intros m H. apply Hin in H. destruct H as (r & H & _ & <-). auto. }
  unfold Spot.drop_partial_first_year. rewrite Hmin. fold ms.
  destruct (Nat.eqb_spec (List.length ms) 12) as [E|E]; simpl.
  - split; [reflexivity|]. intro H. elim H. now apply Hcount.
  - split; [|reflexivity]. intro H. elim E. now apply Hcount.
Qed.

(** * The pivot *)

Section SortBy.

Variable A : Type.
Variable leb : A -> A -> bool.

Lemma In_insert_by x y (s : list A) : In y (Spot.insert_by leb x s) <-> y = x \/ In y s.
Proof.
  induction s as [|z s IH]; simpl; [intuition|].
  destruct (leb x z); simpl; [intuition|]. rewrite IH. intuition.
Qed.

Lemma In_sort_by x (l : list A) : In x (Spot.sort_by leb l) <-> In x l.
Proof.
  induction l as [|y l IH]; simpl; [tauto|].
  rewrite In_insert_by, IH. intuition.
Qed.

Lemma NoDup_insert_by x (s : list A) :
  ~ In x s -> NoDup s -> NoDup (Spot.insert_by leb x s).
Proof.
  induction s as [|z s IH]; simpl; intros Hx Hnd.
  - constructor; [tauto | constructor].
  - destruct (leb x z).
    + constructor; simpl; trivial.
    + inversion Hnd as [|? ? Hz Hs]; subst. constructor.
      * rewrite In_insert_by. intuition.
      * apply IH; tauto.
Qed.

Lemma NoDup_sort_by (l : list A) : NoDup l -> NoDup (Spot.sort_by leb l).
Proof.
  induction l as [|y l IH]; simpl; intro Hnd; [constructor|].
  inversion Hnd; subst. apply NoDup_insert_by; [|auto]. now rewrite In_sort_by.
Qed.

Hypothesis leb_total : forall a b, leb a b = false -> leb b a = true.
Hypothesis leb_trans : forall a b c, leb a b = true -> leb b c = true -> leb a c = true.

Lemma sorted_insert_by x (s : list A) :
  StronglySorted (fun a b => leb a b = true) s ->
  StronglySorted (fun a b => leb a b = true) (Spot.insert_by leb x s).
Proof.
  induction s as [|z s IH]; simpl; intro Hs.
  - repeat constructor.
  - inversion Hs as [|? ? Hs' Hz]; subst.
    destruct (leb x z) eqn:E.
    + constructor; trivial. constructor; trivial.
      rewrite Forall_forall in *. intros y Hy. eapply leb_trans; eauto.
    + constructor; [auto|].
      rewrite Forall_forall in *. intros y Hy. apply In_insert_by in Hy.
      destruct Hy as [->|Hy]; auto.
Qed.

Lemma sorted_sort_by (l : list A) :
  StronglySorted (fun a b => leb a b = true) (Spot.sort_by leb l).
Proof.
  induction l as [|y l IH]; simpl; [constructor | now apply sorted_insert_by].
Qed.

(** Sorted and free of repetitions: strictly ascending. *)
Lemma strictly_sorted (s : list A) :
  NoDup s -> StronglySorted (fun a b => leb a b = true) s ->
  StronglySorted (fun a b => leb a b = true /\ a <> b) s.
Proof.
  induction s as [|z s IH]; intros Hnd Hs; [constructor|].
  inversion Hnd; inversion Hs; subst. constructor; [auto|].
  rewrite Forall_forall in *. intros y Hy. split; [auto|]. congruence.
Qed.

End SortBy.

Lemma lex_leb_total : forall a b, lex_leb a b = false -> lex_leb b a = true.
Proof.
  induction a as [|x a IH]; intros [|y b]; simpl; trivial; try discriminate.
  intro H. apply orb_false_iff in H. destruct H as [H1 H2].
  apply Z.ltb_ge in H1. apply andb_false_iff in H2.
  apply orb_true_iff.
  destruct (Z.eqb_spec x y) as [->|Hne].
  - right. rewrite Z.eqb_refl. simpl. destruct H2 as [H2|H2]; [discriminate | auto].
  - left. apply Z.ltb_lt. lia.
Qed.

Lemma lex_leb_trans : forall a b c,
  List.length a = List.length b -> List.length b = List.length c ->
  lex_leb a b = true -> lex_leb b c = true -> lex_leb a c = true.
Proof.
  induction a as [|x a IH]; intros [|y b] [|z c]; simpl; trivial; try discriminate.
  intros [= La] [= Lb] H1 H2.
  apply orb_true_iff in H1. apply orb_true_iff in H2. apply orb_true_iff.
  destruct H1 as [H1|H1]; destruct H2 as [H2|H2];
    rewrite ?Z.ltb_lt, ?andb_true_iff, ?Z.eqb_eq in *.
  - left. lia.
  - left. lia.
  - left. lia.
  - right. destruct H1 as [-> H1], H2 as [-> H2]. split; [reflexivity|]. eauto.
Qed.

Lemma key_eqb_eq a b : Spot.key_eqb a b = true <-> a = b.
Proof.
  destruct a, b. unfold Spot.key_eqb. simpl.
  rewrite !andb_true_iff, !Z.eqb_eq. split.
  - intros ((((-> & ->) & ->) & ->) & ->). reflexivity.
  - intros [= -> -> -> -> ->]. auto.
Qed.

Lemma key_leb_total a b : Spot.key_leb a b = false -> Spot.key_leb b a = true.
Proof. apply lex_leb_total. Qed.

Lemma key_leb_trans a b c :
  Spot.key_leb a b = true -> Spot.key_leb b c = true -> Spot.key_leb a c = true.
Proof. now apply lex_leb_trans. Qed.

Lemma Z_leb_total a b : (a <=? b)%Z = false -> (b <=? a)%Z = true.
Proof. rewrite Z.leb_gt, Z.leb_le. lia. Qed.

Lemma Z_leb_trans a b c : (a <=? b)%Z = true -> (b <=? c)%Z = true -> (a <=? c)%Z = true.
Proof. rewrite !Z.leb_le. lia. Qed.

(** A timestamp is its calendar slot and its year. *)
Lemma slot_and_year a b :
  Spot.key_eqb (Spot.hour_key a) (Spot.hour_key b) && (year a =? year b)%Z = true <-> a = b.
Proof.
  rewrite andb_true_iff, key_eqb_eq, Z.eqb_eq. destruct a, b. unfold Spot.hour_key. simpl.
  split.
  - intros [[= -> -> -> -> ->] ->]. reflexivity.
  - intros [= -> -> -> -> -> ->]. auto.
Qed.

Lemma filter_one_timestamp (rows : list Spot.Row) t c (p : Spot.Row -> bool) :
  (forall r, p r = true <-> fst r = t) ->
  NoDup (map fst rows) -> In (t, c) rows -> filter p rows = [(t, c)].
Proof.
  intro Hp. induction rows as [|r rows IH]; simpl; [intros _ []|].
  intros Hnd Hin. inversion Hnd as [|? ? Hr Hnd']; subst.
  assert (Hnone : forall l, ~ In t (map fst l) -> filter p l = []).
  { induction l as [|x l IHl]; simpl; trivial. intro H.
    destruct (p x) eqn:E.
    - apply Hp in E. tauto.
    - apply IHl. tauto. }
  destruct Hin as [->|Hin].
  - simpl in Hr. destruct (p (t, c)) eqn:E.
    + now rewrite Hnone.
    + assert (p (t, c) = true) by (now apply Hp). congruence.
  - destruct (p r) eqn:E.
    + apply Hp in E. exfalso. apply Hr. rewrite E.
      change t with (fst (t, c)). now apply in_map.
    + now apply IH.
Qed.

(** X11.  The pivot keeps every price.  When no timestamp occurs twice, the
    price of a row is found again in the pivot, in the row of its calendar
    slot and the column of its year; a slot of a year for which no row has a
    price holds NaN, not zero. *)
Theorem pivot_keeps_every_price :
  forall (rows : list Spot.Row) (t : Timestamp) (v : Q),
    NoDup (map fst rows) ->
    In (t, Some v) rows ->
    let p := Spot.pivot_table rows in
    In (Spot.hour_key t) (Spot.pv_keys p) /\
    In (year t) (Spot.pv_years p) /\
    Spot.pv_cell p (Spot.hour_key t) (year t) =c= Some v /\
    forall k y,
      (forall r, In r rows -> Spot.hour_key (fst r) = k -> year (fst r) = y ->
                 snd r = NaN) ->
      Spot.pv_cell p k y = NaN.
Proof.
  intros rows t v Hnd Hin p.
  assert (G : Spot.group rows (Spot.hour_key t) (year t) = [Some v]).
  { unfold Spot.group.
    rewrite (filter_one_timestamp rows t (Some v)); trivial.
    intro r. apply slot_and_year. }
  assert (C : Spot.pv_cell p (Spot.hour_key t) (year t) = Some ((v + 0) / inject_Z 1)).
  { unfold p, Spot.pivot_table; simpl. now rewrite G. }
  assert (Ik : In (Spot.hour_key t) (map (fun r => Spot.hour_key (fst r)) rows)).
  { apply in_map_iff. now exists (t, Some v). }
  assert (Iy : In (year t) (Spot.years_of rows)).
  { unfold Spot.years_of. apply in_map_iff. now exists (t, Some v). }
  split; [|split; [|split]].
  - unfold p, Spot.pivot_table; simpl. apply In_sort_by, filter_In. split.
    + now apply (In_dedup _ _ key_eqb_eq).
    + apply existsb_exists. exists (year t). split.
      * now apply (In_dedup _ _ Z.eqb_eq).
      * now rewrite G.
  - unfold p, Spot.pivot_table; simpl. apply In_sort_by, filter_In. split.
    + now apply (In_dedup _ _ Z.eqb_eq).
    + apply existsb_exists. exists (Spot.hour_key t). split.
      * now apply (In_dedup _ _ key_eqb_eq).
      * now rewrite G.
  - rewrite C. simpl. field.
  - intros k y Hnone. unfold p, Spot.pivot_table; simpl. unfold nanmean.
    assert (E : present (Spot.group rows k y) = []).
    { unfold Spot.group. clear - Hnone.
      induction rows as [|r rows IH]; simpl; trivial.
      destruct (Spot.key_eqb (Spot.hour_key (fst r)) k && (year (fst r) =? y)%Z) eqn:E.
      - apply andb_true_iff in E. destruct E as [Ek Ey].
        apply key_eqb_eq in Ek. apply Z.eqb_eq in Ey.
        simpl. rewrite (Hnone r (or_introl eq_refl) Ek Ey). simpl.
        apply IH. intros r' H. apply Hnone. now right.
      - apply IH. intros r' H. apply Hnone. now right. }
    now rewrite E.
Qed.

Lemma pivot_is_sorted_keys (rows : list Spot.Row) :
  StronglySorted (fun a b => Spot.key_leb a b = true /\ a <> b)
    (Spot.pv_keys (Spot.pivot_table rows)) /\
  NoDup (Spot.pv_keys (Spot.pivot_table rows)).
Proof.
  unfold Spot.pivot_table; simpl.
  assert (N : NoDup (Spot.sort_by Spot.key_leb
                (filter (fun k => existsb (fun y => Spot.is_some (nanmean (Spot.group rows k y)))
                                    (Spot.dedup Z.eqb (Spot.years_of rows)))
                        (Spot.dedup Spot.key_eqb
                           (map (fun r => Spot.hour_key (fst r)) rows))))).
  { apply NoDup_sort_by, NoDup_filter, NoDup_dedup. exact key_eqb_eq. }
  split; [|exact N].
  apply strictly_sorted; [exact N|].
  apply sorted_sort_by; [exact key_leb_total | exact key_leb_trans].
Qed.

(** X12.  The pivot comes out sorted: its calendar slots are strictly
    ascending in month, day, hour, minute and second, its year columns are
    strictly ascending, and each slot and each year stands there once. *)
Theorem pivot_is_sorted :
  forall rows : list Spot.Row,
    let p := Spot.pivot_table rows in
    StronglySorted (fun a b => Spot.key_leb a b = true /\ a <> b) (Spot.pv_keys p) /\
    StronglySorted Z.lt (Spot.pv_years p) /\
    (forall k, In k (Spot.pv_keys p) -> exists r, In r rows /\ Spot.hour_key (fst r) = k) /\
    (forall y, In y (Spot.pv_years p) -> exists r, In r rows /\ year (fst r) = y).
Proof.
  intros rows p. unfold p, Spot.pivot_table; simpl.
  split; [|split; [|split]].
  - apply (pivot_is_sorted_keys rows).
  - assert (S : StronglySorted (fun a b => (a <=? b)%Z = true /\ a <> b)
                  (Spot.sort_by Z.leb
                     (filter (fun y => existsb (fun k => Spot.is_some (nanmean (Spot.group rows k y)))
                                         (Spot.dedup Spot.key_eqb
                                            (map (fun r => Spot.hour_key (fst r)) rows)))
                             (Spot.dedup Z.eqb (Spot.years_of rows))))).
    { apply strictly_sorted.
      - apply NoDup_sort_by, NoDup_filter, NoDup_dedup. exact Z.eqb_eq.
      - apply sorted_sort_by; [exact Z_leb_total | exact Z_leb_trans]. }
    revert S. generalize (Spot.sort_by Z.leb
                     (filter (fun y => existsb (fun k => Spot.is_some (nanmean (Spot.group rows k y)))
                                         (Spot.dedup Spot.key_eqb
                                            (map (fun r => Spot.hour_key (fst r)) rows)))
                             (Spot.dedup Z.eqb (Spot.years_of rows)))).
    intros l S. induction S as [|a l S IH H]; constructor; trivial.
    rewrite Forall_forall in *. intros y Hy. destruct (H y Hy) as [Hle Hne].
    apply Z.leb_le in Hle. lia.
  - intros k H. apply In_sort_by, filter_In in H. destruct H as [H _].
    rewrite (In_dedup _ Spot.key_eqb key_eqb_eq), in_map_iff in H.
    destruct H as (r & E & Hr). eauto.
  - intros y H. apply In_sort_by, filter_In in H. destruct H as [H _].
    unfold Spot.years_of in H.
    rewrite (In_dedup _ Z.eqb Z.eqb_eq), in_map_iff in H.
    destruct H as (r & E & Hr). eauto.
Qed.

(** * The median profile *)

Lemma hour_key_in_2024 k : Spot.hour_key (Spot.in_2024 k) = k.
Proof. now destruct k. Qed.

Lemma ts_leb_in_2024 a b :
  ts_leb (Spot.in_2024 a) (Spot.in_2024 b) = Spot.key_leb a b.
Proof. reflexivity. Qed.

Lemma StronglySorted_map {A B} (f : A -> B) (R : A -> A -> Prop) (R' : B -> B -> Prop) l :
  (forall a b, R a b -> R' (f a) (f b)) ->
  StronglySorted R l -> StronglySorted R' (map f l).
Proof.
  intros H S. induction S as [|a l S IH Ha]; simpl; constructor; trivial.
  rewrite Forall_forall in *. intros y Hy. apply in_map_iff in Hy.
  destruct Hy as (x & <- & Hx). auto.
Qed.

Lemma fees_follow_the_median (fee : Q) (row : list cell) :
  cell_map (fun m => m * fee)
    (Median.nanmedian (row ++ [Median.nanmedian row]))
  =c= cell_map (fun m => m * fee) (Median.nanmedian row).
Proof.
  destruct (present row) as [|x vals] eqn:E.
  - unfold Median.nanmedian at 2 3. rewrite E. unfold Median.nanmedian.
    rewrite present_app, E. simpl. exact I.
  - assert (Hne : x :: vals <> []) by discriminate.
    rewrite (nanmedian_present row (x :: vals) E Hne).
    rewrite (nanmedian_present _ ((x :: vals) ++ [Median.medianQ (x :: vals)])).
    + simpl. now rewrite (medianQ_absorb (x :: vals) Hne).
    + rewrite present_app, E. reflexivity.
    + discriminate.
Qed.

(** X13.  [spot_remove_years] puts the medians on the calendar of 2024.  The
    class object of a failed stage passes through the three stages as it
    is.  From a frame that holds a price the result is a frame with exactly the two
    median columns, one row per calendar slot of the pivot, in strictly
    ascending time and all in 2024; read at the 2024 timestamp of a slot it
    gives the median of the slot's year values, and in every row the column
    with fees is the median column times (1 + VAT + transfer fee). *)
Theorem median_profile_on_the_calendar_of_2024 :
  forall (vat_perc transfer_fee_perc : Q) (rows : list Spot.Row),
    let pivot := Spot.pivot_table rows in
    let chain := fun prices =>
      Spot.spot_remove_years
        (Spot.spot_calculate_median vat_perc transfer_fee_perc
           (Spot.spot_pivot_by_hour prices)) in
    (exists t v, In (t, Some v) rows) ->
    chain Spot.FrameClass = Spot.FrameClass /\
    exists profile,
      chain (Spot.Frame rows) = Spot.Frame profile /\
      columns profile = [Spot.spot_price_median; Spot.spot_price_median_fees] /\
      df_index profile = map Spot.in_2024 (Spot.pv_keys pivot) /\
      StronglySorted (fun a b => ts_leb a b = true /\ a <> b) (df_index profile) /\
      (forall t, In t (df_index profile) -> year t = 2024%Z) /\
      forall k, In k (Spot.pv_keys pivot) ->
        at_ profile Spot.spot_price_median (Spot.in_2024 k)
          = Median.nanmedian (Spot.pivot_row pivot k) /\
        at_ profile Spot.spot_price_median_fees (Spot.in_2024 k)
          =c= cell_map (fun m => m * (1 + vat_perc + transfer_fee_perc))
                       (at_ profile Spot.spot_price_median (Spot.in_2024 k)).
Proof.
  intros vat fee rows pivot chain _.
  split; [reflexivity|].
  set (mf := Spot.add_medians vat fee pivot).
  exists (Spot.median_profile mf).
  split; [reflexivity|]. split; [reflexivity|]. split; [reflexivity|].
  split.
  { simpl. destruct (pivot_is_sorted_keys rows) as [S _]. fold pivot in S.
    revert S. apply StronglySorted_map. intros a b [Hle Hne].
    rewrite ts_leb_in_2024. split; [exact Hle|].
    intro E. apply Hne. now rewrite <- (hour_key_in_2024 a), E, hour_key_in_2024. }
  split.
  { intros t Ht. simpl in Ht. apply in_map_iff in Ht. now destruct Ht as (k & <- & _). }
  intros k Hk.
  assert (M : ts_mem (Spot.in_2024 k) (df_index (Spot.median_profile mf)) = true).
  { apply ts_mem_In. simpl. now apply in_map. }
  assert (A1 : at_ (Spot.median_profile mf) Spot.spot_price_median (Spot.in_2024 k)
               = Median.nanmedian (Spot.pivot_row pivot k)).
  { unfold at_, getitem, loc. simpl. simpl in M. rewrite M.
    now rewrite hour_key_in_2024. }
  assert (A2 : at_ (Spot.median_profile mf) Spot.spot_price_median_fees (Spot.in_2024 k)
               = cell_map (fun m => m * (1 + vat + fee))
                   (Median.nanmedian (Spot.pivot_row pivot k
                                        ++ [Median.nanmedian (Spot.pivot_row pivot k)]))).
  { unfold at_, getitem, loc. simpl. simpl in M. rewrite M.
    now rewrite hour_key_in_2024. }
  split; [exact A1|]. rewrite A1, A2. apply fees_follow_the_median.
Qed.

(** * The cache on examples *)

(** Read in 2025 with five years of analysis, the cache of 2020 to 2024 is
    enough: even a service that fails is not noticed. *)
Lemma covering_cache_is_not_refetched_witness :
  snd (Spot.spot_get_price 5 2025 failing_service no_resampling world_2020_2024)
  = world_2020_2024.
Proof.
  rewrite (covering_cache_is_not_refetched 5 2025 failing_service no_resampling
             world_2020_2024 (Spot.api_rows (monthly_prices 2020 2024)) 2020 2024);
    [reflexivity | reflexivity | vm_compute; reflexivity | reflexivity | reflexivity
     | vm_compute; discriminate | vm_compute; discriminate].
Defined.

Lemma cold_start_fetches_the_whole_window_witness :
  snd (Spot.spot_get_price 5 2025 monthly_service no_resampling no_cache)
  = {| Spot.cache_file := Some (Spot.api_rows (monthly_prices 2020 2024));
       Spot.fetched := [Spot.mkRequest (mkTs 2020 1 1 0 0 0) (mkTs 2024 12 31 23 0 0)] |}.
Proof.
  rewrite (cold_start_fetches_the_whole_window 5 2025 monthly_service no_resampling
             no_cache (monthly_prices 2020 2024) (Spot.api_rows (monthly_prices 2020 2024)));
    reflexivity.
Defined.

Lemma cache_rows_are_kept_witness :
  exists before after,
    Spot.cache_file (snd (Spot.spot_get_price 5 2025 monthly_service no_resampling world_2022))
    = Some (before ++ Spot.api_rows (monthly_prices 2022 2022) ++ after).
Proof.
  apply (cache_rows_are_kept 5 2025 monthly_service no_resampling world_2022). reflexivity.
Defined.

(** The cache of 2022, read in 2025 with five years of analysis: the first
    call asks for 2023 to 2024, the second for 2020 to 2021. *)
Lemma two_calls_repair_both_gaps_witness :
  let call := Spot.spot_get_price 5 2025 monthly_service no_resampling in
  Spot.fetched (snd (call (snd (call world_2022))))
  = [ Spot.mkRequest (mkTs 2023 1 1 0 0 0) (mkTs 2024 12 31 23 0 0);
      Spot.mkRequest (mkTs 2020 1 1 0 0 0) (mkTs 2021 12 31 23 0 0) ] /\
  Spot.cache_file (snd (call (snd (call world_2022))))
  = Some (Spot.api_rows (monthly_prices 2020 2021)
          ++ Spot.api_rows (monthly_prices 2022 2022)
          ++ Spot.api_rows (monthly_prices 2023 2024)).
Proof.
  intro call.
  destruct (two_calls_repair_both_gaps 5 2025 monthly_service no_resampling world_2022
              (Spot.api_rows (monthly_prices 2022 2022))
              (Spot.api_rows (monthly_prices 2023 2024)) 2022 2022)
    as (_ & _ & H3 & H4).
  - reflexivity.
  - reflexivity.
  - reflexivity.
  - vm_compute. reflexivity.
  - vm_compute. reflexivity.
  - reflexivity.
  - intros r Hr. vm_compute in Hr.
    repeat (destruct Hr as [<-|Hr]; [vm_compute; split; congruence|]). contradiction.
  - exists (mkTs 2024 1 1 0 0 0, Some (50 # 10)). split; [|reflexivity].
    vm_compute. auto 20.
  - split; [exact H3|]. apply H4. reflexivity.
Defined.

Lemma returned_rows_lie_in_the_window_witness :
  let r := Spot.spot_get_price 5 2025 monthly_service no_resampling world_2022 in
  let rows := Spot.api_rows (monthly_prices 2022 2024) in
  fst r = Spot.Frame rows /\
  forall row, In row rows -> (2020 <= year (fst row) <= 2024)%Z.
Proof.
  intros r rows.
  assert (E : fst r = Spot.Frame rows) by (vm_compute; reflexivity).
  split; [exact E|].
  destruct (returned_rows_lie_in_the_window 5 2025 monthly_service no_resampling
              world_2022 rows rows E) as [_ H].
  - vm_compute. reflexivity.
  - vm_compute. reflexivity.
  - intros row Hin. apply H; [discriminate | exact Hin].
Defined.

Lemma incomplete_first_year_is_dropped_witness :
  Spot.drop_partial_first_year late_start = [ (mkTs 2023 1 1 0 0 0, Some (4 # 1)) ].
Proof.
  destruct (incomplete_first_year_is_dropped late_start 2022) as [_ H].
  - reflexivity.
  - intros r [<-|[<-|[]]]; simpl; lia.
  - rewrite H; [reflexivity|].
    intro C. destruct (C 1%Z) as (r & Hin & Hy & Hm); [lia|].
    destruct Hin as [<-|[<-|[]]]; discriminate.
Defined.

Lemma pivot_keeps_every_price_witness :
  Spot.pv_cell (Spot.pivot_table example_prices) (Spot.mkKey 3 15 17 0 0) 2020
  =c= Some (10 # 1).
Proof.
  destruct (pivot_keeps_every_price example_prices (mkTs 2020 3 15 17 0 0) (10 # 1))
    as (_ & _ & H & _).
  - repeat constructor; simpl; intuition discriminate.
  - simpl. auto.
  - exact H.
Defined.

(** * One gap *)

(** X27.  How a gap is repaired.  Rows fetched for the years after the cached
    ones are appended to the file; rows fetched for the years before them are
    put in front of the cached rows and the file is written anew.  In both
    cases the frame returned is cut from the file as it stands after the
    call, taken in chronological order: the window, less its first year
    when that year is incomplete. *)
Theorem gap_is_repaired_in_the_file :
  forall (analysis_length_arg current_year : Z)
         (service : Spot.Request -> option (list (Timestamp * Q)))
         (resample : list Spot.Row -> option (list Spot.Row))
         (w : Spot.World) (cached : list Spot.Row) (ymin ymax : Z),
    let start_year := Spot.start_year analysis_length_arg current_year in
    let end_year := Spot.end_year current_year in
    let trailing := Spot.mkRequest (Spot.first_hour (ymax + 1)) (Spot.last_hour end_year) in
    let leading := Spot.mkRequest (Spot.first_hour start_year) (Spot.last_hour (ymin - 1)) in
    let returned := fun file =>
      Spot.Frame (Spot.drop_partial_first_year
                    (Spot.slice (Spot.first_hour start_year) (Spot.last_hour end_year) file)) in
    let after := fun file request =>
      {| Spot.cache_file := Some file; Spot.fetched := Spot.fetched w ++ [request] |} in
    Spot.cache_file w = Some cached ->
    Spot.year_min cached = Some ymin ->
    Spot.year_max cached = Some ymax ->
    ((ymax < end_year)%Z ->
     forall new, Spot.answer service resample trailing = Some new ->
       Spot.chronological (cached ++ new) = true ->
       Spot.spot_get_price analysis_length_arg current_year service resample w
       = (returned (cached ++ new), after (cached ++ new) trailing)) /\
    ((end_year <= ymax)%Z -> (start_year < ymin)%Z ->
     forall new, Spot.answer service resample leading = Some new ->
       Spot.chronological (new ++ cached) = true ->
       Spot.spot_get_price analysis_length_arg current_year service resample w
       = (returned (new ++ cached), after (new ++ cached) leading)).
Proof.
  intros n now service resample w cached ymin ymax start_year end_year trailing leading
         returned after Hc Hmin Hmax.
  split.
  - intros Hlt new Hnew _.
    rewrite (call_cached n now service resample w cached Hc).
    rewrite (update_trailing n now service resample cached w ymax Hmax Hlt).
    fold end_year. fold trailing. now rewrite Hnew, Hc.
  - intros Hge Hlt new Hnew _.
    rewrite (call_cached n now service resample w cached Hc).
    rewrite (update_leading n now service resample cached w ymax ymin Hmax Hge Hmin Hlt).
    fold start_year. fold leading. now rewrite Hnew.
Qed.

(** The cache of 2022 read in 2025: the prices of 2023 and 2024 are appended. *)
Lemma gap_is_repaired_in_the_file_witness :
  Spot.cache_file
    (snd (Spot.spot_get_price 5 2025 monthly_service no_resampling world_2022))
  = Some (Spot.api_rows (monthly_prices 2022 2022)
          ++ Spot.api_rows (monthly_prices 2023 2024)).
Proof.
  destruct (gap_is_repaired_in_the_file 5 2025 monthly_service no_resampling world_2022
              (Spot.api_rows (monthly_prices 2022 2022)) 2022 2022
              eq_refl eq_refl eq_refl) as [H _].
  rewrite (H eq_refl (Spot.api_rows (monthly_prices 2023 2024)) eq_refl);
    [reflexivity | vm_compute; reflexivity].
Defined.

Lemma failed_fetch_leaves_the_cache_witness :
  let r := Spot.spot_get_price 5 2025 failing_service no_resampling world_2022 in
  fst r = Spot.FrameClass /\ Spot.cache_file (snd r) = Spot.cache_file world_2022.
Proof.
  intro r.
  destruct (failed_fetch_leaves_the_cache 5 2025 failing_service no_resampling world_2022)
    as (H1 & H2 & _).
  - reflexivity.
  - split; [|exact H1]. apply H2. vm_compute. discriminate.
Defined.

Lemma median_profile_on_the_calendar_of_2024_witness :
  exists profile,
    Spot.spot_remove_years
      (Spot.spot_calculate_median (255 # 1000) (111 # 1000)
         (Spot.spot_pivot_by_hour (Spot.Frame example_prices)))
    = Spot.Frame profile /\
    df_index profile = [mkTs 2024 3 15 17 0 0; mkTs 2024 3 15 18 0 0].
Proof.
  destruct (median_profile_on_the_calendar_of_2024 (255 # 1000) (111 # 1000)
              example_prices) as (_ & profile & E & _ & I & _).
  - exists (mkTs 2019 3 15 17 0 0), (4 # 1). simpl. auto.
  - exists profile. split; [exact E|]. rewrite I. reflexivity.
Defined.

(** * Leap-day alignment *)

Lemma at_frame_filter keep df n t :
  In t (df_index (frame_filter keep df)) -> at_ (frame_filter keep df) n t = at_ df n t.
Proof.
  intro H. assert (H' : In t (df_index df)) by (simpl in H; now apply filter_In in H).
  unfold at_, getitem; simpl.
  destruct (find _ _); trivial. unfold loc; simpl.
  apply ts_mem_In in H. simpl in H. rewrite H.
  apply ts_mem_In in H'. now rewrite H'.
Qed.

Lemma filter_length_split {A} (p : A -> bool) (l : list A) :
  (List.length (filter p l) + List.length (filter (fun x => negb (p x)) l))%nat
  = List.length l.
Proof.
  induction l as [|x l IH]; simpl; trivial.
  destruct (p x); simpl; lia.
Qed.

(** The row counts at which [remove_feb_29_if_mismatch] does something. *)
Lemma leap_day_alignment_rows df1 df2 :
  let out := Auxiliary.remove_feb_29_if_mismatch df1 df2 in
  (fst out <> df1 ->
   Auxiliary.rows_of df1 = 8784%Z /\ Auxiliary.rows_of df2 = 8760%Z) /\
  (snd out <> df2 ->
   Auxiliary.rows_of df2 = 8784%Z /\ Auxiliary.rows_of df1 = 8760%Z) /\
  (Auxiliary.rows_of df1 = Auxiliary.rows_of df2 -> out = (df1, df2)).
Proof.
  unfold Auxiliary.remove_feb_29_if_mismatch.
  destruct (Z.eqb_spec (Auxiliary.rows_of df1) 8784) as [E1|N1];
    destruct (Z.eqb_spec (Auxiliary.rows_of df2) 8760) as [E2|N2];
    destruct (Z.eqb_spec (Auxiliary.rows_of df2) 8784) as [E3|N3];
    destruct (Z.eqb_spec (Auxiliary.rows_of df1) 8760) as [E4|N4];
    simpl; try lia;
    (split; [intro H; try (now elim H); split; assumption|]);
    (split; [intro H; try (now elim H); split; assumption|]);
    intro H; try reflexivity; lia.
Qed.

(** X14.  [remove_feb_29_if_mismatch] changes one frame at most, and only
    when the row counts are exactly 8784 against 8760; with equal row counts
    both frames come back as they are.  The frame it changes keeps its
    columns and the order of its rows, loses no row that is not on the 29th
    of February, keeps none that is, and reads as before in every row
    kept. *)
Theorem leap_day_alignment_changes_one_frame_at_most :
  forall df1 df2 : DataFrame,
    let out := Auxiliary.remove_feb_29_if_mismatch df1 df2 in
    let cut := fun (before after : DataFrame) =>
      after = before \/
      (df_columns after = df_columns before /\
       df_index after
         = filter (fun t => negb (Auxiliary.is_feb_29 t)) (df_index before) /\
       (forall t, In t (df_index after) <->
                  In t (df_index before) /\ Auxiliary.is_feb_29 t = false) /\
       (forall n t, In t (df_index after) -> at_ after n t = at_ before n t)) in
    cut df1 (fst out) /\
    cut df2 (snd out) /\
    (fst out = df1 \/ snd out = df2) /\
    (fst out <> df1 ->
     Auxiliary.rows_of df1 = 8784%Z /\ Auxiliary.rows_of df2 = 8760%Z) /\
    (snd out <> df2 ->
     Auxiliary.rows_of df2 = 8784%Z /\ Auxiliary.rows_of df1 = 8760%Z) /\
    (Auxiliary.rows_of df1 = Auxiliary.rows_of df2 -> out = (df1, df2)).
Proof.
  intros df1 df2 out cut.
  assert (Hcut : forall df, cut df (Auxiliary.remove_feb_29 df)).
  { intro df. right. unfold Auxiliary.remove_feb_29.
    split; [reflexivity|]. split; [reflexivity|]. split.
    - intro t. simpl. rewrite filter_In, negb_true_iff. tauto.
    - intros n t. apply at_frame_filter. }
  assert (Hsame : forall df, cut df df) by (intro df; now left).
  destruct (leap_day_alignment_rows df1 df2) as (R1 & R2 & R3).
  fold out in R1, R2, R3.
  assert (Shape : (fst out = df1 \/ fst out = Auxiliary.remove_feb_29 df1) /\
                  (snd out = df2 \/ snd out = Auxiliary.remove_feb_29 df2) /\
                  (fst out = df1 \/ snd out = df2)).
  { unfold out, Auxiliary.remove_feb_29_if_mismatch.
    destruct (_ && _); [simpl; auto|]. destruct (_ && _); simpl; auto. }
  destruct Shape as (S1 & S2 & S3).
  split; [destruct S1 as [-> | ->]; auto|].
  split; [destruct S2 as [-> | ->]; auto|].
  split; [exact S3|]. split; [exact R1|]. split; [exact R2 | exact R3].
Qed.

(** X15.  A frame of 8784 rows that holds the 24 hours of the 29th of
    February, set against a frame of 8760 rows, comes back with 8760 rows and
    without that day, whichever of the two arguments it is; the other frame is
    not touched. *)
Theorem leap_year_frame_is_cut_to_8760_rows :
  forall leap plain : DataFrame,
    Auxiliary.rows_of leap = 8784%Z ->
    Auxiliary.rows_of plain = 8760%Z ->
    List.length (filter Auxiliary.is_feb_29 (df_index leap)) = 24%nat ->
    let first := Auxiliary.remove_feb_29_if_mismatch leap plain in
    let second := Auxiliary.remove_feb_29_if_mismatch plain leap in
    fst first = snd second /\
    snd first = plain /\
    fst second = plain /\
    Auxiliary.rows_of (fst first) = 8760%Z /\
    (forall t, In t (df_index (fst first)) -> Auxiliary.is_feb_29 t = false).
Proof.
  intros leap plain Hl Hp H29 first second.
  unfold first, second, Auxiliary.remove_feb_29_if_mismatch.
  rewrite Hl, Hp. simpl.
  split; [reflexivity|]. split; [reflexivity|]. split; [reflexivity|]. split.
  - unfold Auxiliary.rows_of in *. simpl.
    pose proof (filter_length_split Auxiliary.is_feb_29 (df_index leap)) as H.
    lia.
  - intros t Ht. apply filter_In in Ht. destruct Ht as [_ Ht].
    now apply negb_true_iff in Ht.
Qed.

(** The hours of 2024 against the hours of 2023. *)
Lemma leap_year_frame_is_cut_to_8760_rows_witness :
  let out := Auxiliary.remove_feb_29_if_mismatch
               (hourly_frame 2024 true "price" (5 # 1))
               (hourly_frame 2023 false "load" (2 # 1)) in
  Auxiliary.rows_of (fst out) = 8760%Z /\
  snd out = hourly_frame 2023 false "load" (2 # 1).
Proof.
  intro out.
  destruct (leap_year_frame_is_cut_to_8760_rows
              (hourly_frame 2024 true "price" (5 # 1))
              (hourly_frame 2023 false "load" (2 # 1)))
    as (_ & H2 & _ & H4 & _).
  - vm_compute. reflexivity.
  - vm_compute. reflexivity.
  - vm_compute. reflexivity.
  - split; [exact H4 | exact H2].
Defined.

(** * Reading a profile: what can go wrong after the file is open *)

Lemma detect_format_listed strptime rows fmt :
  Auxiliary.detect_format strptime rows = Some fmt ->
  In fmt Auxiliary.date_time_formats /\ Auxiliary.truthy (Some fmt) = true.
Proof.
  intro H. unfold Auxiliary.detect_format in H.
  apply (scan_samples_Some strptime _ date_time_formats_nonempty) in H.
  destruct H as (before & sample & after & _ & _ & (earlier & later & E & _)).
  assert (Hin : In fmt Auxiliary.date_time_formats).
  { rewrite E. apply in_or_app. right. now left. }
  split; [exact Hin|].
  now apply (truthy_format Auxiliary.date_time_formats date_time_formats_nonempty).
Qed.

(** X16.  Once the file has been read, [profile_csv_to_dataframe] lets no
    exception out.  The frame handed to [resample_quarter_to_hour] is column 0
    converted with the detected format, or the frame as read when no format
    was detected (a detected format is never the empty string, so the test
    of [matched_format] cannot send a detected column down the other way).
    The class object comes back exactly when that conversion raises or when
    the frequency inference raises; otherwise a frame comes back, resampled
    exactly when the frequency inferred is '15min'. *)
Theorem read_file_never_raises :
  forall (read_csv : string -> Auxiliary.ReadResult)
         (strptime : string -> string -> bool)
         (to_datetime : list (option string) -> string -> option (list (option Timestamp)))
         (infer_freq : Auxiliary.Loaded -> Auxiliary.FreqResult)
         (resample_hourly_mean : Auxiliary.Loaded -> Auxiliary.Loaded)
         (path : string) (rows : list (option string * cell)),
    let result := Auxiliary.profile_csv_to_dataframe read_csv strptime to_datetime
                    infer_freq resample_hourly_mean path in
    let staged :=
      match Auxiliary.detect_format strptime rows with
      | Some fmt => Auxiliary.convert to_datetime fmt rows
      | None => Some (Auxiliary.Unparsed rows)
      end in
    read_csv path = Auxiliary.ReadOk rows ->
    result <> Auxiliary.Raises /\
    (result = Auxiliary.FrameClass <->
     staged = None \/
     exists v, staged = Some v /\ infer_freq v = Auxiliary.FreqRaises) /\
    (forall v f, staged = Some v -> infer_freq v = Auxiliary.Freq f ->
       result = Auxiliary.Frame
                  (if match f with
                      | Some name => String.eqb name "15min"
                      | None => false
                      end
                   then resample_hourly_mean v else v)).
Proof.
  intros read_csv strptime to_datetime infer_freq resample path rows result staged Hread.
  assert (R : result = match staged with
                       | Some v => Auxiliary.resample_quarter_to_hour infer_freq resample v
                       | None => Auxiliary.FrameClass
                       end).
  { unfold result, staged, Auxiliary.profile_csv_to_dataframe. rewrite Hread.
    destruct (Auxiliary.detect_format strptime rows) as [fmt|] eqn:D; [|reflexivity].
    destruct (detect_format_listed strptime rows fmt D) as [_ T]. rewrite T.
    reflexivity. }
  rewrite R. clear R.
  destruct staged as [v|].
  - unfold Auxiliary.resample_quarter_to_hour.
    destruct (infer_freq v) as [[name|]|] eqn:F.
    + split; [destruct (String.eqb name "15min"); discriminate|].
      split.
      * split.
        -- destruct (String.eqb name "15min"); discriminate.
        -- intros [H|(v' & [= <-] & H)]; [discriminate | congruence].
      * intros v' f [= <-] H. rewrite F in H. injection H as <-.
        now destruct (String.eqb name "15min").
    + split; [discriminate|]. split.
      * split; [discriminate|].
        intros [H|(v' & [= <-] & H)]; [discriminate | congruence].
      * intros v' f [= <-] H. rewrite F in H. injection H as <-. reflexivity.
    + split; [discriminate|]. split.
      * split; [|reflexivity]. intros _. right. now exists v.
      * intros v' f [= <-] H. rewrite F in H. discriminate H.
  - split; [discriminate|]. split.
    + split; [now left | reflexivity].
    + intros v f H. discriminate H.
Qed.

(** The example file of dates is detected as month/day/year; with a
    conversion that raises, the class object comes back. *)
Lemma read_file_never_raises_witness :
  Auxiliary.profile_csv_to_dataframe example_read_csv Auxiliary.Example.strptime
    refusing_to_datetime example_infer_freq example_resample "production.csv"
  = Auxiliary.FrameClass.
Proof.
  destruct (read_file_never_raises example_read_csv Auxiliary.Example.strptime
              refusing_to_datetime example_infer_freq example_resample
              "production.csv" example_rows eq_refl) as (_ & H & _).
  apply H. left. reflexivity.
Defined.

(** * When a stage fails *)

Lemma consumption_name_not_leftover u :
  Allocator.consumption_name u <> Allocator.pv_after_company.
Proof.
  intro E. pose proof (mentions_consumption u) as H. rewrite E in H.
  vm_compute in H. discriminate H.
Qed.

(** The loop of [add_apartment_consumption] only adds columns named after
    units. *)
Lemma add_profiles_columns load table : forall labels df P df' P',
  Allocator.add_profiles load table labels df P = (Some df', P') ->
  forall n, In n (columns df') ->
    In n (columns df) \/ exists u, n = Allocator.consumption_name u.
Proof.
  induction labels as [|u rest IH]; simpl; intros df P df' P' H n Hn.
  - injection H as <- <-. now left.
  - destruct (Allocator.unique_row u table) as [r|]; [|discriminate].
    destruct (getitem _ _) as [s|]; [|discriminate].
    destruct (IH _ _ _ _ H n Hn) as [Hin|Hex]; [|now right].
    rewrite columns_setitem in Hin.
    destruct (has_column (Allocator.consumption_name u) df); [now left|].
    apply in_app_or in Hin. destruct Hin as [Hin|[<-|[]]]; [now left|].
    right. now exists u.
Qed.

(** The loop of [calculate_apartment] needs the leftover column as soon as
    there is a unit. *)
Lemma insert_units_without_leftover table labels df :
  labels <> [] -> ~ In Allocator.pv_after_company (columns df) ->
  Allocator.insert_units table labels df = None.
Proof.
  destruct labels as [|u rest]; [congruence|]. intros _ Hno. simpl.
  destruct (has_column (Allocator.apartment_column u) df); simpl; trivial.
  destruct (getitem df (Allocator.apartment_column u)); trivial.
  apply getitem_None in Hno. now rewrite Hno.
Qed.

Lemma calculate_apartment_from_without_leftover r :
  ~ In Allocator.pv_after_company (columns (Allocator.r_frame r)) ->
  (Allocator.r_apartments r = Some [] -> Allocator.r_frame r = empty_frame) ->
  Allocator.calculate_apartment_from r = empty_frame.
Proof.
  intros Hno Hnil. unfold Allocator.calculate_apartment_from.
  destruct (Allocator.r_apartments r) as [table|]; [|reflexivity].
  destruct table as [|r0 table].
  - simpl. now apply Hnil.
  - now rewrite insert_units_without_leftover.
Qed.

Lemma resolved_from_empty_frame load app method :
  let r := Allocator.add_apartment_consumption_from load app method empty_frame in
  ~ In Allocator.pv_after_company (columns (Allocator.r_frame r)) /\
  (Allocator.r_apartments r = Some [] -> Allocator.r_frame r = empty_frame).
Proof.
  unfold Allocator.add_apartment_consumption_from.
  destruct (Allocator.resolve_apartments app method) as [table|]; simpl.
  - destruct (Allocator.add_profiles load table (map Allocator.apartment table)
                empty_frame empty_frame) as [[df'|] P'] eqn:E; simpl.
    + split.
      * intro H. destruct (add_profiles_columns _ _ _ _ _ _ _ E _ H) as [[]|(u & Hu)].
        symmetry in Hu. now apply consumption_name_not_leftover in Hu.
      * intros [= ->]. simpl in E. now injection E as <- <-.
    + split; [intros []|reflexivity].
  - split; [intros [] | discriminate].
Qed.

(** X17.  When the price stage hands back the class object, nothing is
    raised anywhere: [add_production] returns the empty frame, the company
    consumption is joined to it without a row, [calculate_company] misses its
    columns and returns the empty frame, and so do [calculate_apartment] and
    [calculate_pv_over_production], whatever the units are;
    [sma_value_sum] then returns no total and [energy_value_sum] an empty
    series. *)
Theorem failed_price_stage_empties_every_result :
  forall (load : string -> Series) (production_path company_path : string)
         (app_data_dict : list Allocator.ApartmentRow)
         (calculation_method : Allocator.Method),
    let price := @Spot.FrameClass DataFrame in
    Allocator.add_production price load production_path = empty_frame /\
    df_index (Allocator.add_company_consumption price load production_path company_path)
      = [] /\
    Allocator.calculate_company price load production_path company_path = empty_frame /\
    Allocator.calculate_apartment price load production_path company_path
      app_data_dict calculation_method = empty_frame /\
    Allocator.calculate_pv_over_production price load production_path company_path
      app_data_dict calculation_method = empty_frame /\
    Allocator.sma_value_sum price load production_path company_path
      app_data_dict calculation_method = [] /\
    Allocator.energy_value_sum price load production_path company_path
      app_data_dict calculation_method = Some [].
Proof.
  intros load pp cp app method price.
  assert (E0 : Allocator.add_production price load pp = empty_frame) by reflexivity.
  assert (E1 : Allocator.add_company_consumption price load pp cp
               = {| df_index := [];
                    df_columns :=
                      [(Allocator.company_column,
                        loc {| s_index := [];
                               s_at := loc {| s_index := s_index (load cp);
                                              s_at := loc (load cp) |} |})] |}).
  { unfold Allocator.add_company_consumption, Allocator.add_company_consumption_from.
    rewrite E0. unfold Auxiliary.remove_feb_29_if_mismatch.
    change (Auxiliary.rows_of empty_frame) with 0%Z.
    rewrite andb_false_r. simpl. reflexivity. }
  assert (E2 : Allocator.calculate_company price load pp cp = empty_frame).
  { unfold Allocator.calculate_company. rewrite E1. reflexivity. }
  assert (E3 : Allocator.calculate_apartment price load pp cp app method = empty_frame).
  { unfold Allocator.calculate_apartment, Allocator.add_apartment_consumption.
    rewrite E2.
    destruct (resolved_from_empty_frame load app method) as [Hno Hnil].
    now apply calculate_apartment_from_without_leftover. }
  assert (E4 : Allocator.calculate_pv_over_production price load pp cp app method
               = empty_frame).
  { unfold Allocator.calculate_pv_over_production. rewrite E3. reflexivity. }
  split; [exact E0|]. split; [now rewrite E1|]. split; [exact E2|].
  split; [exact E3|]. split; [exact E4|].
  split.
  - unfold Allocator.sma_value_sum. rewrite E4. reflexivity.
  - unfold Allocator.energy_value_sum. rewrite E4. reflexivity.
Qed.

(** * Unit identifiers that occur twice *)

Lemma add_profiles_fails load table : forall labels df P,
  (exists u, In u labels /\ Allocator.unique_row u table = None) ->
  fst (Allocator.add_profiles load table labels df P) = None.
Proof.
  induction labels as [|v rest IH]; intros df P (u & Hin & Hu); [destruct Hin|].
  simpl. destruct (Allocator.unique_row v table) as [r|] eqn:Ev; [|reflexivity].
  destruct (getitem _ _) as [s|]; [|reflexivity].
  apply IH. exists u. split; trivial.
  destruct Hin as [->|Hin]; [congruence | exact Hin].
Qed.

Lemma repeated_label_has_no_row (table : list Allocator.ApartmentRow) :
  ~ NoDup (map Allocator.apartment table) ->
  exists u, In u (map Allocator.apartment table) /\ Allocator.unique_row u table = None.
Proof.
  induction table as [|r table IH]; intro H.
  - elim H. constructor.
  - destruct (in_dec string_dec (Allocator.apartment r) (map Allocator.apartment table))
      as [Hin|Hout].
    + exists (Allocator.apartment r). split; [now left|].
      unfold Allocator.unique_row. simpl. rewrite String.eqb_refl.
      apply in_map_iff in Hin. destruct Hin as (r' & E & Hr').
      assert (Hf : In r' (filter (fun x => String.eqb (Allocator.apartment r)
                                                     (Allocator.apartment x)) table)).
      { apply filter_In. split; trivial. rewrite E. apply String.eqb_refl. }
      destruct (filter _ table); [destruct Hf | reflexivity].
    + destruct IH as (u & Hu & Hnone).
      { intro Hnd. apply H. simpl. now constructor. }
      exists u. split; [now right|].
      unfold Allocator.unique_row in *. simpl.
      destruct (String.eqb_spec u (Allocator.apartment r)) as [->|_]; [contradiction|].
      exact Hnone.
Qed.

(** X18.  When two resolved units carry the same identifier, reading the
    profile path of that identifier raises inside
    [add_apartment_consumption], which returns the empty frame; the later
    stages then return the empty frame too, [sma_value_sum] no total and
    [energy_value_sum] an empty series, whatever the prices and profiles
    are. *)
Theorem repeated_unit_identifier_empties_the_result :
  forall (price : Spot.Returned DataFrame) (load : string -> Series)
         (production_path company_path : string)
         (app_data_dict : list Allocator.ApartmentRow)
         (calculation_method : Allocator.Method)
         (table : list Allocator.ApartmentRow),
    Allocator.resolve_apartments app_data_dict calculation_method = Some table ->
    ~ NoDup (map Allocator.apartment table) ->
    Allocator.r_frame
      (Allocator.add_apartment_consumption price load production_path company_path
         app_data_dict calculation_method) = empty_frame /\
    Allocator.calculate_apartment price load production_path company_path
      app_data_dict calculation_method = empty_frame /\
    Allocator.calculate_pv_over_production price load production_path company_path
      app_data_dict calculation_method = empty_frame /\
    Allocator.sma_value_sum price load production_path company_path
      app_data_dict calculation_method = [] /\
    Allocator.energy_value_sum price load production_path company_path
      app_data_dict calculation_method = Some [].
Proof.
  intros price load pp cp app method table Hres Hdup.
  set (RES := Allocator.add_apartment_consumption price load pp cp app method).
  assert (R : RES = {| Allocator.r_frame := empty_frame;
                       Allocator.r_apartments := Some table;
                       Allocator.r_profiles := Allocator.r_profiles RES |}).
  { unfold RES, Allocator.add_apartment_consumption,
      Allocator.add_apartment_consumption_from.
    rewrite Hres.
    pose proof (add_profiles_fails load table (map Allocator.apartment table)
                  (Allocator.calculate_company price load pp cp) empty_frame
                  (repeated_label_has_no_row table Hdup)) as F.
    destruct (Allocator.add_profiles load table (map Allocator.apartment table)
                (Allocator.calculate_company price load pp cp) empty_frame)
      as [res P']. simpl in F. subst res. reflexivity. }
  assert (E3 : Allocator.calculate_apartment price load pp cp app method = empty_frame).
  { unfold Allocator.calculate_apartment. fold RES. rewrite R.
    apply calculate_apartment_from_without_leftover; simpl; [intros []|].
    intros [= ->]. elim Hdup. constructor. }
  assert (E4 : Allocator.calculate_pv_over_production price load pp cp app method
               = empty_frame).
  { unfold Allocator.calculate_pv_over_production. rewrite E3. reflexivity. }
  split; [now rewrite R|]. split; [exact E3|]. split; [exact E4|].
  split.
  - unfold Allocator.sma_value_sum. rewrite E4. reflexivity.
  - unfold Allocator.energy_value_sum. rewrite E4. reflexivity.
Qed.

Lemma repeated_unit_identifier_empties_the_result_witness :
  nth 0 (map Allocator.apartment (Allocator.expand_by_type colliding_types)) ""%string
    = "A11"%string /\
  nth 10 (map Allocator.apartment (Allocator.expand_by_type colliding_types)) ""%string
    = "A11"%string /\
  Allocator.sma_value_sum (Spot.Frame example_price) example_load "production.csv"
    "company.csv" colliding_types Allocator.by_type = [].
Proof.
  split; [reflexivity|]. split; [reflexivity|].
  destruct (repeated_unit_identifier_empties_the_result (Spot.Frame example_price)
              example_load "production.csv" "company.csv" colliding_types
              Allocator.by_type (Allocator.expand_by_type colliding_types))
    as (_ & _ & _ & H & _).
  - reflexivity.
  - intro Hnd. vm_compute in Hnd. inversion Hnd as [|x l Hx _]. apply Hx.
    simpl. auto 12.
  - exact H.
Defined.

(** * The weights of the units *)

Lemma sumQ_app a b : sumQ (a ++ b) == sumQ a + sumQ b.
Proof.
  induction a as [|x a IH]; simpl; [ring|]. rewrite IH. ring.
Qed.

Lemma sum_of_one_type (r : Allocator.ApartmentRow) c n :
  sumQ (map Allocator.allocation (map (Allocator.unit_of r) (seq c n)))
  == inject_Z (Z.of_nat n)
     * (Allocator.allocation r / inject_Z (Z.of_nat (Allocator.amount r))).
Proof.
  revert c. induction n as [|n IH]; intro c.
  - simpl. ring.
  - change (seq c (S n)) with (c :: seq (S c) n). simpl map. simpl sumQ.
    rewrite IH, Nat2Z.inj_succ. unfold Z.succ. rewrite inject_Z_plus. ring.
Qed.

Lemma sum_of_expansion specs : forall c,
  sumQ (map Allocator.allocation (Allocator.expand_from c specs))
  == sumQ (map Allocator.allocation
             (filter (fun r => (0 <? Allocator.amount r)%nat) specs)).
Proof.
  induction specs as [|r specs IH]; intro c; simpl; [reflexivity|].
  rewrite map_app, sumQ_app, IH, sum_of_one_type.
  destruct (Allocator.amount r) as [|n] eqn:En; simpl.
  - ring.
  - field. intro H.
    assert (X : inject_Z (Z.pos (Pos.of_succ_nat n)) == inject_Z 0) by exact H.
    apply inject_Z_injective in X. discriminate X.
Qed.

(** X19.  Expansion by type keeps the total weight: the weights of the units
    add up to the weights of the types that have at least one unit.  A type
    with amount 0 leaves no unit, and its weight is gone. *)
Theorem expansion_keeps_the_total_weight :
  forall specs : list Allocator.ApartmentRow,
    NoDup (map Allocator.apartment specs) ->
    sumQ (map Allocator.allocation (Allocator.expand_by_type specs))
    == sumQ (map Allocator.allocation
               (filter (fun r => (0 <? Allocator.amount r)%nat) specs)) /\
    ((forall r, In r specs -> (0 < Allocator.amount r)%nat) ->
     sumQ (map Allocator.allocation (Allocator.expand_by_type specs))
     == sumQ (map Allocator.allocation specs)).
Proof.
  intros specs Hnd. rewrite (expand_by_type_spec specs Hnd).
  split; [apply sum_of_expansion|].
  intro Hpos. rewrite sum_of_expansion.
  assert (E : filter (fun r => (0 <? Allocator.amount r)%nat) specs = specs).
  { clear Hnd. induction specs as [|r specs IH]; simpl; trivial.
    assert (H : (0 <? Allocator.amount r)%nat = true)
      by (apply Nat.ltb_lt, Hpos; now left).
    rewrite H, IH; trivial. intros x Hx. apply Hpos. now right. }
  now rewrite E.
Qed.

(** The types of the repository's example run weigh 1 together, and so do
    their eleven units. *)
Lemma expansion_keeps_the_total_weight_witness :
  sumQ (map Allocator.allocation (Allocator.expand_by_type example_types)) == 1.
Proof.
  destruct (expansion_keeps_the_total_weight example_types) as [_ H].
  - repeat constructor; simpl; intuition discriminate.
  - rewrite H; [reflexivity|].
    intros r [<-|[<-|[<-|[]]]]; simpl; lia.
Defined.

(** * Joining the profiles to the prices *)





(** * What [calculate_company] needs *)

Lemma In_columns_setitem df n s m :
  In m (columns (setitem df n s)) <-> In m (columns df) \/ m = n.
Proof.
  rewrite columns_setitem. destruct (has_column n df) eqn:E.
  - apply has_column_In in E. split; [now left|]. intros [H | ->]; trivial.
  - rewrite in_app_iff. simpl. intuition.
Qed.

Lemma index_union_self idx : index_union idx idx = idx.
Proof.
  unfold index_union.
  assert (E : filter (fun t => negb (ts_mem t idx)) idx = []).
  { assert (H : forall l, incl l idx -> filter (fun t => negb (ts_mem t idx)) l = []).
    { induction l as [|x l IH]; intro Hl; simpl; trivial.
      assert (M : ts_mem x idx = true) by (apply ts_mem_In, Hl; now left).
      rewrite M. simpl. apply IH. intros y Hy. apply Hl. now right. }
    apply H, incl_refl. }
  rewrite E. apply app_nil_r.
Qed.

Lemma index_setitem_same_rows df n s :
  s_index s = df_index df -> df_index (setitem df n s) = df_index df.
Proof.
  intro H. rewrite index_setitem, H. now destruct (df_index df).
Qed.

(** X21.  [calculate_company] checks for three columns and reads a fourth.
    With the company consumption, the production, the median and the median
    with fees in the frame it gets, it returns a frame with the same rows
    that keeps every column and holds its three new ones.  When one of the
    four is missing it returns the empty frame: for the first three by its
    own check, for the column with fees, which the check does not list, by
    the KeyError its handler catches. *)
Theorem company_stage_needs_four_columns :
  forall upstream : DataFrame,
    let R := Allocator.calculate_company_from upstream in
    let has := fun n => In n (columns upstream) in
    let checked := has Allocator.company_column /\ has Allocator.production_column /\
                   has Allocator.spot_price_median in
    (checked /\ has Allocator.spot_price_median_fees ->
     df_index R = df_index upstream /\
     (forall n, has n -> In n (columns R)) /\
     In Allocator.company_after_pv (columns R) /\
     In Allocator.value_after_subtraction (columns R) /\
     In Allocator.pv_after_company (columns R)) /\
    (~ checked -> R = empty_frame) /\
    (checked /\ ~ has Allocator.spot_price_median_fees -> R = empty_frame).
Proof.
  intros upstream R has checked. unfold R, Allocator.calculate_company_from.
  split; [|split].
  - intros ((Hc & Hp & Hm) & Hf). unfold has in *.
    assert (Rq : forallb (fun col => has_column col upstream)
                   [Allocator.company_column; Allocator.production_column;
                    Allocator.spot_price_median] = true).
    { simpl. rewrite !(proj2 (has_column_In _ _)) by assumption. reflexivity. }
    rewrite Rq. cbv beta iota zeta. simpl negb. cbv iota.
    destruct (getitem_Some _ _ Hc) as [company Ec]. rewrite Ec.
    destruct (getitem_Some _ _ Hp) as [production Ep]. rewrite Ep.
    set (s1 := series_clip_lower 0 (series_sub company production)).
    set (df1 := setitem upstream Allocator.company_after_pv s1).
    assert (I1 : df_index df1 = df_index upstream).
    { apply index_setitem_same_rows. simpl.
      rewrite (getitem_index _ _ _ Ec), (getitem_index _ _ _ Ep).
      apply index_union_self. }
    assert (In1 : forall n, In n (columns upstream) -> In n (columns df1))
      by (intros n Hn; apply In_columns_setitem; now left).
    destruct (getitem_Some df1 Allocator.company_column) as [company1 Ec1]; [auto|].
    rewrite Ec1.
    destruct (getitem_Some df1 Allocator.company_after_pv) as [after Ea1].
    { apply In_columns_setitem. now right. }
    rewrite Ea1.
    destruct (getitem_Some df1 Allocator.spot_price_median_fees) as [fees Ef1]; [auto|].
    rewrite Ef1.
    set (s2 := series_mul fees (series_sub company1 after)).
    set (df2 := setitem df1 Allocator.value_after_subtraction s2).
    assert (I2 : df_index df2 = df_index df1).
    { apply index_setitem_same_rows. simpl.
      rewrite (getitem_index _ _ _ Ec1), (getitem_index _ _ _ Ea1),
        (getitem_index _ _ _ Ef1).
      now rewrite !index_union_self. }
    assert (In2 : forall n, In n (columns df1) -> In n (columns df2))
      by (intros n Hn; apply In_columns_setitem; now left).
    destruct (getitem_Some df2 Allocator.production_column) as [production2 Ep2]; [auto|].
    rewrite Ep2.
    destruct (getitem_Some df2 Allocator.company_column) as [company2 Ec2]; [auto|].
    rewrite Ec2. unfold Allocator.handled.
    set (s3 := series_clip_lower 0 (series_sub production2 company2)).
    split.
    { rewrite index_setitem_same_rows; [congruence|]. simpl.
      rewrite (getitem_index _ _ _ Ec2), (getitem_index _ _ _ Ep2).
      apply index_union_self. }
    split; [intros n Hn; apply In_columns_setitem; left; auto|].
    split.
    { apply In_columns_setitem. left. apply In2. apply In_columns_setitem. now right. }
    split.
    { apply In_columns_setitem. left. apply In_columns_setitem. now right. }
    apply In_columns_setitem. now right.
  - intro Hno.
    destruct (forallb (fun col => has_column col upstream)
                [Allocator.company_column; Allocator.production_column;
                 Allocator.spot_price_median]) eqn:Rq; [|reflexivity].
    exfalso. apply Hno. simpl in Rq.
    rewrite !andb_true_iff, !has_column_In in Rq. unfold checked, has. tauto.
  - intros ((Hc & Hp & Hm) & Hf). unfold has in *.
    assert (Rq : forallb (fun col => has_column col upstream)
                   [Allocator.company_column; Allocator.production_column;
                    Allocator.spot_price_median] = true).
    { simpl. rewrite !(proj2 (has_column_In _ _)) by assumption. reflexivity. }
    rewrite Rq. cbv beta iota zeta. simpl negb. cbv iota.
    destruct (getitem_Some _ _ Hc) as [company Ec]. rewrite Ec.
    destruct (getitem_Some _ _ Hp) as [production Ep]. rewrite Ep.
    set (df1 := setitem upstream Allocator.company_after_pv _).
    destruct (getitem df1 Allocator.company_column) as [company1|]; [|reflexivity].
    destruct (getitem df1 Allocator.company_after_pv) as [after|]; [|reflexivity].
    assert (N : getitem df1 Allocator.spot_price_median_fees = None).
    { apply getitem_None. intro H. apply In_columns_setitem in H.
      destruct H as [H|H]; [contradiction | vm_compute in H; discriminate H]. }
    now rewrite N.
Qed.

(** * The totals *)




(** * What the units are credited *)

(** X23.  A unit is credited its weight's share of the leftover whatever it
    consumes: in a row where the leftover and the unit's consumption are
    numbers, consumption - after is leftover * weight.  Over all units the
    credit is leftover * (sum of the weights): with weights that add up to 1
    the whole leftover is credited in every row, also where the units
    consume less. *)
Theorem units_are_credited_the_leftover_by_weight :
  forall (pf : DataFrame) (load : string -> Series)
         (production_path company_path : string)
         (app_data_dict : list Allocator.ApartmentRow)
         (calculation_method : Allocator.Method)
         (table : list Allocator.ApartmentRow),
    columns pf = [Allocator.spot_price_median; Allocator.spot_price_median_fees] ->
    Allocator.resolve_apartments app_data_dict calculation_method = Some table ->
    Allocator.well_named (map Allocator.apartment table) ->
    let F := Allocator.calculate_apartment (Spot.Frame pf) load production_path
               company_path app_data_dict calculation_method in
    forall (t : Timestamp) (leftover : Q) (consumed : list Q),
      at_ F Allocator.pv_after_company t = Some leftover ->
      map (fun r => at_ F (Allocator.consumption_name (Allocator.apartment r)) t) table
        = map Some consumed ->
      exists credited : list Q,
        map (fun r => cell_sub (at_ F (Allocator.consumption_name (Allocator.apartment r)) t)
                               (at_ F (Allocator.after_name (Allocator.apartment r)) t))
            table
          = map Some credited /\
        Forall2 (fun r c => c == leftover * Allocator.allocation r) table credited /\
        sumQ credited == leftover * sumQ (map Allocator.allocation table).
Proof.
  intros pf load pp cp app method table Hp Hr Hn F t l cs Hl Hcs.
  destruct (pipeline_structure pf load pp cp app method table Hp Hr Hn)
    as (_ & _ & _ & _ & _ & _ & _ & VF).
  fold F in VF.
  pose proof (labels_distinct table Hn) as Hd.
  assert (Hrow : forall r c, In r table ->
             at_ F (Allocator.consumption_name (Allocator.apartment r)) t = Some c ->
             cell_sub (at_ F (Allocator.consumption_name (Allocator.apartment r)) t)
                      (at_ F (Allocator.after_name (Allocator.apartment r)) t)
             = Some (c - (c - l * Allocator.allocation r))).
  { intros r c Hin Hc.
    assert (U : Allocator.unique_row (Allocator.apartment r) table = Some r).
    { unfold Allocator.unique_row. now rewrite (filter_unique_label table r Hd Hin). }
    destruct (VF (Allocator.apartment r) r t (in_map _ _ _ Hin) U) as [Va _].
    rewrite Va, Hc, Hl. reflexivity. }
  assert (G : forall sub cs',
             incl sub table ->
             map (fun r => at_ F (Allocator.consumption_name (Allocator.apartment r)) t) sub
               = map Some cs' ->
             exists credited,
               map (fun r => cell_sub
                               (at_ F (Allocator.consumption_name (Allocator.apartment r)) t)
                               (at_ F (Allocator.after_name (Allocator.apartment r)) t)) sub
                 = map Some credited /\
               Forall2 (fun r c => c == l * Allocator.allocation r) sub credited /\
               sumQ credited == l * sumQ (map Allocator.allocation sub)).
  { induction sub as [|r sub IH]; intros cs' Hincl Hm.
    - exists []. split; [reflexivity|]. split; [constructor|]. simpl. ring.
    - destruct cs' as [|c cs']; [discriminate|]. simpl in Hm. injection Hm as Hc Hm.
      destruct (IH cs') as (cr & E & Fa & S); trivial.
      { intros x Hx. apply Hincl. now right. }
      exists ((c - (c - l * Allocator.allocation r)) :: cr). split.
      { simpl. rewrite (Hrow r c); [now rewrite E | apply Hincl; now left | exact Hc]. }
      split.
      { constructor; [|exact Fa]. ring. }
      simpl. rewrite S. ring. }
  apply (G table cs); [apply incl_refl | exact Hcs].
Qed.

(** One unit of weight 1/2 consuming 3 against a leftover of 6 is credited 3. *)
Lemma units_are_credited_the_leftover_by_weight_witness :
  let F := Allocator.calculate_apartment (Spot.Frame example_price) example_load
             "production.csv" "company.csv" example_apartments Allocator.by_apartment in
  exists credited : list Q,
    map (fun r => cell_sub
                    (at_ F (Allocator.consumption_name (Allocator.apartment r))
                         (mkTs 2024 1 1 0 0 0))
                    (at_ F (Allocator.after_name (Allocator.apartment r))
                         (mkTs 2024 1 1 0 0 0)))
        example_apartments
      = map Some credited /\
    sumQ credited == 3.
Proof.
  intro F.
  destruct (units_are_credited_the_leftover_by_weight example_price example_load
              "production.csv" "company.csv" example_apartments Allocator.by_apartment
              example_apartments eq_refl eq_refl eq_refl
              (mkTs 2024 1 1 0 0 0) (6 # 1) [3 # 1])
    as (credited & E & _ & S).
  - vm_compute. reflexivity.
  - vm_compute. reflexivity.
  - exists credited. split; [exact E|]. rewrite S. reflexivity.
Defined.

(** * The covered energy *)














(** * The profiles of the units *)

Section ProfileFrame.

Import Allocator.

Variable load : string -> Series.






Variable table : list ApartmentRow.
Hypothesis labels_distinct : NoDup (map apartment table).


End ProfileFrame.



(** * No unit at all *)


